(** * Orbex execution subsystem: queue claim, supervision, heartbeat, reaper,
      scheduler and run control handlers.

    The relational store is embedded as three tables (lists of rows); every
    SQL statement of the Go sources is a function on tables that follows the
    statement's WHERE / SET clauses.  The container runtime is a record of
    answers of the Docker daemon under the adapter of [docker.go].  Go errors
    are their message strings, times are nanoseconds ([time.Duration] units),
    UUIDs are their canonical text.  Where the code branches on a store
    error, the error is an input of the model; a statement whose error the
    code discards or only logs is taken to execute.  Where other tasks can
    write between two statements of a function, their writes are an input
    as well. *)

From Stdlib Require Import ZArith List String Bool Lia.
From Stdlib Require Import DecimalString.
From Stdlib Require OrderedTypeEx Sorted.
Import ListNotations.

Local Open Scope string_scope.
Local Open Scope list_scope.
Local Open Scope Z_scope.

Set Implicit Arguments.

(* ------------------------------------------------------------------ *)
(** ** Base types *)

Definition UUID := string.
Definition Time := Z.
Definition error := string.

Definition Millisecond : Z := 1000000.
Definition Second : Z := 1000000000.

(** [time.Duration.Milliseconds]: integer division truncating to zero. *)
Definition Milliseconds (d : Z) : Z := Z.quot d Millisecond.

(** [fmt.Sprintf("%d", n)]. *)
Definition fmt_d (n : Z) : string := NilZero.string_of_int (Z.to_int n).

Definition uuid_eqb (a b : UUID) : bool := String.eqb a b.

(* ------------------------------------------------------------------ *)
(** ** models: rows of the schema (migrations 001, 002) *)

Inductive RunStatus :=
| RunStatusPending
| RunStatusRunning
| RunStatusSucceeded
| RunStatusFailed
| RunStatusPaused
| RunStatusCancelled.

Definition RunStatus_eqb (a b : RunStatus) : bool :=
  match a, b with
  | RunStatusPending, RunStatusPending
  | RunStatusRunning, RunStatusRunning
  | RunStatusSucceeded, RunStatusSucceeded
  | RunStatusFailed, RunStatusFailed
  | RunStatusPaused, RunStatusPaused
  | RunStatusCancelled, RunStatusCancelled => true
  | _, _ => false
  end.

(** [status IN ('running', 'paused')] *)
Definition running_or_paused (s : RunStatus) : bool :=
  match s with
  | RunStatusRunning | RunStatusPaused => true
  | _ => false
  end.

(** [status IN ('pending', 'running', 'paused')] *)
Definition non_terminal (s : RunStatus) : bool :=
  match s with
  | RunStatusPending | RunStatusRunning | RunStatusPaused => true
  | _ => false
  end.

(** succeeded, failed and cancelled are the terminal states. *)
Definition terminal (s : RunStatus) : bool := negb (non_terminal s).

Record Job := mkJob {
  j_id : UUID;
  j_user_id : UUID;
  j_name : string;
  j_image : string;
  j_command : list string;
  j_env : list (string * string);
  j_memory_mb : Z;
  j_cpu_millicores : Z;
  j_timeout_seconds : Z;
  j_schedule : option string;
  j_is_active : bool
}.

Record JobRun := mkJobRun {
  r_id : UUID;
  r_job_id : UUID;
  r_user_id : UUID;
  r_status : RunStatus;
  r_container_id : option string;
  r_exit_code : option Z;
  r_error_message : option string;
  r_started_at : option Time;
  r_finished_at : option Time;
  r_paused_at : option Time;
  r_heartbeat_at : option Time;
  r_duration_ms : option Z;
  r_logs_tail : option string;
  r_created_at : Time
}.

Record QueueItem := mkQueueItem {
  q_id : UUID;
  q_job_id : UUID;
  q_run_id : UUID;
  q_priority : Z;
  q_scheduled_at : Time;
  q_picked_at : option Time;
  q_created_at : Time
}.

(** The durable store. *)
Record DB := mkDB {
  jobs : list Job;
  job_runs : list JobRun;
  job_queue : list QueueItem
}.

(* ------------------------------------------------------------------ *)
(** ** Column assignments ([SET col = v]) *)

Definition set_status (v : RunStatus) (r : JobRun) : JobRun :=
  mkJobRun (r_id r) (r_job_id r) (r_user_id r) v (r_container_id r)
    (r_exit_code r) (r_error_message r) (r_started_at r) (r_finished_at r)
    (r_paused_at r) (r_heartbeat_at r) (r_duration_ms r) (r_logs_tail r)
    (r_created_at r).

Definition set_container_id (v : option string) (r : JobRun) : JobRun :=
  mkJobRun (r_id r) (r_job_id r) (r_user_id r) (r_status r) v
    (r_exit_code r) (r_error_message r) (r_started_at r) (r_finished_at r)
    (r_paused_at r) (r_heartbeat_at r) (r_duration_ms r) (r_logs_tail r)
    (r_created_at r).

Definition set_exit_code (v : option Z) (r : JobRun) : JobRun :=
  mkJobRun (r_id r) (r_job_id r) (r_user_id r) (r_status r) (r_container_id r)
    v (r_error_message r) (r_started_at r) (r_finished_at r)
    (r_paused_at r) (r_heartbeat_at r) (r_duration_ms r) (r_logs_tail r)
    (r_created_at r).

Definition set_error_message (v : option string) (r : JobRun) : JobRun :=
  mkJobRun (r_id r) (r_job_id r) (r_user_id r) (r_status r) (r_container_id r)
    (r_exit_code r) v (r_started_at r) (r_finished_at r)
    (r_paused_at r) (r_heartbeat_at r) (r_duration_ms r) (r_logs_tail r)
    (r_created_at r).

Definition set_started_at (v : option Time) (r : JobRun) : JobRun :=
  mkJobRun (r_id r) (r_job_id r) (r_user_id r) (r_status r) (r_container_id r)
    (r_exit_code r) (r_error_message r) v (r_finished_at r)
    (r_paused_at r) (r_heartbeat_at r) (r_duration_ms r) (r_logs_tail r)
    (r_created_at r).

Definition set_finished_at (v : option Time) (r : JobRun) : JobRun :=
  mkJobRun (r_id r) (r_job_id r) (r_user_id r) (r_status r) (r_container_id r)
    (r_exit_code r) (r_error_message r) (r_started_at r) v
    (r_paused_at r) (r_heartbeat_at r) (r_duration_ms r) (r_logs_tail r)
    (r_created_at r).

Definition set_paused_at (v : option Time) (r : JobRun) : JobRun :=
  mkJobRun (r_id r) (r_job_id r) (r_user_id r) (r_status r) (r_container_id r)
    (r_exit_code r) (r_error_message r) (r_started_at r) (r_finished_at r)
    v (r_heartbeat_at r) (r_duration_ms r) (r_logs_tail r)
    (r_created_at r).

Definition set_heartbeat_at (v : option Time) (r : JobRun) : JobRun :=
  mkJobRun (r_id r) (r_job_id r) (r_user_id r) (r_status r) (r_container_id r)
    (r_exit_code r) (r_error_message r) (r_started_at r) (r_finished_at r)
    (r_paused_at r) v (r_duration_ms r) (r_logs_tail r)
    (r_created_at r).

Definition set_duration_ms (v : option Z) (r : JobRun) : JobRun :=
  mkJobRun (r_id r) (r_job_id r) (r_user_id r) (r_status r) (r_container_id r)
    (r_exit_code r) (r_error_message r) (r_started_at r) (r_finished_at r)
    (r_paused_at r) (r_heartbeat_at r) v (r_logs_tail r)
    (r_created_at r).

Definition set_logs_tail (v : option string) (r : JobRun) : JobRun :=
  mkJobRun (r_id r) (r_job_id r) (r_user_id r) (r_status r) (r_container_id r)
    (r_exit_code r) (r_error_message r) (r_started_at r) (r_finished_at r)
    (r_paused_at r) (r_heartbeat_at r) (r_duration_ms r) v
    (r_created_at r).

Definition set_picked_at (v : option Time) (q : QueueItem) : QueueItem :=
  mkQueueItem (q_id q) (q_job_id q) (q_run_id q) (q_priority q)
    (q_scheduled_at q) v (q_created_at q).

(* ------------------------------------------------------------------ *)
(** ** SQL statements on a table *)

Section Sql.
Variable Row : Type.

(** [UPDATE t SET ... WHERE p] *)
Definition update_where (p : Row -> bool) (f : Row -> Row) (t : list Row) :=
  map (fun r => if p r then f r else r) t.

(** [DELETE FROM t WHERE p] *)
Definition delete_where (p : Row -> bool) (t : list Row) :=
  filter (fun r => negb (p r)) t.

(** [SELECT ... FROM t WHERE p] *)
Definition select_where (p : Row -> bool) (t : list Row) := filter p t.

(** [QueryRow(...).Scan]: first row of the result, [None] for
    [pgx.ErrNoRows]. *)
Definition query_row (p : Row -> bool) (t : list Row) : option Row :=
  find p t.
End Sql.

Definition with_runs (f : list JobRun -> list JobRun) (db : DB) : DB :=
  mkDB (jobs db) (f (job_runs db)) (job_queue db).

Definition with_queue (f : list QueueItem -> list QueueItem) (db : DB) : DB :=
  mkDB (jobs db) (job_runs db) (f (job_queue db)).

Definition has_id (id : UUID) (r : JobRun) : bool := uuid_eqb (r_id r) id.

(** [UPDATE job_runs SET ... WHERE id = $n] *)
Definition update_run (id : UUID) (f : JobRun -> JobRun) : DB -> DB :=
  with_runs (update_where (has_id id) f).

(* ------------------------------------------------------------------ *)
(** ** docker: the container runtime adapter *)

Record ContainerConfig := mkContainerConfig {
  cfg_Image : string;
  cfg_Command : list string;
  cfg_Env : list (string * string);
  cfg_MemoryMB : Z;
  cfg_CPUMillicores : Z;
  cfg_Name : string
}.

(** Outcomes of the Docker Engine API calls behind the adapter. *)
Inductive PullOutcome :=
| PullDone
| PullError (err : error)       (* ImagePull fails *)
| PullWaitError (err : error).  (* resp.Wait fails *)

Inductive LogsOutcome :=
| LogsText (text : string)
| LogsError (err : error)       (* ContainerLogs fails *)
| LogsCopyError (err : error).  (* stdcopy.StdCopy fails *)

Inductive WaitOutcome :=
| WaitExited (StatusCode : Z)          (* waitResult.Result *)
| WaitFailed (err : option error).     (* waitResult.Error, possibly nil *)

(** What the Docker daemon answers to the wrapped client. *)
Record Client := mkClient {
  ImagePull : string -> PullOutcome;
  ContainerCreate : ContainerConfig -> string + error;
  ContainerStart : string -> option error;
  ContainerStop : string -> Z -> option error;
  ContainerPause : string -> option error;
  ContainerUnpause : string -> option error;
  ContainerLogs : string -> string -> LogsOutcome;
  ContainerWait : string -> WaitOutcome;
  ContainerRemove : string -> option error
}.

(** The adapter's methods.  A Go result [(v, err)] is a pair with [None]
    for a nil error. *)
Definition PullImage (c : Client) (imageName : string) : option error :=
  match ImagePull c imageName with
  | PullError err => Some ("pulling image " ++ imageName ++ ": " ++ err)%string
  | PullWaitError err =>
      Some ("waiting for image pull " ++ imageName ++ ": " ++ err)%string
  | PullDone => None
  end.

Definition CreateContainer (c : Client) (cfg : ContainerConfig)
    : string * option error :=
  match ContainerCreate c cfg with
  | inr err => (EmptyString, Some ("creating container: " ++ err)%string)
  | inl ID => (ID, None)
  end.

Definition StartContainer (c : Client) (containerID : string) : option error :=
  ContainerStart c containerID.

Definition StopContainer (c : Client) (containerID : string)
    (timeoutSeconds : Z) : option error :=
  ContainerStop c containerID timeoutSeconds.

Definition PauseContainer (c : Client) (containerID : string) : option error :=
  ContainerPause c containerID.

Definition UnpauseContainer (c : Client) (containerID : string) : option error :=
  ContainerUnpause c containerID.

Definition GetLogs (c : Client) (containerID : string) (tail : string)
    : string * option error :=
  match ContainerLogs c containerID tail with
  | LogsError err => (EmptyString, Some ("getting logs: " ++ err)%string)
  | LogsCopyError err => (EmptyString, Some ("reading logs: " ++ err)%string)
  | LogsText text => (text, None)
  end.

(** The supervisor passes [context.Background()], so the [ctx.Done()] case
    of the select never fires. *)
Definition WaitContainer (c : Client) (containerID : string) : Z * option error :=
  match ContainerWait c containerID with
  | WaitFailed (Some err) => (-1, Some ("waiting for container: " ++ err)%string)
  | WaitFailed None => (-1, Some "unexpected wait state")
  | WaitExited StatusCode => (StatusCode, None)
  end.

Definition RemoveContainer (c : Client) (containerID : string) : option error :=
  ContainerRemove c containerID.

(** Observable actions of the worker and of the handlers, in program order. *)
Inductive Event :=
| PullImageCall (image : string)
| CreateContainerCall (cfg : ContainerConfig)
| StartContainerCall (cid : string)
| WaitContainerCall (cid : string)
| StopContainerCall (cid : string) (grace : Z)
| PauseContainerCall (cid : string)
| UnpauseContainerCall (cid : string)
| GetLogsCall (cid : string) (tail : string)
| RemoveContainerCall (cid : string)
| MarkRunning (runID : UUID)
| StoreContainerID (runID : UUID) (cid : string)
| HeartbeatStart (runID : UUID)
| HeartbeatTick (runID : UUID) (now : Time)
| HeartbeatCancel (runID : UUID)
| TerminalUpdate (runID : UUID) (status : string)
| FailRun (runID : UUID) (msg : string)
| CleanupQueue (queueID : UUID).

(* ------------------------------------------------------------------ *)
(** ** worker: heartbeat and reaper (statements) *)

Definition heartbeatInterval : Z := 10 * Second.
Definition reaperInterval : Z := 30 * Second.
Definition staleThreshold : Z := 60 * Second.

(** One tick of [emitHeartbeat]:
    [UPDATE job_runs SET heartbeat_at = now()
     WHERE id = $1 AND status IN ('running', 'paused')] *)
Definition heartbeat_tick (runID : UUID) (now : Time) : DB -> DB :=
  with_runs (update_where
    (fun r => has_id runID r && running_or_paused (r_status r))
    (set_heartbeat_at (Some now))).

(** [emitHeartbeat]: the ticker loop, over the ticks that fire before the
    context is cancelled. *)
Definition emitHeartbeat (runID : UUID) (ticks : list Time) (db : DB) : DB :=
  fold_left (fun d t => heartbeat_tick runID t d) ticks db.

(** [failRun]'s statement:
    [UPDATE job_runs SET status = 'failed', error_message = $1,
       finished_at = $2, duration_ms = $3, heartbeat_at = NULL WHERE id = $4].
    The two clock readings of the function are the single [now]. *)
Definition failRun (runID : UUID) (startedAt : Time) (errorMsg : string)
    (now : Time) : DB -> DB :=
  let duration := now - startedAt in
  update_run runID (fun r =>
    set_heartbeat_at None
      (set_duration_ms (Some (Milliseconds duration))
        (set_finished_at (Some now)
          (set_error_message (Some errorMsg)
            (set_status RunStatusFailed r))))).

(** [cleanupQueue]: [DELETE FROM job_queue WHERE id = $1] *)
Definition cleanupQueue (queueID : UUID) : DB -> DB :=
  with_queue (delete_where (fun q => uuid_eqb (q_id q) queueID)).

(** [DELETE FROM job_queue WHERE run_id = $1] *)
Definition delete_queue_of_run (runID : UUID) : DB -> DB :=
  with_queue (delete_where (fun q => uuid_eqb (q_run_id q) runID)).

(** The reaper's WHERE clause:
    [status IN ('running', 'paused') AND heartbeat_at IS NOT NULL
     AND heartbeat_at < now() - staleThreshold] *)
Definition is_stale (now : Time) (r : JobRun) : bool :=
  running_or_paused (r_status r) &&
  match r_heartbeat_at r with
  | Some h => h <? now - staleThreshold
  | None => false
  end.

Record staleRun := mkStaleRun {
  sr_ID : UUID;
  sr_ContainerID : option string
}.

Definition heartbeat_timeout_message : string :=
  "heartbeat timeout: worker may have crashed".

(** The reaper's SET clause: [status = 'failed', error_message = '...',
    finished_at = now(), heartbeat_at = NULL]. *)
Definition reaper_set (now : Time) (r : JobRun) : JobRun :=
  set_heartbeat_at None
    (set_finished_at (Some now)
      (set_error_message (Some heartbeat_timeout_message)
        (set_status RunStatusFailed r))).

(** What other tasks write to the store while the reaper handles one
    selected row: before its UPDATE (after the SELECT or the previous row,
    and during the container calls, which come first and may take their
    10 s grace), and between its UPDATE and its DELETE. *)
Record Meanwhile := mkMeanwhile {
  before_update : DB -> DB;
  before_delete : DB -> DB
}.

Definition no_writes : Meanwhile := mkMeanwhile (fun d => d) (fun d => d).

(** Body of the [for _, sr := range stale] loop. *)
Definition reap_one (now : Time) (others : Meanwhile) (st : DB * list Event)
    (sr : staleRun) : DB * list Event :=
  let '(db, tr) := st in
  let calls :=
    match sr_ContainerID sr with
    | Some cid =>
        if String.eqb cid EmptyString then []
        else [StopContainerCall cid 10; RemoveContainerCall cid]
    | None => []
    end in
  let db1 := update_run (sr_ID sr) (reaper_set now) (before_update others db) in
  let db2 := delete_queue_of_run (sr_ID sr) (before_delete others db1) in
  (db2, tr ++ calls).

(** The loop over the selected rows; the [k]-th element of [meanwhile]
    belongs to the [k]-th row, rows beyond the list are handled with no
    write of another task in between. *)
Fixpoint reap_rows (now : Time) (meanwhile : list Meanwhile)
    (stale : list staleRun) (st : DB * list Event) : DB * list Event :=
  match stale with
  | [] => st
  | sr :: rest =>
      reap_rows now (tl meanwhile) rest
        (reap_one now (hd no_writes meanwhile) st sr)
  end.

(** The rows of the reaper's SELECT. *)
Definition stale_runs (now : Time) (db : DB) : list staleRun :=
  map (fun r => mkStaleRun (r_id r) (r_container_id r))
      (select_where (is_stale now) (job_runs db)).

(** [reapStaleRuns]: one pass.  [query_err] is the error of the SELECT; the
    clock readings of the statements of one pass are the single [now];
    [meanwhile] is what other tasks write during the pass, [[]] for a pass
    that runs alone. *)
Definition reapStaleRuns (query_err : bool) (now : Time)
    (meanwhile : list Meanwhile) (db : DB) : DB * list Event :=
  if query_err then (db, [])
  else reap_rows now meanwhile (stale_runs now db) (db, []).

(* ------------------------------------------------------------------ *)
(** ** api: run control handlers *)

Inductive Body :=
| ErrorResponse (err : string) (message : string)
| JsonMap (kv : list (string * string)).

Record Response := mkResponse {
  resp_code : Z;
  resp_body : Body
}.

Definition StatusOK : Z := 200.
Definition StatusBadRequest : Z := 400.
Definition StatusNotFound : Z := 404.
Definition StatusConflict : Z := 409.
Definition StatusInternalServerError : Z := 500.

(** [WHERE id = $1 AND user_id = $2] *)
Definition owned_run (runID user : UUID) (r : JobRun) : bool :=
  uuid_eqb (r_id r) runID && uuid_eqb (r_user_id r) user.

Definition invalid_run_id : Response :=
  mkResponse StatusBadRequest (ErrorResponse "invalid_request" "Invalid run ID").

Definition run_not_found : Response :=
  mkResponse StatusNotFound (ErrorResponse "not_found" "Run not found").

(** [KillRun]'s statement:
    [UPDATE job_runs SET status = 'cancelled', finished_at = $1,
       duration_ms = $2, error_message = 'Killed by user' WHERE id = $3] *)
Definition kill_update (runID : UUID) (now : Time) (durationMs : Z) : DB -> DB :=
  update_run runID (fun r =>
    set_error_message (Some "Killed by user")
      (set_duration_ms (Some durationMs)
        (set_finished_at (Some now)
          (set_status RunStatusCancelled r)))).

(** The handlers' [QueryRow(...).Scan]: any error, [pgx.ErrNoRows]
    included, leaves no row to work on.  [query_err] is a failure of the
    store. *)
Definition scan_run (query_err : bool) (runID user : UUID) (db : DB)
    : option JobRun :=
  if query_err then None else query_row (owned_run runID user) (job_runs db).

(** [KillRun].  [runID] is the result of [uuid.Parse] on the URL parameter;
    the results of the three runtime calls are discarded by the handler. *)
Definition KillRun (query_err : bool) (user : UUID) (runID : option UUID)
    (now : Time) (db : DB) : Response * DB * list Event :=
  match runID with
  | None => (invalid_run_id, db, [])
  | Some runID =>
    match scan_run query_err runID user db with
    | None => (run_not_found, db, [])
    | Some row =>
      let containerID := r_container_id row in
      let status := r_status row in
      let startedAt := r_started_at row in
      if negb (RunStatus_eqb status RunStatusRunning) &&
         negb (RunStatus_eqb status RunStatusPaused)
      then (mkResponse StatusConflict
              (ErrorResponse "invalid_state" "Can only kill running or paused jobs"),
            db, [])
      else
        let calls :=
          match containerID with
          | Some cid =>
              (if RunStatus_eqb status RunStatusPaused
               then [UnpauseContainerCall cid] else [])
              ++ [StopContainerCall cid 10; RemoveContainerCall cid]
          | None => []
          end in
        let durationMs :=
          match startedAt with
          | Some s => Milliseconds (now - s)
          | None => 0
          end in
        let db1 := kill_update runID now durationMs db in
        let db2 := delete_queue_of_run runID db1 in
        (mkResponse StatusOK
           (JsonMap [("status", "cancelled"); ("message", "Job killed.")]),
         db2, calls)
    end
  end.

(** [PauseRun] *)
Definition PauseRun (docker : Client) (query_err : bool) (user : UUID)
    (runID : option UUID) (now : Time) (db : DB)
    : Response * DB * list Event :=
  match runID with
  | None => (invalid_run_id, db, [])
  | Some runID =>
    match scan_run query_err runID user db with
    | None => (run_not_found, db, [])
    | Some row =>
      if negb (RunStatus_eqb (r_status row) RunStatusRunning)
      then (mkResponse StatusConflict
              (ErrorResponse "invalid_state" "Can only pause running jobs"),
            db, [])
      else
        match r_container_id row with
        | None =>
            (mkResponse StatusConflict
               (ErrorResponse "invalid_state" "No container associated with this run"),
             db, [])
        | Some cid =>
          match PauseContainer docker cid with
          | Some _ =>
              (mkResponse StatusInternalServerError
                 (ErrorResponse "internal_error" "Failed to pause container"),
               db, [PauseContainerCall cid])
          | None =>
              (mkResponse StatusOK
                 (JsonMap [("status", "paused");
                           ("message", "Container paused. Use resume to continue or kill to terminate.")]),
               update_run runID (fun r =>
                 set_paused_at (Some now) (set_status RunStatusPaused r)) db,
               [PauseContainerCall cid])
          end
        end
    end
  end.

(** [ResumeRun] *)
Definition ResumeRun (docker : Client) (query_err : bool) (user : UUID)
    (runID : option UUID) (db : DB) : Response * DB * list Event :=
  match runID with
  | None => (invalid_run_id, db, [])
  | Some runID =>
    match scan_run query_err runID user db with
    | None => (run_not_found, db, [])
    | Some row =>
      if negb (RunStatus_eqb (r_status row) RunStatusPaused)
      then (mkResponse StatusConflict
              (ErrorResponse "invalid_state" "Can only resume paused jobs"),
            db, [])
      else
        match r_container_id row with
        | None =>
            (mkResponse StatusConflict
               (ErrorResponse "invalid_state" "No container associated with this run"),
             db, [])
        | Some cid =>
          match UnpauseContainer docker cid with
          | Some _ =>
              (mkResponse StatusInternalServerError
                 (ErrorResponse "internal_error" "Failed to resume container"),
               db, [UnpauseContainerCall cid])
          | None =>
              (mkResponse StatusOK
                 (JsonMap [("status", "running");
                           ("message", "Container resumed from paused state.")]),
               update_run runID (fun r =>
                 set_paused_at None (set_status RunStatusRunning r)) db,
               [UnpauseContainerCall cid])
          end
        end
    end
  end.

(** [GetRunLogs] *)
Definition GetRunLogs (docker : Client) (query_err : bool) (user : UUID)
    (runID : option UUID) (db : DB) : Response :=
  match runID with
  | None => invalid_run_id
  | Some runID =>
    match scan_run query_err runID user db with
    | None => run_not_found
    | Some row =>
      let stored :=
        match r_logs_tail row with
        | Some l => l
        | None => EmptyString
        end in
      match r_container_id row with
      | Some cid =>
          if RunStatus_eqb (r_status row) RunStatusRunning ||
             RunStatus_eqb (r_status row) RunStatusPaused
          then
            match GetLogs docker cid "1000" with
            | (logs, None) => mkResponse StatusOK (JsonMap [("logs", logs)])
            | (_, Some _) => mkResponse StatusOK (JsonMap [("logs", stored)])
            end
          else mkResponse StatusOK (JsonMap [("logs", stored)])
      | None => mkResponse StatusOK (JsonMap [("logs", stored)])
      end
    end
  end.

(* ------------------------------------------------------------------ *)
(** ** worker: the supervisor *)

(** What other tasks do to the store while a supervisor is blocked: the
    control handlers and the reaper, the latter as a whole pass or as the
    statements for one row that it selected earlier. *)
Inductive Activity :=
| ActKill (query_err : bool) (user : UUID) (runID : option UUID) (now : Time)
| ActPause (query_err : bool) (user : UUID) (runID : option UUID) (now : Time)
| ActResume (query_err : bool) (user : UUID) (runID : option UUID)
| ActReap (query_err : bool) (now : Time)
| ActReapRow (now : Time) (sr : staleRun).

Definition run_activity (docker : Client) (a : Activity) (db : DB) : DB :=
  match a with
  | ActKill query_err user runID now =>
      snd (fst (KillRun query_err user runID now db))
  | ActPause query_err user runID now =>
      snd (fst (PauseRun docker query_err user runID now db))
  | ActResume query_err user runID =>
      snd (fst (ResumeRun docker query_err user runID db))
  | ActReap query_err now => fst (reapStaleRuns query_err now [] db)
  | ActReapRow now sr => fst (reap_one now no_writes (db, []) sr)
  end.

Definition run_activities (docker : Client) (l : list Activity) (db : DB) : DB :=
  fold_left (fun d a => run_activity docker a d) l db.

(** While the supervisor waits for the container, its own heartbeat emitter
    ticks and other tasks run. *)
Inductive WaitItem :=
| Tick (now : Time)
| Other (a : Activity).

(** The runtime calls in which the supervisor blocks before the wait. *)
Inductive Stage := AtPull | AtCreate | AtStart | AtLogs.

Definition Stage_eqb (a b : Stage) : bool :=
  match a, b with
  | AtPull, AtPull | AtCreate, AtCreate | AtStart, AtStart | AtLogs, AtLogs => true
  | _, _ => false
  end.

(** Everything outside one call of [executeRun] that its course depends on. *)
Record Env := mkEnv {
  docker : Client;
  mark_running_err : bool;            (* the first UPDATE returns an error *)
  panic_at : option (Stage * string); (* a runtime call panics with a value *)
  timer_fires : bool;                 (* select: timer.C is ready before waitCh *)
  now_started : Time;                 (* time.Now() on entry *)
  now_done : Time;                    (* clock of time.Since after the wait *)
  now_finished : Time;                (* time.Now() of the terminal statement *)
  now_failed : Time;                  (* clock of failRun *)
  concurrent : Stage -> list Activity;
  while_waiting : list WaitItem
}.

(** Control flow of a Go function body: fall through, [return], or panic. *)
Inductive Flow (A : Type) :=
| Next (a : A)
| Return
| Panicked (v : string).

Arguments Return {A}.
Arguments Panicked {A} v.

Definition Sup (A : Type) : Type := DB * list Event -> Flow A * (DB * list Event).

Definition ret {A} (a : A) : Sup A := fun s => (Next a, s).

Definition bind {A B} (c : Sup A) (k : A -> Sup B) : Sup B :=
  fun s =>
    match c s with
    | (Next a, s') => k a s'
    | (Return, s') => (Return, s')
    | (Panicked v, s') => (Panicked v, s')
    end.

Definition return_ {A} : Sup A := fun s => (Return, s).
Definition panic {A} (v : string) : Sup A := fun s => (Panicked v, s).
Definition exec (f : DB -> DB) : Sup unit := fun s => (Next tt, (f (fst s), snd s)).
Definition emit (e : Event) : Sup unit := fun s => (Next tt, (fst s, snd s ++ [e])).

Declare Scope sup_scope.
Delimit Scope sup_scope with sup.
Notation "x <- c ;; k" := (bind c (fun x => k))
  (at level 61, c at next level, right associativity) : sup_scope.
Notation "c ;; k" := (bind c (fun _ => k))
  (at level 61, right associativity) : sup_scope.
Local Open Scope sup_scope.

(** A blocking runtime call: other tasks run meanwhile, and the call may
    panic instead of returning. *)
Definition blocking (env : Env) (st : Stage) (call : Event) : Sup unit :=
  emit call ;;
  exec (run_activities (docker env) (concurrent env st)) ;;
  match panic_at env with
  | Some (st', v) => if Stage_eqb st st' then panic v else ret tt
  | None => ret tt
  end.

Definition fail_run (env : Env) (runID : UUID) (errorMsg : string) : Sup unit :=
  exec (failRun runID (now_started env) errorMsg (now_failed env)) ;;
  emit (FailRun runID errorMsg).

Definition cleanup_queue (queueID : UUID) : Sup unit :=
  exec (cleanupQueue queueID) ;; emit (CleanupQueue queueID).

Definition wait_item (docker : Client) (runID : UUID) (w : WaitItem) : Sup unit :=
  match w with
  | Tick now => exec (heartbeat_tick runID now) ;; emit (HeartbeatTick runID now)
  | Other a => exec (run_activity docker a)
  end.

Fixpoint waiting (docker : Client) (runID : UUID) (l : list WaitItem) : Sup unit :=
  match l with
  | [] => ret tt
  | w :: l' => wait_item docker runID w ;; waiting docker runID l'
  end.

(** "Determine final status": the four UPDATE statements of [executeRun],
    each [WHERE id = $n]. *)
Definition terminal_update (timedOut : bool) (err : option error) (exitCode : Z)
    (TimeoutSeconds : Z) (finished : Time) (durationMs : Z) (logStr : string)
    (runID : UUID) : DB -> DB :=
  if timedOut then
    update_run runID (fun r =>
      set_heartbeat_at None (set_logs_tail (Some logStr)
        (set_duration_ms (Some durationMs) (set_finished_at (Some finished)
          (set_error_message
             (Some ("timeout exceeded (" ++ fmt_d TimeoutSeconds ++ "s limit)")%string)
             (set_exit_code (Some exitCode) (set_status RunStatusFailed r)))))))
  else
    match err with
    | Some errMsg =>
      update_run runID (fun r =>
        set_heartbeat_at None (set_logs_tail (Some logStr)
          (set_duration_ms (Some durationMs) (set_finished_at (Some finished)
            (set_error_message (Some errMsg)
               (set_exit_code (Some exitCode) (set_status RunStatusFailed r)))))))
    | None =>
      if exitCode =? 0 then
        update_run runID (fun r =>
          set_heartbeat_at None (set_logs_tail (Some logStr)
            (set_duration_ms (Some durationMs) (set_finished_at (Some finished)
              (set_exit_code (Some 0) (set_status RunStatusSucceeded r))))))
      else
        update_run runID (fun r =>
          set_heartbeat_at None (set_logs_tail (Some logStr)
            (set_duration_ms (Some durationMs) (set_finished_at (Some finished)
              (set_error_message (Some ("exit code " ++ fmt_d exitCode)%string)
                 (set_exit_code (Some exitCode) (set_status RunStatusFailed r)))))))
    end.

(** The [status] variable of [executeRun]. *)
Definition final_status (timedOut : bool) (err : option error) (exitCode : Z)
    : string :=
  if timedOut then "failed"
  else match err with
       | Some _ => "failed"
       | None => if exitCode =? 0 then "succeeded" else "failed"
       end.

(** The [docker.ContainerConfig] literal of [executeRun]; the name is
    [fmt.Sprintf("orbex-%s-%s", job.Name, runID.String()[:8])]. *)
Definition container_config (job : Job) (runID : UUID) : ContainerConfig :=
  let containerName :=
    ("orbex-" ++ j_name job ++ "-" ++ substring 0 8 runID)%string in
  mkContainerConfig (j_image job) (j_command job) (j_env job)
    (j_memory_mb job) (j_cpu_millicores job) containerName.

(** "Mark as running":
    [UPDATE job_runs SET status = 'running', started_at = $1,
       heartbeat_at = $1 WHERE id = $2] *)
Definition mark_running (runID : UUID) (startedAt : Time) : DB -> DB :=
  update_run runID (fun r =>
    set_heartbeat_at (Some startedAt)
      (set_started_at (Some startedAt) (set_status RunStatusRunning r))).

(** Body of [executeRun], without the deferred recovery. *)
Definition executeRun_body (env : Env) (job : Job) (runID queueID : UUID)
    : Sup unit :=
  let startedAt := now_started env in
  (* Mark as running *)
  (if mark_running_err env then return_
   else exec (mark_running runID startedAt) ;; emit (MarkRunning runID)) ;;
  (* Pull image *)
  blocking env AtPull (PullImageCall (j_image job)) ;;
  match PullImage (docker env) (j_image job) with
  | Some err =>
      fail_run env runID ("image pull failed: " ++ err)%string ;;
      cleanup_queue queueID ;;
      return_
  | None => ret tt
  end ;;
  (* Create container *)
  let cfg := container_config job runID in
  blocking env AtCreate (CreateContainerCall cfg) ;;
  containerID <-
    match CreateContainer (docker env) cfg with
    | (_, Some err) =>
        fail_run env runID ("container create failed: " ++ err)%string ;;
        cleanup_queue queueID ;;
        return_
    | (cid, None) => ret cid
    end ;;
  (* Store container ID *)
  exec (update_run runID (set_container_id (Some containerID))) ;;
  emit (StoreContainerID runID containerID) ;;
  (* Set up wait channel BEFORE starting *)
  emit (WaitContainerCall containerID) ;;
  (* Start container *)
  blocking env AtStart (StartContainerCall containerID) ;;
  match StartContainer (docker env) containerID with
  | Some err =>
      fail_run env runID ("container start failed: " ++ err)%string ;;
      emit (RemoveContainerCall containerID) ;;
      cleanup_queue queueID ;;
      return_
  | None => ret tt
  end ;;
  (* Start heartbeat emitter *)
  emit (HeartbeatStart runID) ;;
  (* Wait for container to exit (with timeout enforcement) *)
  waiting (docker env) runID (while_waiting env) ;;
  timedOut <-
    (if 0 <? j_timeout_seconds job then
       if timer_fires env then
         emit (StopContainerCall containerID 5) ;; ret true
       else ret false
     else ret false) ;;
  let result := WaitContainer (docker env) containerID in
  emit (HeartbeatCancel runID) ;;
  let duration := now_done env - startedAt in
  (* Capture logs *)
  blocking env AtLogs (GetLogsCall containerID "all") ;;
  let logStr := fst (GetLogs (docker env) containerID "all") in
  (* Determine final status *)
  let exitCode := fst result in
  exec (terminal_update timedOut (snd result) exitCode (j_timeout_seconds job)
          (now_finished env) (Milliseconds duration) logStr runID) ;;
  emit (TerminalUpdate runID (final_status timedOut (snd result) exitCode)) ;;
  (* Cleanup *)
  cleanup_queue queueID ;;
  emit (RemoveContainerCall containerID).

(** [executeRun]: the body under its deferred [recover], which routes a
    panic value [v] to [failRun] with the text ["panic: v"]. *)
Definition executeRun (env : Env) (job : Job) (runID queueID : UUID) (db : DB)
    : DB * list Event :=
  match executeRun_body env job runID queueID (db, []) with
  | (Panicked v, s) => snd (fail_run env runID ("panic: " ++ v)%string s)
  | (_, s) => s
  end.

(* ------------------------------------------------------------------ *)
(** ** worker: claiming a queue row *)

(** [queuedJob]: the joined data from job_queue + jobs. *)
Record queuedJob := mkQueuedJob {
  QueueID : UUID;
  RunID : UUID;
  JobID : UUID;
  JobName : string;
  Image : string;
  Command : list string;
  EnvJSON : list (string * string);
  MemoryMB : Z;
  CPUMillicores : Z;
  TimeoutSeconds : Z
}.

(** Errors of the four store calls of [pollAndExecute]. *)
Record TxErrors := mkTxErrors {
  begin_err : bool;
  query_err : bool;
  update_err : bool;
  commit_err : bool
}.

Definition no_errors : TxErrors := mkTxErrors false false false false.

Definition is_null {A} (o : option A) : bool :=
  match o with
  | None => true
  | Some _ => false
  end.

(** Rows the SELECT can return: [q.picked_at IS NULL AND
    q.scheduled_at <= now()], joined to an existing job, and not locked by
    another transaction ([FOR UPDATE OF q SKIP LOCKED]). *)
Definition claimable (locked : list UUID) (now : Time) (db : DB)
    (q : QueueItem) : bool :=
  is_null (q_picked_at q) &&
  (q_scheduled_at q <=? now) &&
  existsb (fun j => uuid_eqb (j_id j) (q_job_id q)) (jobs db) &&
  negb (existsb (uuid_eqb (q_id q)) locked).

(** [ORDER BY q.priority DESC, q.scheduled_at ASC]: [a] sorts strictly
    before [b]. *)
Definition sorts_before (a b : QueueItem) : bool :=
  (q_priority b <? q_priority a) ||
  ((q_priority a =? q_priority b) && (q_scheduled_at a <? q_scheduled_at b)).

(** [LIMIT 1] of the ordered rows; among rows the order does not separate,
    the first in table order. *)
Fixpoint first_row (l : list QueueItem) : option QueueItem :=
  match l with
  | [] => None
  | q :: l' =>
      match first_row l' with
      | Some b => if sorts_before b q then Some b else Some q
      | None => Some q
      end
  end.

Definition join_job (db : DB) (q : QueueItem) : option Job :=
  find (fun j => uuid_eqb (j_id j) (q_job_id q)) (jobs db).

Definition nil_uuid : UUID := "00000000-0000-0000-0000-000000000000".

(** [pollAndExecute]: the claim.  The result is the store after the call
    and, when a row was claimed, the arguments [(job, runID, queueID)] of the
    [executeRun] goroutine it starts.  Every other path is a bare
    [return]. *)
Definition pollAndExecute (errs : TxErrors) (locked : list UUID) (now : Time)
    (db : DB) : DB * option (Job * UUID * UUID) :=
  if begin_err errs then (db, None)
  else if query_err errs then (db, None)  (* tx.Rollback *)
  else
    match first_row (select_where (claimable locked now db) (job_queue db)) with
    | None => (db, None)  (* pgx.ErrNoRows; tx.Rollback *)
    | Some q =>
      match join_job db q with
      | None => (db, None)
      | Some j =>
        let qj := mkQueuedJob (q_id q) (q_run_id q) (q_job_id q)
                    (j_name j) (j_image j) (j_command j) (j_env j)
                    (j_memory_mb j) (j_cpu_millicores j) (j_timeout_seconds j) in
        if update_err errs then (db, None)  (* tx.Rollback *)
        else if commit_err errs then (db, None)
        else
          (* UPDATE job_queue SET picked_at = now() WHERE id = $1 *)
          let db' := with_queue (update_where
                       (fun r => uuid_eqb (q_id r) (QueueID qj))
                       (set_picked_at (Some now))) db in
          let job := mkJob (JobID qj) nil_uuid (JobName qj) (Image qj)
                       (Command qj) (EnvJSON qj) (MemoryMB qj)
                       (CPUMillicores qj) (TimeoutSeconds qj) None false in
          (db', Some (job, RunID qj, QueueID qj))
      end
    end.

(* ------------------------------------------------------------------ *)
(** ** worker: the scheduler *)

Definition schedulerInterval : Z := 60 * Second.

(** [SELECT COUNT( * ) FROM job_runs WHERE job_id = $1
     AND status IN ('pending', 'running', 'paused')] *)
Definition active_count (jobID : UUID) (db : DB) : Z :=
  Z.of_nat (List.length (select_where
    (fun r => uuid_eqb (r_job_id r) jobID && non_terminal (r_status r))
    (job_runs db))).

(** [SELECT created_at FROM job_runs WHERE job_id = $1
     ORDER BY created_at DESC LIMIT 1] *)
Fixpoint last_created_at (jobID : UUID) (runs : list JobRun) : option Time :=
  match runs with
  | [] => None
  | r :: l =>
      if uuid_eqb (r_job_id r) jobID then
        match last_created_at jobID l with
        | Some t => Some (Z.max (r_created_at r) t)
        | None => Some (r_created_at r)
        end
      else last_created_at jobID l
  end.

(** Errors of the store calls the scheduler makes for one job. *)
Record SchedErrors := mkSchedErrors {
  count_err : bool;        (* the COUNT query *)
  last_err : bool;         (* the created_at query; its error is discarded *)
  insert_run_err : bool;
  insert_queue_err : bool
}.

Section Scheduler.
(** The cron library (robfig/cron): a parser for five-field expressions
    and the next activation time of a schedule. *)
Variable Schedule : Type.
Variable Parse : string -> option Schedule.
Variable Next : Schedule -> Time -> Time.

(** [shouldEnqueue] *)
Definition shouldEnqueue (errs : SchedErrors) (now : Time) (jobID : UUID)
    (schedule : string) (db : DB) : bool :=
  match Parse schedule with
  | None => false
  | Some sched =>
    if count_err errs then false
    else if 0 <? active_count jobID db then false
    else
      let lastRunAt :=
        if last_err errs then None
        else last_created_at jobID (job_runs db) in
      match lastRunAt with
      | None => true
      | Some t =>
          let nextRun := Next sched t in
          (nextRun <? now) || (now =? nextRun)
      end
  end.

(** [enqueueScheduledRun].  [runID] and [queueID] are the values the
    column default [gen_random_uuid()] produces; [now] is the value of
    the [now()] defaults. *)
Definition enqueueScheduledRun (errs : SchedErrors) (now : Time)
    (runID queueID : UUID) (jobID userID : UUID) (db : DB) : DB :=
  if insert_run_err errs then db
  else
    let run := mkJobRun runID jobID userID RunStatusPending None None None
                 None None None None None None now in
    let db1 := with_runs (fun t => t ++ [run]) db in
    if insert_queue_err errs then db1
    else
      with_queue (fun t =>
        t ++ [mkQueueItem queueID jobID runID 0 now None now]) db1.

(** [checkScheduledJobs]: the rows of
    [SELECT j.id, j.user_id, j.schedule FROM jobs j
     WHERE j.schedule IS NOT NULL AND j.is_active = true]
    visited in order.  [uuid n] is the [n]-th generated identifier. *)
Fixpoint schedule_jobs (errs : UUID -> SchedErrors) (now : Time)
    (uuid : nat -> UUID) (n : nat) (rows : list Job) (db : DB) : DB :=
  match rows with
  | [] => db
  | j :: rest =>
      match j_schedule j with
      | None => schedule_jobs errs now uuid n rest db
      | Some schedule =>
          if shouldEnqueue (errs (j_id j)) now (j_id j) schedule db then
            schedule_jobs errs now uuid (S (S n)) rest
              (enqueueScheduledRun (errs (j_id j)) now (uuid n) (uuid (S n))
                 (j_id j) (j_user_id j) db)
          else schedule_jobs errs now uuid n rest db
      end
  end.

Definition checkScheduledJobs (jobs_query_err : bool)
    (errs : UUID -> SchedErrors) (now : Time) (uuid : nat -> UUID) (db : DB)
    : DB :=
  if jobs_query_err then db
  else
    schedule_jobs errs now uuid 0
      (select_where (fun j => negb (is_null (j_schedule j)) && j_is_active j)
         (jobs db))
      db.
End Scheduler.

(* ------------------------------------------------------------------ *)
(** ** Vocabulary of the properties *)

(** Index of the first event of a trace that satisfies [p]. *)
Fixpoint position (p : Event -> bool) (tr : list Event) : option nat :=
  match tr with
  | [] => None
  | e :: tr' =>
      if p e then Some O
      else match position p tr' with
           | Some i => Some (S i)
           | None => None
           end
  end.

(** The first [p] event comes strictly before the first [q] event. *)
Definition happens_before (p q : Event -> bool) (tr : list Event) : bool :=
  match position p tr, position q tr with
  | Some i, Some j => Nat.ltb i j
  | _, _ => false
  end.

Definition count_events (p : Event -> bool) (tr : list Event) : nat :=
  List.length (filter p tr).

Definition is_MarkRunning (e : Event) : bool :=
  match e with MarkRunning _ => true | _ => false end.

Definition is_PullImageCall (e : Event) : bool :=
  match e with PullImageCall _ => true | _ => false end.

Definition is_StartContainerCall (e : Event) : bool :=
  match e with StartContainerCall _ => true | _ => false end.

Definition is_HeartbeatStart (e : Event) : bool :=
  match e with HeartbeatStart _ => true | _ => false end.

(** Any action of the heartbeat emitter: its start or one of its ticks. *)
Definition is_heartbeat (e : Event) : bool :=
  match e with HeartbeatStart _ | HeartbeatTick _ _ => true | _ => false end.

Definition is_CleanupQueue (e : Event) : bool :=
  match e with CleanupQueue _ => true | _ => false end.

(** Terminal state in the words of the specification: status and, on
    failure, the error text. *)
Definition spec_terminal_state (timedOut : bool) (err : option error)
    (exit_code N : Z) : RunStatus * option string :=
  if timedOut then
    (RunStatusFailed, Some ("timeout exceeded (" ++ fmt_d N ++ "s limit)")%string)
  else
    match err with
    | Some message => (RunStatusFailed, Some message)
    | None =>
        if Z.eqb exit_code 0 then (RunStatusSucceeded, None)
        else (RunStatusFailed, Some ("exit code " ++ fmt_d exit_code)%string)
    end.

(** [timedOut] as [executeRun] sets it. *)
Definition timed_out (env : Env) (job : Job) : bool :=
  (0 <? j_timeout_seconds job) && timer_fires env.

(** Store and emitter ticks after the wait of a supervisor. *)
Definition wait_db (docker : Client) (runID : UUID) (l : list WaitItem)
    (db : DB) : DB :=
  fold_left (fun d w =>
    match w with
    | Tick now => heartbeat_tick runID now d
    | Other a => run_activity docker a d
    end) l db.

Fixpoint wait_trace (runID : UUID) (l : list WaitItem) : list Event :=
  match l with
  | [] => []
  | Tick now :: l' => HeartbeatTick runID now :: wait_trace runID l'
  | Other _ :: l' => wait_trace runID l'
  end.

(** The ids of the rows of [job_runs], in table order. *)
Definition run_ids (db : DB) : list UUID := map r_id (job_runs db).

(** The value a runtime call of the given stage panics with, if it does. *)
Definition panics_at (env : Env) (st : Stage) : option string :=
  match panic_at env with
  | Some (st', v) => if Stage_eqb st st' then Some v else None
  | None => None
  end.

(** The actions of a supervisor listed by the outcome of its calls: the
    trace that [executeRun] is shown to produce. *)
Definition supervisor_trace (env : Env) (job : Job) (runID queueID : UUID)
    : list Event :=
  if mark_running_err env then []
  else
    [MarkRunning runID; PullImageCall (j_image job)] ++
    match panics_at env AtPull with
    | Some v => [FailRun runID ("panic: " ++ v)%string]
    | None =>
    match PullImage (docker env) (j_image job) with
    | Some err =>
        [FailRun runID ("image pull failed: " ++ err)%string;
         CleanupQueue queueID]
    | None =>
    [CreateContainerCall (container_config job runID)] ++
    match panics_at env AtCreate with
    | Some v => [FailRun runID ("panic: " ++ v)%string]
    | None =>
    match CreateContainer (docker env) (container_config job runID) with
    | (_, Some err) =>
        [FailRun runID ("container create failed: " ++ err)%string;
         CleanupQueue queueID]
    | (cid, None) =>
    [StoreContainerID runID cid; WaitContainerCall cid; StartContainerCall cid] ++
    match panics_at env AtStart with
    | Some v => [FailRun runID ("panic: " ++ v)%string]
    | None =>
    match StartContainer (docker env) cid with
    | Some err =>
        [FailRun runID ("container start failed: " ++ err)%string;
         RemoveContainerCall cid; CleanupQueue queueID]
    | None =>
    [HeartbeatStart runID] ++ wait_trace runID (while_waiting env) ++
    (if timed_out env job then [StopContainerCall cid 5] else []) ++
    [HeartbeatCancel runID; GetLogsCall cid "all"] ++
    match panics_at env AtLogs with
    | Some v => [FailRun runID ("panic: " ++ v)%string]
    | None =>
        [TerminalUpdate runID
           (final_status (timed_out env job)
              (snd (WaitContainer (docker env) cid))
              (fst (WaitContainer (docker env) cid)));
         CleanupQueue queueID; RemoveContainerCall cid]
    end end end end end end end.

(** [job_runs.id] is the primary key. *)
Definition primary_key (db : DB) : Prop := NoDup (run_ids db).

(** The row of [job_runs] at a position of the table. *)
Definition run_at (i : nat) (db : DB) : option JobRun := nth_error (job_runs db) i.

(** Several reaper passes, at the given times. *)
Definition reaper_passes (nows : list Time) (db : DB) : DB :=
  fold_left (fun d now => fst (reapStaleRuns false now [] d)) nows db.

(** Stored logs as the logs endpoint returns them. *)
Definition stored_logs (r : JobRun) : string :=
  match r_logs_tail r with
  | Some l => l
  | None => EmptyString
  end.

(** Writes of other tasks that leave the row at position [i] as [r]. *)
Definition keeps_row (i : nat) (r : JobRun) (m : Meanwhile) : Prop :=
  forall d, run_at i d = Some r ->
    run_at i (before_update m d) = Some r /\
    run_at i (before_delete m d) = Some r.



(* ------------------------------------------------------------------ *)
(** ** A small installation used in the examples *)

Module Sample.
Definition job : Job :=
  mkJob "j1" "u1" "hello" "alpine" ["sh"; "-c"; "sleep 60"] [] 512 1000 0
    None true.

Definition run : JobRun :=
  mkJobRun "r1" "j1" "u1" RunStatusPending None None None None None None
    None None None 100.

Definition item : QueueItem := mkQueueItem "q1" "j1" "r1" 0 100 None 100.

Definition db : DB := mkDB [job] [run] [item].

(** A daemon on which everything succeeds and the container exits with
    [code]. *)
Definition daemon (code : Z) : Client :=
  mkClient (fun _ => PullDone) (fun _ => inl "c0ffee00c0ffee") (fun _ => None)
    (fun _ _ => None) (fun _ => None) (fun _ => None)
    (fun _ _ => LogsText "hi") (fun _ => WaitExited code) (fun _ => None).

(** A daemon on which the image pull fails. *)
Definition daemon_no_image : Client :=
  mkClient (fun _ => PullError "manifest unknown") (fun _ => inl "c0ffee00c0ffee")
    (fun _ => None) (fun _ _ => None) (fun _ => None) (fun _ => None)
    (fun _ _ => LogsText "hi") (fun _ => WaitExited 0) (fun _ => None).

Definition quiet : Stage -> list Activity := fun _ => [].

(** An undisturbed run with two heartbeats. *)
Definition env (code : Z) : Env :=
  mkEnv (daemon code) false None false (1 * Second) (25 * Second)
    (26 * Second) (27 * Second) quiet [Tick (11 * Second); Tick (21 * Second)].

(** The owner kills the run while the supervisor waits; the stopped
    container exits with 137. *)
Definition env_killed : Env :=
  mkEnv (daemon 137) false None false (1 * Second) (25 * Second)
    (26 * Second) (27 * Second) quiet
    [Tick (11 * Second); Other (ActKill false "u1" (Some "r1") (12 * Second))].

(** The owner kills the run during a pull that then fails. *)
Definition env_killed_in_pull : Env :=
  mkEnv daemon_no_image false None false (1 * Second) (25 * Second)
    (26 * Second) (27 * Second)
    (fun st => match st with
               | AtPull => [ActKill false "u1" (Some "r1") (2 * Second)]
               | _ => []
               end) [].

(** The image pull fails. *)
Definition env_no_image : Env :=
  mkEnv daemon_no_image false None false (1 * Second) (25 * Second)
    (26 * Second) (27 * Second) quiet [].

(** The image pull panics. *)
Definition env_panic : Env :=
  mkEnv (daemon 0) false (Some (AtPull, "runtime error: invalid memory address or nil pointer dereference"))
    false (1 * Second) (25 * Second) (26 * Second) (27 * Second) quiet [].

(** The first UPDATE of the supervisor fails. *)
Definition env_store_down : Env :=
  mkEnv (daemon 0) true None false (1 * Second) (25 * Second)
    (26 * Second) (27 * Second) quiet [].

(** The store after the claim: the queue row is picked, the run is
    still pending. *)
Definition claimed : DB := fst (pollAndExecute no_errors [] 200 db).

(** The store while the container runs. *)
Definition running_run : JobRun :=
  mkJobRun "r1" "j1" "u1" RunStatusRunning (Some "c0ffee00c0ffee") None None
    (Some (1 * Second)) None None (Some (11 * Second)) None None 100.

Definition running : DB :=
  mkDB [job] [running_run] [mkQueueItem "q1" "j1" "r1" 0 100 (Some 200) 100].

(** The store after the owner killed the run. *)
Definition killed : DB :=
  snd (fst (KillRun false "u1" (Some "r1") (12 * Second) running)).

(** A cron schedule "every [period] nanoseconds" standing for the cron
    library in the examples. *)
Definition Parse (s : string) : option Z :=
  if String.eqb s "* * * * *" then Some (60 * Second) else None.

Definition Next (period : Z) (t : Time) : Time := (t / period + 1) * period.
End Sample.

(* ------------------------------------------------------------------ *)
(** ** api: triggering a run *)

(** Errors of the three store calls of [TriggerRun]. *)
Record TriggerErrors := mkTriggerErrors {
  fetch_job_err : bool;
  create_run_err : bool;
  enqueue_err : bool
}.

(** [WHERE id = $1 AND user_id = $2 AND is_active = true] *)
Definition active_owned_job (jobID user : UUID) (j : Job) : bool :=
  uuid_eqb (j_id j) jobID && uuid_eqb (j_user_id j) user && j_is_active j.

(** The row [INSERT INTO job_runs (job_id, user_id, status) VALUES
    ($1, $2, 'pending')] creates; [id] and [created_at] take their column
    defaults. *)
Definition pending_run (runID jobID user : UUID) (now : Time) : JobRun :=
  mkJobRun runID jobID user RunStatusPending None None None None None None
    None None None now.

(** The row [INSERT INTO job_queue (job_id, run_id) VALUES ($1, $2)]
    creates: priority 0, scheduled_at now(), picked_at NULL. *)
Definition queue_row (queueID jobID runID : UUID) (now : Time) : QueueItem :=
  mkQueueItem queueID jobID runID 0 now None now.

(** [TriggerRun].  [jobID] is the result of [uuid.Parse]; [runID] and
    [queueID] are the values of [gen_random_uuid()].  The answer is the
    status code with either an error body or the created run. *)
Definition TriggerRun (errs : TriggerErrors) (user : UUID) (jobID : option UUID)
    (now : Time) (runID queueID : UUID) (db : DB)
    : (Z * (Body + JobRun)) * DB :=
  match jobID with
  | None =>
      ((StatusBadRequest, inl (ErrorResponse "invalid_request" "Invalid job ID")),
       db)
  | Some jobID =>
    match (if fetch_job_err errs then None
           else query_row (active_owned_job jobID user) (jobs db)) with
    | None =>
        ((StatusNotFound,
          inl (ErrorResponse "not_found" "Job not found or inactive")), db)
    | Some job =>
      if create_run_err errs then
        ((StatusInternalServerError,
          inl (ErrorResponse "internal_error" "Failed to create run")), db)
      else
        let run := pending_run runID (j_id job) user now in
        let db1 := with_runs (fun t => t ++ [run]) db in
        if enqueue_err errs then
          ((StatusInternalServerError,
            inl (ErrorResponse "internal_error" "Failed to enqueue run")), db1)
        else
          ((202, inr run),
           with_queue (fun t => t ++ [queue_row queueID (j_id job) runID now])
             db1)
    end
  end.

(* ------------------------------------------------------------------ *)
(** ** worker: configuration and the poll loop *)

Module Worker.

(** [Config] *)
Record Config := mkConfig {
  MaxConcurrent : Z;
  PollInterval : Z
}.

(** [DefaultConfig] *)
Definition DefaultConfig : Config := mkConfig 5 Second.


(** [atomic.Int32]: addition wraps around. *)
Definition int32 (z : Z) : Z := (z + 2147483648) mod 4294967296 - 2147483648.

(** The worker: its configuration, the [activeRuns] counter, the
    [executeRun] goroutines in flight with their arguments, whether [Run]
    is still looping, and the store it polls. *)
Record State := mkState {
  cfg : Config;
  activeRuns : Z;
  in_flight : list (Job * UUID * UUID);
  looping : bool;
  store : DB
}.


(** What can happen next to a worker. *)
Inductive LoopEvent :=
| Done                                                  (* ctx.Done() or stopCh *)
| TickerC (errs : TxErrors) (locked : list UUID) (now : Time)
| Returns (k : nat)              (* the k-th goroutine in flight returns *)
| StoreChanges (db : DB).        (* writes of supervisors and other tasks *)

(** One event of [Run] and of the goroutines it started.  A tick polls
    only when [activeRuns < MaxConcurrent]; a claim adds one to the counter
    and starts a goroutine, whose deferred [activeRuns.Add(-1)] runs when it
    returns. *)
Definition step (w : State) (e : LoopEvent) : State :=
  match e with
  | Done => mkState (cfg w) (activeRuns w) (in_flight w) false (store w)
  | TickerC errs locked now =>
      if looping w then
        if activeRuns w <? MaxConcurrent (cfg w) then
          match pollAndExecute errs locked now (store w) with
          | (db', Some claim) =>
              mkState (cfg w) (int32 (activeRuns w + 1))
                (in_flight w ++ [claim]) true db'
          | (db', None) =>
              mkState (cfg w) (activeRuns w) (in_flight w) true db'
          end
        else w
      else w
  | Returns k =>
      match nth_error (in_flight w) k with
      | Some _ =>
          mkState (cfg w) (int32 (activeRuns w - 1))
            (firstn k (in_flight w) ++ skipn (S k) (in_flight w))
            (looping w) (store w)
      | None => w
      end
  | StoreChanges db => mkState (cfg w) (activeRuns w) (in_flight w) (looping w) db
  end.

Definition run (w : State) (events : list LoopEvent) : State :=
  fold_left step events w.

End Worker.

(* ------------------------------------------------------------------ *)
(** ** worker: the supervisor's store, by outcome *)

(** The store a supervisor leaves, listed by the outcome of its calls:
    the store that [executeRun] is shown to produce. *)
Definition supervisor_store (env : Env) (job : Job) (runID queueID : UUID)
    (db : DB) : DB :=
  if mark_running_err env then db
  else
    let others st := run_activities (docker env) (concurrent env st) in
    let fail msg := failRun runID (now_started env) msg (now_failed env) in
    let db1 := others AtPull (mark_running runID (now_started env) db) in
    match panics_at env AtPull with
    | Some v => fail ("panic: " ++ v)%string db1
    | None =>
    match PullImage (docker env) (j_image job) with
    | Some err =>
        cleanupQueue queueID (fail ("image pull failed: " ++ err)%string db1)
    | None =>
    let db2 := others AtCreate db1 in
    match panics_at env AtCreate with
    | Some v => fail ("panic: " ++ v)%string db2
    | None =>
    match CreateContainer (docker env) (container_config job runID) with
    | (_, Some err) =>
        cleanupQueue queueID
          (fail ("container create failed: " ++ err)%string db2)
    | (cid, None) =>
    let db3 :=
      others AtStart (update_run runID (set_container_id (Some cid)) db2) in
    match panics_at env AtStart with
    | Some v => fail ("panic: " ++ v)%string db3
    | None =>
    match StartContainer (docker env) cid with
    | Some err =>
        cleanupQueue queueID
          (fail ("container start failed: " ++ err)%string db3)
    | None =>
    let db4 :=
      others AtLogs (wait_db (docker env) runID (while_waiting env) db3) in
    match panics_at env AtLogs with
    | Some v => fail ("panic: " ++ v)%string db4
    | None =>
        cleanupQueue queueID
          (terminal_update (timed_out env job)
             (snd (WaitContainer (docker env) cid))
             (fst (WaitContainer (docker env) cid))
             (j_timeout_seconds job) (now_finished env)
             (Milliseconds (now_done env - now_started env))
             (fst (GetLogs (docker env) cid "all")) runID db4)
    end end end end end end end.

(* ------------------------------------------------------------------ *)
(** ** Further vocabulary *)

Definition is_StopContainerCall (e : Event) : bool :=
  match e with StopContainerCall _ _ => true | _ => false end.

(** The three failures before the container runs, with the text that
    [executeRun] hands to [failRun]. *)
Definition pre_exec_failure (env : Env) (job : Job) (runID : UUID)
    : option string :=
  match PullImage (docker env) (j_image job) with
  | Some err => Some ("image pull failed: " ++ err)%string
  | None =>
    match CreateContainer (docker env) (container_config job runID) with
    | (_, Some err) => Some ("container create failed: " ++ err)%string
    | (cid, None) =>
      match StartContainer (docker env) cid with
      | Some err => Some ("container start failed: " ++ err)%string
      | None => None
      end
    end
  end.

(** The runtime calls the reaper makes for one stale run. *)
Definition reaper_calls (sr : staleRun) : list Event :=
  match sr_ContainerID sr with
  | Some cid =>
      if String.eqb cid EmptyString then []
      else [StopContainerCall cid 10; RemoveContainerCall cid]
  | None => []
  end.

(** What the ticks of a heartbeat emitter make of one row. *)
Definition ticked (runID : UUID) (ticks : list Time) (r : JobRun) : JobRun :=
  fold_left (fun r now =>
    if has_id runID r && running_or_paused (r_status r)
    then set_heartbeat_at (Some now) r else r) ticks r.

(** Polls of the worker pool, one after the other: each poll comes with
    its store errors, the rows other transactions hold locked, and its
    time.  The result is the store and the claims made, latest first. *)
Definition poll_all (polls : list (TxErrors * list UUID * Time)) (db : DB)
    : DB * list (Job * UUID * UUID) :=
  fold_left (fun st p =>
    match pollAndExecute (fst (fst p)) (snd (fst p)) (snd p) (fst st) with
    | (db', Some claim) => (db', claim :: snd st)
    | (db', None) => (db', snd st)
    end) polls (db, []).

(** Rows whose id is in [ids] are all picked. *)
Definition all_picked (ids : list UUID) (db : DB) : Prop :=
  forall q, In q (job_queue db) -> In (q_id q) ids -> q_picked_at q <> None.

(* ------------------------------------------------------------------ *)
(** ** database: migrations *)

Module Database.

(** An entry of the migrations directory. *)
Record DirEntry := mkDirEntry {
  Name : string;
  IsDir : bool
}.

(** What [Migrate] changes: the filenames recorded in schema_migrations
    and the migration scripts executed and committed, both in order. *)
Record Schema := mkSchema {
  schema_migrations : list string;
  executed : list string
}.

(** The file system and the failures of the store calls of [Migrate];
    a file is read at [filepath.Join(migrationsDir, filename)]. *)
Record Env := mkEnv {
  create_table_err : option error;
  ReadDir : string -> list DirEntry + error;
  ReadFile : string -> string -> string + error;
  check_err : string -> option error;
  begin_err : string -> option error;
  exec_err : string -> option error;
  record_err : string -> option error;
  commit_err : string -> option error
}.

(** [strings.HasSuffix] *)
Definition HasSuffix (s suffix : string) : bool :=
  let n := String.length s in
  let m := String.length suffix in
  Nat.leb m n && String.eqb (substring (n - m) m s) suffix.

(** [sort.Strings]: ascending in the byte order of Go strings. *)
Fixpoint insert (s : string) (l : list string) : list string :=
  match l with
  | [] => [s]
  | x :: l' => if String.leb s x then s :: l else x :: insert s l'
  end.

Definition sort_Strings (l : list string) : list string :=
  fold_right insert [] l.

(** The [.sql] files of the directory, sorted. *)
Definition migration_files (entries : list DirEntry) : list string :=
  sort_Strings
    (map Name (filter (fun e => negb (IsDir e) && HasSuffix (Name e) ".sql")
                 entries)).

(** "Apply each migration": the loop over the sorted files. *)
Fixpoint apply_each (env : Env) (dir : string) (files : list string)
    (st : Schema) : option error * Schema :=
  match files with
  | [] => (None, st)
  | filename :: rest =>
    match check_err env filename with
    | Some err =>
        (Some ("checking migration " ++ filename ++ ": " ++ err)%string, st)
    | None =>
    if existsb (String.eqb filename) (schema_migrations st)
    then apply_each env dir rest st
    else
    match ReadFile env dir filename with
    | inr err =>
        (Some ("reading migration " ++ filename ++ ": " ++ err)%string, st)
    | inl content =>
    match begin_err env filename with
    | Some err =>
        (Some ("starting transaction for " ++ filename ++ ": " ++ err)%string,
         st)
    | None =>
    match exec_err env filename with
    | Some err =>
        (Some ("executing migration " ++ filename ++ ": " ++ err)%string, st)
    | None =>
    match record_err env filename with
    | Some err =>
        (Some ("recording migration " ++ filename ++ ": " ++ err)%string, st)
    | None =>
    match commit_err env filename with
    | Some err =>
        (Some ("committing migration " ++ filename ++ ": " ++ err)%string, st)
    | None =>
        apply_each env dir rest
          (mkSchema (schema_migrations st ++ [filename])
             (executed st ++ [content]))
    end end end end end end
  end.

(** [Migrate]: the returned error ([None] for nil) and the schema. *)
Definition Migrate (env : Env) (migrationsDir : string) (st : Schema)
    : option error * Schema :=
  match create_table_err env with
  | Some err => (Some ("creating migrations table: " ++ err)%string, st)
  | None =>
    match ReadDir env migrationsDir with
    | inr err => (Some ("reading migrations directory: " ++ err)%string, st)
    | inl entries => apply_each env migrationsDir (migration_files entries) st
    end
  end.

End Database.

(** Ascending order of filenames. *)
Definition ascending (l : list string) : Prop :=
  Sorted.StronglySorted (fun a b => String.leb a b = true) l.

(** A file the directory offers to [Migrate]: a regular entry whose name
    ends in [.sql]. *)
Definition offered (env : Database.Env) (dir f : string) : Prop :=
  exists entries e,
    Database.ReadDir env dir = inl entries /\ In e entries /\
    Database.Name e = f /\ Database.IsDir e = false /\
    Database.HasSuffix f ".sql" = true.

(** Further fixtures. *)
Module Fixture.

Definition migrations : list Database.DirEntry :=
  [ Database.mkDirEntry "002_runs.sql" false;
    Database.mkDirEntry "archive.sql" true;
    Database.mkDirEntry "README.md" false;
    Database.mkDirEntry "001_users.sql" false ].

Definition disk : Database.Env :=
  Database.mkEnv None
    (fun dir => if String.eqb dir "migrations" then inl migrations
                else inr "no such directory")
    (fun dir f => inl ("-- " ++ dir ++ "/" ++ f)%string)
    (fun _ => None) (fun _ => None) (fun _ => None) (fun _ => None)
    (fun _ => None).

(** The second script does not execute. *)
Definition disk_broken : Database.Env :=
  Database.mkEnv None (Database.ReadDir disk) (Database.ReadFile disk)
    (fun _ => None) (fun _ => None)
    (fun f => if String.eqb f "002_runs.sql" then Some "syntax error"
              else None)
    (fun _ => None) (fun _ => None).

Definition fresh : Database.Schema := Database.mkSchema [] [].

Definition migrated : Database.Schema :=
  Database.mkSchema ["001_users.sql"; "002_runs.sql"]
    ["-- migrations/001_users.sql"; "-- migrations/002_runs.sql"].

(** A daemon whose wait call fails. *)
Definition daemon_wait_failed : Client :=
  mkClient (fun _ => PullDone) (fun _ => inl "c0ffee00c0ffee") (fun _ => None)
    (fun _ _ => None) (fun _ => None) (fun _ => None)
    (fun _ _ => LogsText "hi") (fun _ => WaitFailed (Some "connection reset"))
    (fun _ => None).

Definition env_wait_failed : Env :=
  mkEnv daemon_wait_failed false None false (1 * Second) (25 * Second)
    (26 * Second) (27 * Second) Sample.quiet [Tick (11 * Second)].

(** A second run of the same owner beside the running one. *)
Definition other_run : JobRun :=
  mkJobRun "r2" "j1" "u1" RunStatusRunning (Some "deadbeefdeadbeef") None None
    (Some (2 * Second)) None None (Some (12 * Second)) None None 150.

Definition two_runs : DB :=
  mkDB [Sample.job] [Sample.running_run; other_run]
    [mkQueueItem "q1" "j1" "r1" 0 100 (Some 200) 100;
     mkQueueItem "q2" "j1" "r2" 0 150 (Some 250) 150].

(** Two owners, each with a job, a run and a queue row. *)
Definition two_owners : DB :=
  mkDB [Sample.job;
        mkJob "j2" "u2" "report" "python:3.12" [] [] 512 1000 3600 None true]
    [Sample.run;
     mkJobRun "r3" "j2" "u2" RunStatusPending None None None None None None
       None None None 120]
    [Sample.item; mkQueueItem "q3" "j2" "r3" 0 120 None 120].

(** The owner's kill lands after the reaper's SELECT, while the reaper
    stops the container of the first selected row. *)
Definition kill_meanwhile : list Meanwhile :=
  [mkMeanwhile
     (fun d => snd (fst (KillRun false "u1" (Some "r1") (101 * Second) d)))
     (fun d => d)].




End Fixture.

(** The only differences a supervisor of [runID] with queue row [queueID]
    may leave between two stores: columns of its own run, and its own
    queue row deleted. *)
Definition own_effect (runID queueID : UUID) (db db' : DB) : Prop :=
  jobs db' = jobs db /\
  run_ids db' = run_ids db /\
  (forall i r, run_at i db = Some r -> r_id r <> runID ->
               run_at i db' = Some r) /\
  (forall q, In q (job_queue db') -> In q (job_queue db)) /\
  (forall q, In q (job_queue db) -> q_id q <> queueID ->
             In q (job_queue db')).

(** No other task writes while the supervisor runs. *)
Definition undisturbed (env : Env) : Prop :=
  (forall st, concurrent env st = []) /\
  (forall w, In w (while_waiting env) -> exists now, w = Tick now).

(* ------------------------------------------------------------------ *)
(** ** api: reading a run *)

(** [GetRun].  The answer is the status code with either an error body or
    the run; [heartbeat_at] is not among the selected columns, so the
    field of the returned struct stays nil.  Any error of the query,
    [pgx.ErrNoRows] included, gives 404. *)
Definition GetRun (query_err : bool) (user : UUID) (runID : option UUID)
    (db : DB) : Z * (Body + JobRun) :=
  match runID with
  | None =>
      (StatusBadRequest, inl (ErrorResponse "invalid_request" "Invalid run ID"))
  | Some runID =>
    match scan_run query_err runID user db with
    | None => (StatusNotFound, inl (ErrorResponse "not_found" "Run not found"))
    | Some row => (StatusOK, inr (set_heartbeat_at None row))
    end
  end.

(* ------------------------------------------------------------------ *)
(** ** api: deleting a job *)

Module JobHandler.

(** [WHERE id = $1 AND user_id = $2] *)
Definition owned_job (jobID user : UUID) (j : Job) : bool :=
  uuid_eqb (j_id j) jobID && uuid_eqb (j_user_id j) user.

Definition referenced (ids : list UUID) (id : UUID) : bool :=
  existsb (uuid_eqb id) ids.

(** [DELETE FROM jobs WHERE id = $1 AND user_id = $2] under the schema's
    references: [job_runs.job_id] and [job_queue.job_id] to [jobs(id)] and
    [job_queue.run_id] to [job_runs(id)], all [ON DELETE CASCADE].  The
    result is the command tag's row count and the store. *)
Definition delete_job (jobID user : UUID) (db : DB) : Z * DB :=
  let gone_jobs := map j_id (select_where (owned_job jobID user) (jobs db)) in
  let gone_runs :=
    map r_id (select_where (fun r => referenced gone_jobs (r_job_id r))
                (job_runs db)) in
  (Z.of_nat (List.length gone_jobs),
   mkDB (delete_where (owned_job jobID user) (jobs db))
     (delete_where (fun r => referenced gone_jobs (r_job_id r)) (job_runs db))
     (delete_where (fun q => referenced gone_jobs (q_job_id q) ||
                             referenced gone_runs (q_run_id q))
        (job_queue db))).

Definition StatusNoContent : Z := 204.

Definition job_not_found : Z * option Body :=
  (StatusNotFound, Some (ErrorResponse "not_found" "Job not found")).

(** [Delete].  [jobID] is the result of [uuid.Parse]; a failed statement
    changes nothing.  The 204 answer has no body. *)
Definition Delete (exec_err : bool) (user : UUID) (jobID : option UUID)
    (db : DB) : (Z * option Body) * DB :=
  match jobID with
  | None =>
      ((StatusBadRequest,
        Some (ErrorResponse "invalid_request" "Invalid job ID")), db)
  | Some jobID =>
    if exec_err then (job_not_found, db)
    else
      let (RowsAffected, db') := delete_job jobID user db in
      if RowsAffected =? 0 then (job_not_found, db')
      else ((StatusNoContent, None), db')
  end.

End JobHandler.

(** The schema's foreign keys: every run belongs to a stored job, every
    queue row to a stored job and a stored run. *)
Definition foreign_keys (db : DB) : Prop :=
  (forall r, In r (job_runs db) ->
     exists j, In j (jobs db) /\ j_id j = r_job_id r) /\
  (forall q, In q (job_queue db) ->
     (exists j, In j (jobs db) /\ j_id j = q_job_id q) /\
     (exists r, In r (job_runs db) /\ r_id r = q_run_id q)).

(* ------------------------------------------------------------------ *)
(** ** Tables: generic facts *)

Unset Implicit Arguments.

Lemma uuid_eqb_eq (a b : UUID) : uuid_eqb a b = true <-> a = b.
Proof. unfold uuid_eqb. apply String.eqb_eq. Qed.

Lemma uuid_eqb_refl (a : UUID) : uuid_eqb a a = true.
Proof. apply uuid_eqb_eq. reflexivity. Qed.

Lemma uuid_eqb_neq (a b : UUID) : uuid_eqb a b = false <-> a <> b.
Proof. unfold uuid_eqb. apply String.eqb_neq. Qed.

Lemma has_id_true (id : UUID) (r : JobRun) : has_id id r = true <-> r_id r = id.
Proof. unfold has_id. apply uuid_eqb_eq. Qed.

Lemma terminal_not_running_or_paused (s : RunStatus) :
  terminal s = true -> running_or_paused s = false.
Proof. unfold terminal. destruct s; simpl; congruence. Qed.

Section UpdateWhere.
Variables (Row Key : Type) (key : Row -> Key).
Variables (p : Row -> bool) (f : Row -> Row).
Hypothesis f_key : forall r, key (f r) = key r.

Lemma update_where_keys (t : list Row) :
  map key (update_where p f t) = map key t.
Proof.
  unfold update_where. induction t as [|r t IH]; simpl.
  - reflexivity.
  - rewrite IH. destruct (p r); [rewrite f_key|]; reflexivity.
Qed.
End UpdateWhere.

Lemma update_where_nth (Row : Type) (p : Row -> bool) (f : Row -> Row)
    (t : list Row) (i : nat) :
  nth_error (update_where p f t) i =
  option_map (fun r => if p r then f r else r) (nth_error t i).
Proof. unfold update_where. apply nth_error_map. Qed.

Lemma update_where_In (Row : Type) (p : Row -> bool) (f : Row -> Row)
    (t : list Row) (r' : Row) :
  In r' (update_where p f t) <->
  exists r, In r t /\ r' = if p r then f r else r.
Proof.
  unfold update_where. rewrite in_map_iff. split; intros [r [H1 H2]].
  - exists r. split; [assumption | symmetry; assumption].
  - exists r. split; [symmetry; assumption | assumption].
Qed.

Lemma delete_where_In (Row : Type) (p : Row -> bool) (t : list Row) (r : Row) :
  In r (delete_where p t) <-> In r t /\ p r = false.
Proof.
  unfold delete_where. rewrite filter_In. rewrite negb_true_iff. reflexivity.
Qed.

(** Under the primary key, a row is determined by its id. *)
Lemma primary_key_unique (t : list JobRun) (a b : JobRun) :
  NoDup (map r_id t) -> In a t -> In b t -> r_id a = r_id b -> a = b.
Proof.
  induction t as [|r t IH]; simpl; intros Hnd Ha Hb Hid.
  - contradiction.
  - inversion Hnd as [|x l Hnotin Hnd']; subst.
    destruct Ha as [Ha | Ha], Hb as [Hb | Hb]; subst.
    + reflexivity.
    + exfalso. apply Hnotin. rewrite Hid. apply in_map. assumption.
    + exfalso. apply Hnotin. rewrite <- Hid. apply in_map. assumption.
    + apply IH; assumption.
Qed.

(** [QueryRow] with [WHERE id = $1 AND user_id = $2] reads the caller's
    run. *)
Lemma query_row_owned (t : list JobRun) (runID user : UUID) (row : JobRun) :
  NoDup (map r_id t) -> In row t -> r_id row = runID -> r_user_id row = user ->
  query_row (owned_run runID user) t = Some row.
Proof.
  intros Hnd Hin Hid Hu. unfold query_row.
  destruct (find (owned_run runID user) t) as [r|] eqn:E.
  - apply find_some in E. destruct E as [Hr Hp].
    unfold owned_run in Hp. apply andb_true_iff in Hp. destruct Hp as [Hp _].
    apply uuid_eqb_eq in Hp. f_equal.
    apply (primary_key_unique t); try assumption. congruence.
  - exfalso. pose proof (find_none _ _ E row Hin) as Hn.
    unfold owned_run in Hn. rewrite Hid, Hu, !uuid_eqb_refl in Hn.
    discriminate.
Qed.

Lemma query_row_found (t : list JobRun) (runID user : UUID) (row : JobRun) :
  query_row (owned_run runID user) t = Some row ->
  In row t /\ r_id row = runID /\ r_user_id row = user.
Proof.
  unfold query_row. intros E. apply find_some in E. destruct E as [Hin Hp].
  unfold owned_run in Hp. apply andb_true_iff in Hp. destruct Hp as [H1 H2].
  apply uuid_eqb_eq in H1. apply uuid_eqb_eq in H2. auto.
Qed.

(* ------------------------------------------------------------------ *)
(** ** The run ids of the store never change under updates *)

Lemma update_run_ids (id : UUID) (f : JobRun -> JobRun) (db : DB) :
  (forall r, r_id (f r) = r_id r) ->
  run_ids (update_run id f db) = run_ids db.
Proof.
  intros Hf. unfold run_ids, update_run, with_runs. simpl.
  apply update_where_keys. assumption.
Qed.

Lemma with_queue_ids (f : list QueueItem -> list QueueItem) (db : DB) :
  run_ids (with_queue f db) = run_ids db.
Proof. reflexivity. Qed.

Lemma heartbeat_tick_ids (runID : UUID) (now : Time) (db : DB) :
  run_ids (heartbeat_tick runID now db) = run_ids db.
Proof.
  unfold run_ids, heartbeat_tick, with_runs. simpl.
  apply update_where_keys. reflexivity.
Qed.

Lemma failRun_ids (runID : UUID) (s : Time) (m : string) (now : Time) (db : DB) :
  run_ids (failRun runID s m now db) = run_ids db.
Proof. unfold failRun. apply update_run_ids. reflexivity. Qed.

Lemma kill_update_ids (runID : UUID) (now : Time) (d : Z) (db : DB) :
  run_ids (kill_update runID now d db) = run_ids db.
Proof. unfold kill_update. apply update_run_ids. reflexivity. Qed.

Lemma terminal_update_ids timedOut err exitCode N fin dur logStr runID db :
  run_ids (terminal_update timedOut err exitCode N fin dur logStr runID db)
  = run_ids db.
Proof.
  unfold terminal_update.
  destruct timedOut; [|destruct err; [|destruct (exitCode =? 0)]];
    apply update_run_ids; reflexivity.
Qed.

Lemma KillRun_ids query_err user runID now db :
  run_ids (snd (fst (KillRun query_err user runID now db))) = run_ids db.
Proof.
  unfold KillRun. destruct runID as [id|]; [|reflexivity].
  destruct (scan_run _ _ _ _) as [row|]; [|reflexivity].
  destruct (_ && _); [reflexivity|]. simpl.
  unfold delete_queue_of_run. rewrite with_queue_ids. apply kill_update_ids.
Qed.

Lemma PauseRun_ids docker query_err user runID now db :
  run_ids (snd (fst (PauseRun docker query_err user runID now db)))
  = run_ids db.
Proof.
  unfold PauseRun. destruct runID as [id|]; [|reflexivity].
  destruct (scan_run _ _ _ _) as [row|]; [|reflexivity].
  destruct (negb _); [reflexivity|].
  destruct (r_container_id row); [|reflexivity].
  destruct (PauseContainer _ _); [reflexivity|]. simpl.
  apply update_run_ids. reflexivity.
Qed.

Lemma ResumeRun_ids docker query_err user runID db :
  run_ids (snd (fst (ResumeRun docker query_err user runID db))) = run_ids db.
Proof.
  unfold ResumeRun. destruct runID as [id|]; [|reflexivity].
  destruct (scan_run _ _ _ _) as [row|]; [|reflexivity].
  destruct (negb _); [reflexivity|].
  destruct (r_container_id row); [|reflexivity].
  destruct (UnpauseContainer _ _); [reflexivity|]. simpl.
  apply update_run_ids. reflexivity.
Qed.

(** A pass that runs alone is the plain loop over the selected rows. *)
Lemma reap_rows_alone now srs : forall st,
  reap_rows now [] srs st = fold_left (reap_one now no_writes) srs st.
Proof.
  induction srs as [|sr srs IH]; intros st; cbn [reap_rows fold_left hd tl].
  - reflexivity.
  - apply IH.
Qed.

Lemma reap_fold_ids now srs st :
  run_ids (fst (fold_left (reap_one now no_writes) srs st)) = run_ids (fst st).
Proof.
  revert st. induction srs as [|sr srs IH]; intros [db tr]; simpl.
  - reflexivity.
  - rewrite IH. simpl. unfold delete_queue_of_run. rewrite with_queue_ids.
    apply update_run_ids. reflexivity.
Qed.

Lemma reapStaleRuns_ids query_err now db :
  run_ids (fst (reapStaleRuns query_err now [] db)) = run_ids db.
Proof.
  unfold reapStaleRuns. destruct query_err; [reflexivity|].
  rewrite reap_rows_alone. apply reap_fold_ids.
Qed.

Lemma run_activity_ids docker a db :
  run_ids (run_activity docker a db) = run_ids db.
Proof.
  destruct a; simpl.
  - apply KillRun_ids.
  - apply PauseRun_ids.
  - apply ResumeRun_ids.
  - apply reapStaleRuns_ids.
  - unfold delete_queue_of_run. rewrite with_queue_ids.
    apply update_run_ids. reflexivity.
Qed.

Lemma run_activities_ids docker l db :
  run_ids (run_activities docker l db) = run_ids db.
Proof.
  unfold run_activities. revert db. induction l as [|a l IH]; intros db; simpl.
  - reflexivity.
  - rewrite IH. apply run_activity_ids.
Qed.

Lemma wait_db_ids docker runID l db :
  run_ids (wait_db docker runID l db) = run_ids db.
Proof.
  unfold wait_db. revert db. induction l as [|w l IH]; intros db; simpl.
  - reflexivity.
  - rewrite IH. destruct w.
    + apply heartbeat_tick_ids.
    + apply run_activity_ids.
Qed.

(* ------------------------------------------------------------------ *)
(** ** The supervisor, step by step *)


Lemma waiting_run docker runID l db tr :
  waiting docker runID l (db, tr)
  = (Next tt, (wait_db docker runID l db, tr ++ wait_trace runID l)).
Proof.
  revert db tr. induction l as [|w l IH]; intros db tr; simpl.
  - unfold ret. rewrite app_nil_r. reflexivity.
  - destruct w as [now|a]; unfold bind, wait_item, exec, emit; simpl.
    + rewrite IH. unfold wait_db. simpl. rewrite <- app_assoc. reflexivity.
    + rewrite IH. reflexivity.
Qed.

Lemma blocking_run env st call db tr :
  panic_at env = None ->
  blocking env st call (db, tr)
  = (Next tt, (run_activities (docker env) (concurrent env st) db, tr ++ [call])).
Proof.
  intros Hp. unfold blocking, bind, emit, exec, ret. simpl. rewrite Hp.
  reflexivity.
Qed.

(** A run whose container starts ends with the terminal statement followed
    by the queue cleanup, whatever other tasks did meanwhile. *)
Lemma executeRun_started env job runID queueID db cid :
  mark_running_err env = false ->
  panic_at env = None ->
  PullImage (docker env) (j_image job) = None ->
  CreateContainer (docker env) (container_config job runID) = (cid, None) ->
  StartContainer (docker env) cid = None ->
  exists dbX,
    run_ids dbX = run_ids db /\
    fst (executeRun env job runID queueID db)
    = cleanupQueue queueID
        (terminal_update (timed_out env job)
           (snd (WaitContainer (docker env) cid))
           (fst (WaitContainer (docker env) cid))
           (j_timeout_seconds job) (now_finished env)
           (Milliseconds (now_done env - now_started env))
           (fst (GetLogs (docker env) cid "all")) runID dbX).
Proof.
  intros Hmark Hpanic Hpull Hcreate Hstart.
  eexists. split; cycle 1.
  - unfold executeRun, executeRun_body. rewrite Hmark.
    unfold bind at 1. unfold bind at 1. unfold exec at 1. simpl.
    unfold emit at 1. simpl.
    unfold bind at 1. rewrite blocking_run by assumption.
    rewrite Hpull. unfold bind at 1. unfold ret at 1.
    unfold bind at 1. rewrite blocking_run by assumption.
    rewrite Hcreate. unfold bind at 1. unfold ret at 1.
    unfold bind at 1. unfold exec at 1. simpl.
    unfold bind at 1. unfold emit at 1. simpl.
    unfold bind at 1. unfold emit at 1. simpl.
    unfold bind at 1. rewrite blocking_run by assumption.
    rewrite Hstart. unfold bind at 1. unfold ret at 1.
    unfold bind at 1. unfold emit at 1. simpl.
    unfold bind at 1. rewrite waiting_run.
    unfold timed_out.
    destruct (0 <? j_timeout_seconds job); [destruct (timer_fires env)|];
      unfold bind, emit, exec, ret, cleanup_queue; simpl;
      rewrite blocking_run by assumption; simpl; reflexivity.
  - rewrite run_activities_ids, wait_db_ids, run_activities_ids.
    rewrite update_run_ids by reflexivity.
    rewrite !run_activities_ids. unfold mark_running.
    apply update_run_ids. reflexivity.
Qed.

Lemma update_run_row (id : UUID) (f : JobRun -> JobRun) (db : DB) (r : JobRun) :
  (forall x, r_id (f x) = r_id x) ->
  In r (job_runs (update_run id f db)) -> r_id r = id ->
  exists r1, In r1 (job_runs db) /\ r_id r1 = id /\ r = f r1.
Proof.
  intros Hf Hin Hid. unfold update_run, with_runs in Hin. simpl in Hin.
  apply update_where_In in Hin. destruct Hin as [r1 [Hin1 Hr]].
  destruct (has_id id r1) eqn:E.
  - exists r1. apply has_id_true in E. auto.
  - exfalso. subst r. unfold has_id in E. apply uuid_eqb_neq in E. auto.
Qed.


Lemma run_ids_row (db db' : DB) (r : JobRun) :
  run_ids db' = run_ids db -> In r (job_runs db) ->
  exists r', In r' (job_runs db') /\ r_id r' = r_id r.
Proof.
  intros Hids Hin. assert (H : In (r_id r) (run_ids db')).
  { rewrite Hids. unfold run_ids. apply in_map. assumption. }
  unfold run_ids in H. apply in_map_iff in H. destruct H as [r' [H1 H2]].
  exists r'. auto.
Qed.

(** The four branches of "Determine final status". *)
Ltac terminal_cases timedOut err exitCode :=
  destruct timedOut; [|destruct err; [|destruct (exitCode =? 0)]].

(** What the terminal statement leaves in every row it addresses. *)
Lemma terminal_update_row timedOut err exitCode N fin dur logStr runID db r :
  In r (job_runs (terminal_update timedOut err exitCode N fin dur logStr runID db)) ->
  r_id r = runID ->
  r_status r = fst (spec_terminal_state timedOut err exitCode N) /\
  (forall m, snd (spec_terminal_state timedOut err exitCode N) = Some m ->
             r_error_message r = Some m).
Proof.
  unfold terminal_update, spec_terminal_state. intros Hin Hid.
  terminal_cases timedOut err exitCode;
    apply update_run_row in Hin; try assumption; try reflexivity;
    destruct Hin as [r1 [_ [_ Hr]]]; subst r; simpl; split;
    try reflexivity; intros m Hm; congruence.
Qed.

(** C4. For every supervised run whose container was started (the store
    accepted the running mark, pull, create and start succeeded, nothing
    panicked), the row of the run ends in the terminal state the
    specification lists: failed with "timeout exceeded (<N>s limit)" when
    the timeout fired; else failed with the wait error's message; else
    succeeded on exit code 0; else failed with "exit code <N>" -- whatever
    other tasks did to the store in the meantime. *)
Theorem executeRun_terminal_state env job runID queueID db cid r0 :
  mark_running_err env = false ->
  panic_at env = None ->
  PullImage (docker env) (j_image job) = None ->
  CreateContainer (docker env) (container_config job runID) = (cid, None) ->
  StartContainer (docker env) cid = None ->
  In r0 (job_runs db) -> r_id r0 = runID ->
  let state :=
    spec_terminal_state (timed_out env job)
      (snd (WaitContainer (docker env) cid))
      (fst (WaitContainer (docker env) cid)) (j_timeout_seconds job) in
  let db' := fst (executeRun env job runID queueID db) in
  (exists r, In r (job_runs db') /\ r_id r = runID) /\
  (forall r, In r (job_runs db') -> r_id r = runID ->
     r_status r = fst state /\
     (forall m, snd state = Some m -> r_error_message r = Some m)).
Proof.
  intros Hmark Hpanic Hpull Hcreate Hstart Hin0 Hid0 state db'.
  destruct (executeRun_started env job runID queueID db cid Hmark Hpanic Hpull
              Hcreate Hstart) as [dbX [Hids Hfinal]].
  subst db'. rewrite Hfinal. unfold cleanupQueue, with_queue. simpl. split.
  - destruct (run_ids_row db
      (terminal_update (timed_out env job)
         (snd (WaitContainer (docker env) cid))
         (fst (WaitContainer (docker env) cid))
         (j_timeout_seconds job) (now_finished env)
         (Milliseconds (now_done env - now_started env))
         (fst (GetLogs (docker env) cid "all")) runID dbX) r0)
      as [r [H1 H2]].
    + rewrite terminal_update_ids. assumption.
    + assumption.
    + exists r. split; [assumption | congruence].
  - intros r Hin Hid. subst state.
    apply (terminal_update_row _ _ _ _ _ _ _ _ _ _ Hin Hid).
Qed.

Lemma executeRun_terminal_state_witness :
  let db' := fst (executeRun (Sample.env 7) Sample.job "r1" "q1" Sample.claimed) in
  (exists r, In r (job_runs db') /\ r_id r = "r1") /\
  (forall r, In r (job_runs db') -> r_id r = "r1" ->
     r_status r = RunStatusFailed /\
     (forall m, Some "exit code 7" = Some m -> r_error_message r = Some m)).
Proof.
  apply (executeRun_terminal_state (Sample.env 7) Sample.job "r1" "q1"
           Sample.claimed "c0ffee00c0ffee" Sample.run);
    try reflexivity.
  simpl. left. reflexivity.
Defined.

(* ------------------------------------------------------------------ *)
(** ** Terminal writes race: kill against the supervisor *)

Lemma kill_update_row runID now durMs db r :
  In r (job_runs (kill_update runID now durMs db)) -> r_id r = runID ->
  r_status r = RunStatusCancelled /\ r_error_message r = Some "Killed by user".
Proof.
  unfold kill_update. intros Hin Hid.
  apply update_run_row in Hin; try assumption; try reflexivity.
  destruct Hin as [r1 [_ [_ Hr]]]. subst r. simpl. auto.
Qed.

(** C1, as stated, fails: the owner's kill is accepted and stored (status
    cancelled) while the supervisor waits; the supervisor's terminal
    statement then rewrites the row to failed, "exit code 137".  Had the
    container exited with 0, the row would read succeeded with the kill's
    error_message left in place, a mixed update. *)
Lemma kill_overwritten_by_supervisor :
  resp_code (fst (fst (KillRun false "u1" (Some "r1") (12 * Second) Sample.running)))
    = StatusOK /\
  map r_status (job_runs Sample.killed) = [RunStatusCancelled] /\
  terminal_update false None 137 0 (26 * Second) 24000 "hi" "r1" Sample.killed
    <> Sample.killed /\
  map (fun r => (r_status r, r_error_message r))
      (job_runs (terminal_update false None 0 0 (26 * Second) 24000 "hi" "r1"
                   Sample.killed))
    = [(RunStatusSucceeded, Some "Killed by user")] /\
  map (fun r => (r_status r, r_error_message r))
      (job_runs (fst (executeRun Sample.env_killed Sample.job "r1" "q1"
                        Sample.claimed)))
    = [(RunStatusFailed, Some "exit code 137")].
Proof.
  repeat split; try reflexivity.
  intros H. apply (f_equal (fun d => map r_status (job_runs d))) in H.
  vm_compute in H. discriminate.
Qed.

(** C1, amended. The supervisor's terminal update is a single statement
    keyed on the run id alone, with no condition on the current state.
    Applied after a kill's cancelled write it rewrites the row to its own
    computed status; applied before, the kill's write leaves cancelled,
    "Killed by user": the last terminal writer wins. *)
Theorem terminal_write_last_wins timedOut err exitCode N fin dur logStr
    runID now durMs db r0 :
  In r0 (job_runs db) -> r_id r0 = runID ->
  let sup := terminal_update timedOut err exitCode N fin dur logStr runID in
  let kill := kill_update runID now durMs in
  (exists set, forall d, sup d = update_run runID set d) /\
  (exists r, In r (job_runs (sup (kill db))) /\ r_id r = runID) /\
  (forall r, In r (job_runs (sup (kill db))) -> r_id r = runID ->
     r_status r = fst (spec_terminal_state timedOut err exitCode N)) /\
  (forall r, In r (job_runs (kill (sup db))) -> r_id r = runID ->
     r_status r = RunStatusCancelled /\
     r_error_message r = Some "Killed by user").
Proof.
  intros Hin0 Hid0 sup kill. subst sup kill.
  split; [|split; [|split]].
  - unfold terminal_update.
    terminal_cases timedOut err exitCode; eexists; intros d; reflexivity.
  - destruct (run_ids_row db
      (terminal_update timedOut err exitCode N fin dur logStr runID
         (kill_update runID now durMs db)) r0) as [r [H1 H2]].
    + rewrite terminal_update_ids. apply kill_update_ids.
    + assumption.
    + exists r. split; [assumption | congruence].
  - intros r Hin Hid.
    apply (terminal_update_row _ _ _ _ _ _ _ _ _ _ Hin Hid).
  - intros r Hin Hid. apply (kill_update_row _ _ _ _ _ Hin Hid).
Qed.

Lemma terminal_write_last_wins_witness :
  let sup := terminal_update false None 137 0 (26 * Second) 24000 "hi" "r1" in
  let kill := kill_update "r1" (12 * Second) 11000 in
  (exists set, forall d, sup d = update_run "r1" set d) /\
  (exists r, In r (job_runs (sup (kill Sample.running))) /\ r_id r = "r1") /\
  (forall r, In r (job_runs (sup (kill Sample.running))) -> r_id r = "r1" ->
     r_status r = fst (spec_terminal_state false None 137 0)) /\
  (forall r, In r (job_runs (kill (sup Sample.running))) -> r_id r = "r1" ->
     r_status r = RunStatusCancelled /\
     r_error_message r = Some "Killed by user").
Proof.
  apply (terminal_write_last_wins false None 137 0 (26 * Second) 24000 "hi"
           "r1" (12 * Second) 11000 Sample.running Sample.running_run).
  - simpl. left. reflexivity.
  - reflexivity.
Defined.

(* ------------------------------------------------------------------ *)
(** ** The reaper *)


(** The rows a pass rewrites are those whose id was selected. *)
Lemma reap_fold_runs now srs db tr :
  job_runs (fst (fold_left (reap_one now no_writes) srs (db, tr)))
  = map (fun r =>
           if existsb (fun sr => uuid_eqb (r_id r) (sr_ID sr)) srs
           then reaper_set now r else r)
        (job_runs db).
Proof.
  revert db tr. induction srs as [|sr srs IH]; intros db tr.
  - simpl. symmetry. apply map_id.
  - simpl fold_left. rewrite IH.
    unfold delete_queue_of_run, with_queue, update_run, with_runs,
      update_where. simpl job_runs. rewrite map_map.
    apply map_ext. intros r. unfold has_id. simpl existsb.
    destruct (uuid_eqb (r_id r) (sr_ID sr)) eqn:E; simpl.
    + destruct (existsb _ srs); reflexivity.
    + reflexivity.
Qed.

Lemma selected_iff_stale now db r :
  primary_key db -> In r (job_runs db) ->
  existsb (fun sr => uuid_eqb (r_id r) (sr_ID sr))
    (map (fun r => mkStaleRun (r_id r) (r_container_id r))
       (select_where (is_stale now) (job_runs db)))
  = is_stale now r.
Proof.
  intros Hpk Hin. unfold select_where.
  destruct (is_stale now r) eqn:Hs.
  - apply existsb_exists. exists (mkStaleRun (r_id r) (r_container_id r)).
    split.
    + apply in_map_iff. exists r. split; [reflexivity|].
      apply filter_In. auto.
    + simpl. apply uuid_eqb_refl.
  - apply not_true_is_false. intros H. apply existsb_exists in H.
    destruct H as [sr [Hsr Heq]]. apply in_map_iff in Hsr.
    destruct Hsr as [r' [Hmk Hr']]. apply filter_In in Hr'.
    destruct Hr' as [Hin' Hs']. subst sr. simpl in Heq.
    apply uuid_eqb_eq in Heq.
    assert (r = r') by (apply (primary_key_unique (job_runs db)); assumption).
    subst r'. congruence.
Qed.

(** Under the primary key, a pass rewrites exactly the stale rows. *)
Lemma reapStaleRuns_runs now db :
  primary_key db ->
  job_runs (fst (reapStaleRuns false now [] db))
  = map (fun r => if is_stale now r then reaper_set now r else r) (job_runs db).
Proof.
  intros Hpk. unfold reapStaleRuns, stale_runs.
  rewrite reap_rows_alone, reap_fold_runs.
  apply map_ext_in. intros r Hin. rewrite selected_iff_stale by assumption.
  reflexivity.
Qed.

Lemma reapStaleRuns_run_at now db i :
  primary_key db ->
  run_at i (fst (reapStaleRuns false now [] db))
  = option_map (fun r => if is_stale now r then reaper_set now r else r)
      (run_at i db).
Proof.
  intros Hpk. unfold run_at. rewrite reapStaleRuns_runs by assumption.
  apply nth_error_map.
Qed.

Lemma reapStaleRuns_primary_key query_err now db :
  primary_key db -> primary_key (fst (reapStaleRuns query_err now [] db)).
Proof. unfold primary_key. rewrite reapStaleRuns_ids. auto. Qed.

Lemma is_stale_spec now r :
  is_stale now r = true <->
  running_or_paused (r_status r) = true /\
  exists h, r_heartbeat_at r = Some h /\ h < now - 60 * Second.
Proof.
  unfold is_stale, staleThreshold. rewrite andb_true_iff.
  destruct (r_heartbeat_at r) as [h|].
  - rewrite Z.ltb_lt. split.
    + intros [H1 H2]. split; [assumption|]. exists h. auto.
    + intros [H1 [h' [E H2]]]. inversion E. subst. auto.
  - split.
    + intros [_ H]. discriminate.
    + intros [_ [h [E _]]]. discriminate.
Qed.

(** C8. On a reaper pass exactly the runs in state running or paused whose
    heartbeat_at is non-null and older than the 60-second threshold are
    selected and forced to failed; every other row is left as it is.  A
    running or paused run whose heartbeat_at is null is untouched by any
    number of passes, so it stays non-terminal for as long as only the
    reaper acts on it. *)
Theorem reaper_touches_only_stale now db i r :
  primary_key db -> run_at i db = Some r ->
  let stale :=
    running_or_paused (r_status r) = true /\
    exists h, r_heartbeat_at r = Some h /\ h < now - 60 * Second in
  (stale ->
     run_at i (fst (reapStaleRuns false now [] db)) = Some (reaper_set now r) /\
     r_status (reaper_set now r) = RunStatusFailed /\
     r_error_message (reaper_set now r)
       = Some "heartbeat timeout: worker may have crashed") /\
  (~ stale -> run_at i (fst (reapStaleRuns false now [] db)) = Some r) /\
  (running_or_paused (r_status r) = true -> r_heartbeat_at r = None ->
     forall nows, run_at i (reaper_passes nows db) = Some r /\
                  non_terminal (r_status r) = true).
Proof.
  intros Hpk Hat stale. split; [|split].
  - intros Hs. apply is_stale_spec in Hs.
    rewrite reapStaleRuns_run_at by assumption. rewrite Hat. simpl.
    rewrite Hs. auto.
  - intros Hs. rewrite reapStaleRuns_run_at by assumption. rewrite Hat. simpl.
    destruct (is_stale now r) eqn:E; [|reflexivity].
    exfalso. apply Hs. apply is_stale_spec. assumption.
  - intros Hrp Hnull nows. split.
    + unfold reaper_passes. revert db Hpk Hat.
      induction nows as [|t nows IH]; intros db Hpk Hat; cbn [fold_left].
      * assumption.
      * apply IH.
        -- apply reapStaleRuns_primary_key. assumption.
        -- rewrite reapStaleRuns_run_at by assumption. rewrite Hat. simpl.
           unfold is_stale. rewrite Hnull, andb_false_r. reflexivity.
    + destruct (r_status r); simpl in *; congruence.
Qed.

Lemma reaper_touches_only_stale_witness :
  let r := Sample.running_run in
  let now := 100 * Second in
  let stale :=
    running_or_paused (r_status r) = true /\
    exists h, r_heartbeat_at r = Some h /\ h < now - 60 * Second in
  (stale ->
     run_at 0 (fst (reapStaleRuns false now [] Sample.running))
       = Some (reaper_set now r) /\
     r_status (reaper_set now r) = RunStatusFailed /\
     r_error_message (reaper_set now r)
       = Some "heartbeat timeout: worker may have crashed") /\
  (~ stale -> run_at 0 (fst (reapStaleRuns false now [] Sample.running)) = Some r) /\
  (running_or_paused (r_status r) = true -> r_heartbeat_at r = None ->
     forall nows, run_at 0 (reaper_passes nows Sample.running) = Some r /\
                  non_terminal (r_status r) = true).
Proof.
  apply (reaper_touches_only_stale (100 * Second) Sample.running 0
           Sample.running_run).
  - unfold primary_key. simpl. constructor; [intros [] | constructor].
  - reflexivity.
Defined.

(* ------------------------------------------------------------------ *)
(** ** What a terminal run is protected from *)

Lemma heartbeat_tick_run_at runID now db i :
  run_at i (heartbeat_tick runID now db)
  = option_map (fun r =>
      if has_id runID r && running_or_paused (r_status r)
      then set_heartbeat_at (Some now) r else r) (run_at i db).
Proof. unfold run_at, heartbeat_tick, with_runs. simpl. apply update_where_nth. Qed.

Lemma update_run_run_at id f db i :
  run_at i (update_run id f db)
  = option_map (fun r => if has_id id r then f r else r) (run_at i db).
Proof. unfold run_at, update_run, with_runs. simpl. apply update_where_nth. Qed.

Lemma update_run_frame id f db i r :
  run_at i db = Some r -> r_id r <> id ->
  run_at i (update_run id f db) = Some r.
Proof.
  intros Hat Hid. rewrite update_run_run_at, Hat. simpl.
  unfold has_id. apply uuid_eqb_neq in Hid. rewrite Hid. reflexivity.
Qed.

Lemma heartbeat_tick_terminal runID now db i r :
  run_at i db = Some r -> terminal (r_status r) = true ->
  run_at i (heartbeat_tick runID now db) = Some r.
Proof.
  intros Hat Ht. rewrite heartbeat_tick_run_at, Hat. simpl.
  rewrite (terminal_not_running_or_paused _ Ht), andb_false_r. reflexivity.
Qed.

(** C2, as stated, fails for the supervisor's writes: the run was
    cancelled by its owner (a terminal state); [failRun], reached when the
    image pull fails after the kill, rewrites status and error_message, and
    so does the terminal statement that stores the captured logs. *)
Lemma terminal_run_rewritten_by_supervisor :
  map (fun r => (r_status r, r_error_message r)) (job_runs Sample.killed)
    = [(RunStatusCancelled, Some "Killed by user")] /\
  map (fun r => (r_status r, r_error_message r))
      (job_runs (failRun "r1" (1 * Second) "image pull failed: manifest unknown"
                   (27 * Second) Sample.killed))
    = [(RunStatusFailed, Some "image pull failed: manifest unknown")] /\
  map (fun r => (r_status r, r_error_message r))
      (job_runs (terminal_update false None 137 0 (26 * Second) 24000 "hi" "r1"
                   Sample.killed))
    = [(RunStatusFailed, Some "exit code 137")] /\
  map (fun r => (r_status r, r_error_message r))
      (job_runs (fst (executeRun Sample.env_killed_in_pull Sample.job "r1" "q1"
                        Sample.claimed)))
    = [(RunStatusFailed,
        Some "image pull failed: pulling image alpine: manifest unknown")].
Proof. repeat split; reflexivity. Qed.

(** The reaper's statements for one row, run with no write of another
    task in between, rewrite the row they address whatever its state. *)
Lemma reap_one_row now db tr i r cid :
  run_at i db = Some r ->
  run_at i (fst (reap_one now no_writes (db, tr) (mkStaleRun (r_id r) cid)))
  = Some (reaper_set now r).
Proof.
  intros Hat. cbn [reap_one fst sr_ID no_writes before_update before_delete].
  unfold delete_queue_of_run, with_queue, run_at. cbn [job_runs].
  fold (run_at i (update_run (r_id r) (reaper_set now) db)).
  rewrite update_run_run_at, Hat. simpl. unfold has_id.
  rewrite uuid_eqb_refl. reflexivity.
Qed.

(** The statements of the reaper never address a run whose id was not
    selected: its row changes only by what other tasks write. *)
Lemma reap_rows_frame now i r : forall srs meanwhile st,
  (forall sr, In sr srs -> sr_ID sr <> r_id r) ->
  Forall (keeps_row i r) meanwhile ->
  run_at i (fst st) = Some r ->
  run_at i (fst (reap_rows now meanwhile srs st)) = Some r.
Proof.
  induction srs as [|sr srs IH]; intros meanwhile [db tr] Hids Hmw Hat;
    cbn [reap_rows].
  - exact Hat.
  - assert (Hm : keeps_row i r (hd no_writes meanwhile)).
    { destruct meanwhile as [|m l]; cbn [hd].
      - intros d Hd. split; exact Hd.
      - inversion Hmw; assumption. }
    apply IH.
    + intros x Hx. apply Hids. right. exact Hx.
    + destruct meanwhile as [|m l]; cbn [tl]; [constructor|].
      inversion Hmw; assumption.
    + cbn [fst] in Hat. cbn [reap_one fst].
      unfold delete_queue_of_run, with_queue, run_at. cbn [job_runs].
      fold (run_at i (update_run (sr_ID sr) (reaper_set now)
                        (before_update (hd no_writes meanwhile) db))).
      assert (Hne : r_id r <> sr_ID sr).
      { intros E. apply (Hids sr (or_introl eq_refl)). symmetry. exact E. }
      assert (H1 : run_at i (update_run (sr_ID sr) (reaper_set now)
                     (before_update (hd no_writes meanwhile) db)) = Some r).
      { apply update_run_frame; [|exact Hne]. apply Hm. exact Hat. }
      destruct (Hm _ H1) as [_ H2]. exact H2.
Qed.

Lemma stale_runs_ids now db sr :
  In sr (stale_runs now db) ->
  exists r, In r (job_runs db) /\ is_stale now r = true /\ sr_ID sr = r_id r.
Proof.
  unfold stale_runs, select_where. intros H. apply in_map_iff in H.
  destruct H as [r [Hsr Hr]]. apply filter_In in Hr. destruct Hr as [Hr Hs].
  exists r. subst sr. auto.
Qed.

(** The reaper rewrites a run that was killed after the pass selected it:
    the kill is accepted and stores cancelled, then the reaper's UPDATE,
    keyed on the id alone, stores failed with the heartbeat message. *)
Lemma kill_overwritten_by_reaper :
  map sr_ID (stale_runs (100 * Second) Sample.running) = ["r1"] /\
  map (fun r => (r_status r, r_error_message r))
      (job_runs (before_update (hd no_writes Fixture.kill_meanwhile)
                   Sample.running))
    = [(RunStatusCancelled, Some "Killed by user")] /\
  map (fun r => (r_status r, r_error_message r))
      (job_runs (fst (reapStaleRuns false (100 * Second)
                        Fixture.kill_meanwhile Sample.running)))
    = [(RunStatusFailed, Some heartbeat_timeout_message)].
Proof. repeat split; reflexivity. Qed.

(** C2, amended. For a run that has reached a terminal state, a tick of
    the heartbeat emitter (any number of them) leaves its row, hence status
    and error_message, unchanged, and the reaper's SELECT does not return
    it: a reaper pass that starts once the run is terminal never addresses
    the run, whatever other tasks write during the pass.  The reaper's
    UPDATE for a selected row, the supervisor's [failRun] and its terminal
    statement carry no condition on the state: addressed to the run, they
    set status and error_message anew; the reaper does so to a run that
    became terminal between its SELECT and its UPDATE. *)
Theorem terminal_run_protection db i r :
  run_at i db = Some r -> terminal (r_status r) = true ->
  (forall runID now, run_at i (heartbeat_tick runID now db) = Some r) /\
  (forall runID ticks, run_at i (emitHeartbeat runID ticks db) = Some r) /\
  (forall now, is_stale now r = false) /\
  (primary_key db ->
   forall query_err now meanwhile,
     Forall (keeps_row i r) meanwhile ->
     run_at i (fst (reapStaleRuns query_err now meanwhile db)) = Some r) /\
  (forall now tr cid,
     exists r',
       run_at i (fst (reap_one now no_writes (db, tr)
                        (mkStaleRun (r_id r) cid))) = Some r' /\
       r_status r' = RunStatusFailed /\
       r_error_message r' = Some heartbeat_timeout_message) /\
  (forall startedAt msg now,
     exists r', run_at i (failRun (r_id r) startedAt msg now db) = Some r' /\
                r_status r' = RunStatusFailed /\
                r_error_message r' = Some msg) /\
  (forall timedOut err exitCode N fin dur logStr,
     exists r',
       run_at i (terminal_update timedOut err exitCode N fin dur logStr
                   (r_id r) db) = Some r' /\
       r_status r' = fst (spec_terminal_state timedOut err exitCode N) /\
       (forall m, snd (spec_terminal_state timedOut err exitCode N) = Some m ->
                  r_error_message r' = Some m)).
Proof.
  intros Hat Ht.
  assert (Hns : forall now, is_stale now r = false).
  { intros now. unfold is_stale.
    rewrite (terminal_not_running_or_paused _ Ht). reflexivity. }
  split; [|split; [|split; [|split; [|split; [|split]]]]].
  - intros runID now. apply heartbeat_tick_terminal; assumption.
  - intros runID ticks. unfold emitHeartbeat. revert db Hat.
    induction ticks as [|t ticks IH]; intros db Hat; cbn [fold_left].
    + assumption.
    + apply IH. apply heartbeat_tick_terminal; assumption.
  - exact Hns.
  - intros Hpk [|] now meanwhile Hmw.
    + exact Hat.
    + unfold reapStaleRuns. apply reap_rows_frame; [|exact Hmw|exact Hat].
      intros sr Hsr E. apply stale_runs_ids in Hsr.
      destruct Hsr as [r0 [Hr0 [Hs0 Hid0]]].
      assert (r0 = r).
      { apply (primary_key_unique (job_runs db)); try assumption.
        - unfold run_at in Hat. apply nth_error_In in Hat. exact Hat.
        - congruence. }
      subst r0. rewrite Hns in Hs0. discriminate.
  - intros now tr cid. exists (reaper_set now r).
    split; [apply reap_one_row; exact Hat|]. split; reflexivity.
  - intros startedAt msg now. unfold failRun.
    rewrite update_run_run_at, Hat. simpl. unfold has_id.
    rewrite uuid_eqb_refl. eexists. split; [reflexivity|]. simpl. auto.
  - intros timedOut err exitCode N fin dur logStr.
    unfold terminal_update, spec_terminal_state.
    terminal_cases timedOut err exitCode;
      rewrite update_run_run_at, Hat; simpl; unfold has_id;
      rewrite uuid_eqb_refl; eexists; (split; [reflexivity|]); simpl;
      (split; [reflexivity|]); intros m Hm; congruence.
Qed.

Lemma terminal_run_protection_witness :
  let db := Sample.killed in
  exists r, run_at 0 db = Some r /\ r_status r = RunStatusCancelled /\
  (forall runID now, run_at 0 (heartbeat_tick runID now db) = Some r) /\
  (forall runID ticks, run_at 0 (emitHeartbeat runID ticks db) = Some r) /\
  (forall now, is_stale now r = false) /\
  (primary_key db ->
   forall query_err now meanwhile,
     Forall (keeps_row 0 r) meanwhile ->
     run_at 0 (fst (reapStaleRuns query_err now meanwhile db)) = Some r) /\
  (forall now tr cid,
     exists r',
       run_at 0 (fst (reap_one now no_writes (db, tr)
                        (mkStaleRun (r_id r) cid))) = Some r' /\
       r_status r' = RunStatusFailed /\
       r_error_message r' = Some heartbeat_timeout_message) /\
  (forall startedAt msg now,
     exists r', run_at 0 (failRun (r_id r) startedAt msg now db) = Some r' /\
                r_status r' = RunStatusFailed /\
                r_error_message r' = Some msg) /\
  (forall timedOut err exitCode N fin dur logStr,
     exists r',
       run_at 0 (terminal_update timedOut err exitCode N fin dur logStr
                   (r_id r) db) = Some r' /\
       r_status r' = fst (spec_terminal_state timedOut err exitCode N) /\
       (forall m, snd (spec_terminal_state timedOut err exitCode N) = Some m ->
                  r_error_message r' = Some m)).
Proof.
  eexists. split; [reflexivity|]. split; [reflexivity|].
  apply (terminal_run_protection Sample.killed 0); reflexivity.
Defined.

(* ------------------------------------------------------------------ *)
(** ** Control handlers: kill and logs *)

Lemma scan_run_some query_err runID user db row :
  scan_run query_err runID user db = Some row ->
  query_err = false /\
  query_row (owned_run runID user) (job_runs db) = Some row.
Proof.
  unfold scan_run. destruct query_err; [discriminate|]. auto.
Qed.

Lemma scan_run_answered runID user db :
  scan_run false runID user db
  = query_row (owned_run runID user) (job_runs db).
Proof. reflexivity. Qed.

(** C9. Every successful kill command (answer 200) sets the run to
    cancelled with error_message 'Killed by user' and deletes every queue
    row that references the run: afterwards no queue row exists for it. *)
Theorem KillRun_cancels_and_dequeues query_err user runID now db resp db'
    calls :
  KillRun query_err user runID now db = (resp, db', calls) ->
  resp_code resp = StatusOK ->
  exists id,
    runID = Some id /\
    (exists r, In r (job_runs db') /\ r_id r = id) /\
    (forall r, In r (job_runs db') -> r_id r = id ->
       r_status r = RunStatusCancelled /\
       r_error_message r = Some "Killed by user") /\
    (forall q, In q (job_queue db') -> q_run_id q <> id).
Proof.
  unfold KillRun. intros H Hok.
  destruct runID as [id|].
  2:{ inversion H; subst. discriminate Hok. }
  destruct (scan_run query_err id user db) as [row|] eqn:Hq.
  2:{ inversion H; subst. discriminate Hok. }
  apply scan_run_some in Hq. destruct Hq as [_ Hq].
  destruct (negb (RunStatus_eqb (r_status row) RunStatusRunning) &&
            negb (RunStatus_eqb (r_status row) RunStatusPaused)).
  { inversion H; subst. discriminate Hok. }
  inversion H; subst. clear H. exists id. split; [reflexivity|].
  apply query_row_found in Hq. destruct Hq as [Hin [Hid _]].
  split; [|split].
  - unfold delete_queue_of_run, with_queue. simpl.
    destruct (run_ids_row db
      (kill_update id now
         match r_started_at row with
         | Some s => Milliseconds (now - s)
         | None => 0
         end db) row) as [r [H1 H2]].
    + apply kill_update_ids.
    + assumption.
    + exists r. split; [assumption | congruence].
  - intros r Hr Hrid. unfold delete_queue_of_run, with_queue in Hr.
    simpl in Hr. apply (kill_update_row _ _ _ _ _ Hr Hrid).
  - intros q Hq. unfold delete_queue_of_run, with_queue in Hq. simpl in Hq.
    apply delete_where_In in Hq. destruct Hq as [_ Hne].
    apply uuid_eqb_neq. assumption.
Qed.

Lemma KillRun_cancels_and_dequeues_witness :
  exists id,
    Some "r1" = Some id /\
    (exists r, In r (job_runs Sample.killed) /\ r_id r = id) /\
    (forall r, In r (job_runs Sample.killed) -> r_id r = id ->
       r_status r = RunStatusCancelled /\
       r_error_message r = Some "Killed by user") /\
    (forall q, In q (job_queue Sample.killed) -> q_run_id q <> id).
Proof.
  apply (KillRun_cancels_and_dequeues false "u1" (Some "r1") (12 * Second)
           Sample.running
           (mkResponse StatusOK
              (JsonMap [("status", "cancelled"); ("message", "Job killed.")]))
           Sample.killed
           [StopContainerCall "c0ffee00c0ffee" 10;
            RemoveContainerCall "c0ffee00c0ffee"]);
    reflexivity.
Defined.

(** C10, as stated, fails when the store does not answer: the run exists
    and is owned by the caller, yet a logs request whose SELECT returns an
    error is answered 404 "Run not found". *)
Lemma GetRunLogs_fails_on_store_error :
  In Sample.running_run (job_runs Sample.running) /\
  r_id Sample.running_run = "r1" /\ r_user_id Sample.running_run = "u1" /\
  GetRunLogs (Sample.daemon 0) true "u1" (Some "r1") Sample.running
  = run_not_found /\
  resp_code run_not_found = 404.
Proof. repeat split. left. reflexivity. Qed.

(** C10, amended. For every run that exists and is owned by the caller,
    the logs endpoint answers 200 with a logs string whenever the store
    answers the SELECT of the run: with a container id and status running
    or paused, the live container logs (tail 1000); when the live fetch
    fails, or otherwise, the stored logs_tail, and the empty string when
    logs_tail is null.  When the SELECT fails, with whatever error, the
    answer is 404 "Run not found". *)
Theorem GetRunLogs_answers docker query_err user runID db row :
  primary_key db ->
  In row (job_runs db) -> r_id row = runID -> r_user_id row = user ->
  let logs :=
    match r_container_id row with
    | Some cid =>
        if running_or_paused (r_status row) then
          match ContainerLogs docker cid "1000" with
          | LogsText live => live
          | _ => stored_logs row
          end
        else stored_logs row
    | None => stored_logs row
    end in
  GetRunLogs docker query_err user (Some runID) db
  = (if query_err
     then mkResponse 404 (ErrorResponse "not_found" "Run not found")
     else mkResponse 200 (JsonMap [("logs", logs)])) /\
  (r_logs_tail row = None -> stored_logs row = EmptyString).
Proof.
  intros Hpk Hin Hid Hu logs. split.
  - unfold GetRunLogs, scan_run. destruct query_err; [reflexivity|].
    rewrite (query_row_owned (job_runs db) runID user row Hpk Hin Hid Hu).
    subst logs. unfold stored_logs, GetLogs, StatusOK.
    destruct (r_container_id row) as [cid|]; [|reflexivity].
    destruct (r_status row); simpl; try reflexivity;
      destruct (ContainerLogs docker cid "1000"); reflexivity.
  - intros Hnull. unfold stored_logs. rewrite Hnull. reflexivity.
Qed.

Lemma GetRunLogs_answers_witness :
  GetRunLogs (Sample.daemon 0) false "u1" (Some "r1") Sample.running
  = mkResponse 200 (JsonMap [("logs", "hi")]) /\
  (r_logs_tail Sample.running_run = None ->
   stored_logs Sample.running_run = EmptyString).
Proof.
  apply (GetRunLogs_answers (Sample.daemon 0) false "u1" "r1" Sample.running
           Sample.running_run).
  - unfold primary_key. simpl. constructor; [intros [] | constructor].
  - simpl. left. reflexivity.
  - reflexivity.
  - reflexivity.
Defined.

(* ------------------------------------------------------------------ *)
(** ** The scheduler *)

Lemma filter_length_zero (A : Type) (p : A -> bool) (l : list A) :
  List.length (filter p l) = O <-> forall x, In x l -> p x = false.
Proof.
  induction l as [|a l IH]; simpl.
  - split; [intros _ x [] | reflexivity].
  - destruct (p a) eqn:E; simpl.
    + split; [discriminate|]. intros H. specialize (H a (or_introl eq_refl)).
      congruence.
    + rewrite IH. split.
      * intros H x [Hx | Hx]; [subst; assumption | auto].
      * intros H x Hx. apply H. right. assumption.
Qed.






Section SchedulerFacts.
Variable Schedule : Type.
Variable Parse : string -> option Schedule.
Variable Next : Schedule -> Time -> Time.














End SchedulerFacts.



(* ------------------------------------------------------------------ *)
(** ** The claim *)

Lemma sorts_before_false a b :
  sorts_before a b = false <->
  q_priority a < q_priority b \/
  (q_priority a = q_priority b /\ q_scheduled_at b <= q_scheduled_at a).
Proof.
  unfold sorts_before.
  rewrite orb_false_iff, andb_false_iff, Z.ltb_ge, Z.eqb_neq, Z.ltb_ge. lia.
Qed.

Lemma sorts_before_true a b :
  sorts_before a b = true <->
  q_priority b < q_priority a \/
  (q_priority a = q_priority b /\ q_scheduled_at a < q_scheduled_at b).
Proof.
  unfold sorts_before.
  rewrite orb_true_iff, andb_true_iff, Z.ltb_lt, Z.eqb_eq, Z.ltb_lt. lia.
Qed.

(** [first_row] returns a row that no other row precedes in the order. *)
Lemma first_row_some l q :
  first_row l = Some q ->
  In q l /\ forall q', In q' l -> sorts_before q' q = false.
Proof.
  revert q. induction l as [|a l IH]; simpl; intros q H.
  - discriminate.
  - destruct (first_row l) as [b|] eqn:E.
    + destruct (IH b eq_refl) as [Hb Hmin].
      destruct (sorts_before b a) eqn:Hba; injection H as <-.
      * split; [auto|]. intros q' [Hq' | Hq']; [subst q'|auto].
        apply sorts_before_true in Hba. apply sorts_before_false. lia.
      * split; [auto|]. intros q' [Hq' | Hq'].
        -- subst q'. apply sorts_before_false. lia.
        -- specialize (Hmin q' Hq'). apply sorts_before_false in Hmin.
           apply sorts_before_false in Hba. apply sorts_before_false. lia.
    + injection H as <-. destruct l as [|c l].
      * split; [auto|]. intros q' [Hq' | []]. subst q'.
        apply sorts_before_false. lia.
      * simpl in E. destruct (first_row l); [destruct (sorts_before _ _)|];
          discriminate.
Qed.

Lemma first_row_none l : first_row l = None <-> l = [].
Proof.
  destruct l as [|a l]; simpl.
  - split; reflexivity.
  - split; [|discriminate].
    destruct (first_row l); [destruct (sorts_before _ _)|]; discriminate.
Qed.

Lemma claimable_spec locked now db q :
  claimable locked now db q = true <->
  q_picked_at q = None /\ q_scheduled_at q <= now /\
  (exists j, In j (jobs db) /\ j_id j = q_job_id q) /\
  ~ In (q_id q) locked.
Proof.
  unfold claimable. rewrite !andb_true_iff, Z.leb_le, negb_true_iff.
  rewrite existsb_exists. split.
  - intros [[[H1 H2] [j [Hj1 Hj2]]] H4]. repeat split.
    + destruct (q_picked_at q); [discriminate | reflexivity].
    + assumption.
    + exists j. apply uuid_eqb_eq in Hj2. auto.
    + intros Hin. apply not_true_iff_false in H4. apply H4.
      apply existsb_exists. exists (q_id q). split; [assumption|].
      apply uuid_eqb_refl.
  - intros [H1 [H2 [[j [Hj1 Hj2]] H4]]]. repeat split.
    + rewrite H1. reflexivity.
    + assumption.
    + exists j. split; [assumption|]. apply uuid_eqb_eq. assumption.
    + apply not_true_iff_false. intros Hex. apply existsb_exists in Hex.
      destruct Hex as [x [Hx1 Hx2]]. apply uuid_eqb_eq in Hx2. subst x. auto.
Qed.

(** C5, as stated, fails in its last clause: an empty queue and a failed
    query give the same answer of [pollAndExecute], a bare return with the
    store unchanged; and with work in the queue a failed query gives that
    answer too. *)
Lemma no_work_same_as_error :
  pollAndExecute no_errors [] 200 (mkDB [Sample.job] [Sample.run] [])
    = (mkDB [Sample.job] [Sample.run] [], None) /\
  pollAndExecute (mkTxErrors false true false false) [] 200
      (mkDB [Sample.job] [Sample.run] [])
    = pollAndExecute no_errors [] 200 (mkDB [Sample.job] [Sample.run] []) /\
  pollAndExecute (mkTxErrors false true false false) [] 200 Sample.db
    = (Sample.db, None).
Proof. repeat split; reflexivity. Qed.

(** C5, amended. The claim runs in one transaction.  When it succeeds it
    has selected a single queue row with picked_at NULL and scheduled_at <=
    now that no other transaction holds locked, first in the order priority
    descending then scheduled_at ascending among such rows; it has set
    picked_at = now on that row and on nothing else, and hands the joined
    job and the run id to the supervisor.  Rows locked by other workers are
    skipped, never waited for: whenever an unlocked eligible row exists and
    the store answers, a row is claimed.  When no row is eligible, and
    equally on any store error, the call returns nothing and leaves the
    store as it was: "no work" and an error are the same answer. *)
Theorem pollAndExecute_claims_first_row errs locked now db :
  (forall db' job runID queueID,
     pollAndExecute errs locked now db = (db', Some (job, runID, queueID)) ->
     exists q j,
       In q (job_queue db) /\
       q_picked_at q = None /\ q_scheduled_at q <= now /\
       ~ In (q_id q) locked /\
       (forall q', In q' (job_queue db) ->
          q_picked_at q' = None -> q_scheduled_at q' <= now ->
          (exists j', In j' (jobs db) /\ j_id j' = q_job_id q') ->
          ~ In (q_id q') locked ->
          q_priority q' < q_priority q \/
          (q_priority q' = q_priority q /\ q_scheduled_at q <= q_scheduled_at q')) /\
       In j (jobs db) /\ j_id j = q_job_id q /\
       queueID = q_id q /\ runID = q_run_id q /\
       (j_id job, j_name job, j_image job, j_command job, j_env job,
        j_memory_mb job, j_cpu_millicores job, j_timeout_seconds job)
       = (j_id j, j_name j, j_image j, j_command j, j_env j,
          j_memory_mb j, j_cpu_millicores j, j_timeout_seconds j) /\
       jobs db' = jobs db /\ job_runs db' = job_runs db /\
       List.length (job_queue db') = List.length (job_queue db) /\
       (forall i r, nth_error (job_queue db) i = Some r ->
          nth_error (job_queue db') i
          = Some (if uuid_eqb (q_id r) (q_id q)
                  then set_picked_at (Some now) r else r))) /\
  (forall db', pollAndExecute errs locked now db = (db', None) -> db' = db) /\
  (forall q, In q (job_queue db) ->
     q_picked_at q = None -> q_scheduled_at q <= now ->
     (exists j, In j (jobs db) /\ j_id j = q_job_id q) ->
     ~ In (q_id q) locked ->
     exists db' claim, pollAndExecute no_errors locked now db = (db', Some claim)) /\
  ((forall q, In q (job_queue db) ->
      q_picked_at q = None -> q_scheduled_at q <= now -> In (q_id q) locked) ->
   pollAndExecute errs locked now db = (db, None)) /\
  (begin_err errs || query_err errs || update_err errs || commit_err errs = true ->
   pollAndExecute errs locked now db = (db, None)).
Proof.
  unfold pollAndExecute. split; [|split; [|split; [|split]]].
  - intros db' job runID queueID H.
    destruct (begin_err errs); [discriminate|].
    destruct (query_err errs); [discriminate|].
    destruct (first_row _) as [q|] eqn:Efirst; [|discriminate].
    destruct (join_job db q) as [j|] eqn:Ejoin; [|discriminate].
    destruct (update_err errs); [discriminate|].
    destruct (commit_err errs); [discriminate|].
    injection H as <- <- <- <-.
    apply first_row_some in Efirst. destruct Efirst as [Hq Hmin].
    unfold select_where in Hq. apply filter_In in Hq. destruct Hq as [Hq Hc].
    apply claimable_spec in Hc. destruct Hc as [Hc1 [Hc2 [_ Hc4]]].
    unfold join_job in Ejoin. apply find_some in Ejoin.
    destruct Ejoin as [Hj1 Hj2]. apply uuid_eqb_eq in Hj2.
    exists q, j. repeat split; try assumption; try reflexivity.
    + intros q' Hq' H1 H2 H3 H4.
      assert (Hin : In q' (select_where (claimable locked now db) (job_queue db))).
      { unfold select_where. apply filter_In. split; [assumption|].
        apply claimable_spec. auto. }
      specialize (Hmin q' Hin). apply sorts_before_false in Hmin. exact Hmin.
    + simpl. rewrite Hj2. reflexivity.
    + simpl. unfold update_where. apply length_map.
    + intros i r Hr. simpl. rewrite update_where_nth, Hr. reflexivity.
  - intros db' H.
    destruct (begin_err errs); [injection H as <-; reflexivity|].
    destruct (query_err errs); [injection H as <-; reflexivity|].
    destruct (first_row _) as [q|]; [|injection H as <-; reflexivity].
    destruct (join_job db q) as [j|]; [|injection H as <-; reflexivity].
    destruct (update_err errs); [injection H as <-; reflexivity|].
    destruct (commit_err errs); [injection H as <-; reflexivity|].
    discriminate.
  - intros q Hq H1 H2 H3 H4. simpl.
    destruct (first_row _) as [q0|] eqn:Efirst.
    + apply first_row_some in Efirst. destruct Efirst as [Hq0 _].
      unfold select_where in Hq0. apply filter_In in Hq0.
      destruct Hq0 as [_ Hc]. apply claimable_spec in Hc.
      destruct Hc as [_ [_ [[j [Hj1 Hj2]] _]]].
      destruct (join_job db q0) as [j0|] eqn:Ejoin.
      * eexists. eexists. reflexivity.
      * exfalso. unfold join_job in Ejoin.
        pose proof (find_none _ _ Ejoin j Hj1) as Hn. simpl in Hn.
        apply uuid_eqb_neq in Hn. auto.
    + exfalso. apply first_row_none in Efirst.
      assert (Hin : In q (select_where (claimable locked now db) (job_queue db))).
      { unfold select_where. apply filter_In. split; [assumption|].
        apply claimable_spec. auto. }
      rewrite Efirst in Hin. destruct Hin.
  - intros Hnone.
    destruct (begin_err errs); [reflexivity|].
    destruct (query_err errs); [reflexivity|].
    destruct (first_row _) as [q|] eqn:Efirst; [|reflexivity].
    exfalso. apply first_row_some in Efirst. destruct Efirst as [Hq _].
    unfold select_where in Hq. apply filter_In in Hq. destruct Hq as [Hq Hc].
    apply claimable_spec in Hc. destruct Hc as [Hc1 [Hc2 [_ Hc4]]].
    apply Hc4. apply Hnone; assumption.
  - intros Herr.
    destruct (begin_err errs); [reflexivity|].
    destruct (query_err errs); [reflexivity|].
    destruct (first_row _) as [q|]; [|reflexivity].
    destruct (join_job db q) as [j|]; [|reflexivity].
    destruct (update_err errs); [reflexivity|].
    destruct (commit_err errs); [reflexivity|].
    discriminate.
Qed.

(** The sample queue row is claimed, although another row is locked. *)
Lemma pollAndExecute_claims_first_row_witness :
  exists db' claim,
    pollAndExecute no_errors ["q0"] 200 Sample.db = (db', Some claim).
Proof.
  apply (proj1 (proj2 (proj2
           (pollAndExecute_claims_first_row no_errors ["q0"] 200 Sample.db)))
           Sample.item).
  - simpl. left. reflexivity.
  - reflexivity.
  - vm_compute. discriminate.
  - exists Sample.job. split; [simpl; left; reflexivity | reflexivity].
  - simpl. intros [H | []]. discriminate H.
Defined.

(* ------------------------------------------------------------------ *)
(** ** The order of the supervisor's actions *)

Lemma blocking_flow env st call db tr :
  blocking env st call (db, tr)
  = (match panics_at env st with
     | Some v => Panicked v
     | None => Next tt
     end,
     (run_activities (docker env) (concurrent env st) db, tr ++ [call])).
Proof.
  unfold blocking, panics_at, bind, emit, exec, ret, panic. simpl.
  destruct (panic_at env) as [[st' v]|]; [destruct (Stage_eqb st st')|];
    reflexivity.
Qed.

(** [executeRun] performs the actions of [supervisor_trace], in that
    order, on every store. *)
Lemma executeRun_trace env job runID queueID db :
  snd (executeRun env job runID queueID db)
  = supervisor_trace env job runID queueID.
Proof.
  unfold executeRun, executeRun_body, supervisor_trace, timed_out.
  destruct (mark_running_err env); [reflexivity|].
  unfold fail_run, cleanup_queue, bind, exec, emit, ret, return_, panic.
  cbn [fst snd app].
  rewrite blocking_flow. cbn [fst snd app].
  destruct (panics_at env AtPull) as [v|]; [reflexivity|].
  destruct (PullImage (docker env) (j_image job)) as [e|]; [reflexivity|].
  rewrite blocking_flow. cbn [fst snd app].
  destruct (panics_at env AtCreate) as [v|]; [reflexivity|].
  destruct (CreateContainer (docker env) (container_config job runID))
    as [cid [e|]]; [reflexivity|].
  cbn [fst snd app]. rewrite blocking_flow. cbn [fst snd app].
  destruct (panics_at env AtStart) as [v|]; [reflexivity|].
  destruct (StartContainer (docker env) cid) as [e|]; [reflexivity|].
  rewrite waiting_run. cbn [fst snd app].
  destruct (0 <? j_timeout_seconds job); [destruct (timer_fires env)|];
    cbn [fst snd app andb]; rewrite blocking_flow; cbn [fst snd app];
    destruct (panics_at env AtLogs) as [v|]; cbn [fst snd app];
    repeat rewrite <- app_assoc; cbn [app]; reflexivity.
Qed.

Lemma wait_trace_no_cleanup runID l :
  count_events is_CleanupQueue (wait_trace runID l) = O.
Proof.
  unfold count_events. induction l as [|[now|a] l IH]; simpl; auto.
Qed.

Lemma count_events_app p l1 l2 :
  count_events p (l1 ++ l2) = (count_events p l1 + count_events p l2)%nat.
Proof. unfold count_events. rewrite filter_app, length_app. reflexivity. Qed.

(** On every path on which the store accepts the running mark and no call
    panics, the queue row delete is issued exactly once. *)
Lemma cleanup_once_without_panic env job runID queueID db :
  mark_running_err env = false -> panic_at env = None ->
  count_events is_CleanupQueue (snd (executeRun env job runID queueID db)) = 1%nat.
Proof.
  intros Hmark Hpanic. rewrite executeRun_trace.
  unfold supervisor_trace, panics_at. rewrite Hmark, Hpanic.
  destruct (PullImage _ _); [reflexivity|].
  destruct (CreateContainer _ _) as [cid [e|]]; [reflexivity|].
  destruct (StartContainer _ _); [reflexivity|].
  rewrite !count_events_app, wait_trace_no_cleanup.
  destruct (timed_out env job); reflexivity.
Qed.

(** C3: the code at the failing inputs.  A panic in the image pull is
    recovered and routed to [failRun], which makes the run terminal
    (failed), but [cleanupQueue] is never called: the picked queue row of
    the terminal run stays in the table.  When the first UPDATE fails the
    supervisor returns at once, again without the delete. *)
Theorem cleanup_skipped_on_panic :
  let out := executeRun Sample.env_panic Sample.job "r1" "q1" Sample.claimed in
  count_events is_CleanupQueue (snd out) = 0%nat /\
  map r_status (job_runs (fst out)) = [RunStatusFailed] /\
  map q_run_id (job_queue (fst out)) = ["r1"] /\
  snd out = [MarkRunning "r1"; PullImageCall "alpine";
             FailRun "r1" "panic: runtime error: invalid memory address or nil pointer dereference"] /\
  executeRun Sample.env_store_down Sample.job "r1" "q1" Sample.claimed
    = (Sample.claimed, []).
Proof. repeat split; reflexivity. Qed.

(** C6, as stated, fails: in an undisturbed run the image pull is the
    second action and the heartbeat emitter is started as the seventh,
    after the container start; when the pull fails no emitter is started
    at all.  No heartbeat is emitted during the image pull. *)
Lemma heartbeat_absent_during_pull :
  let tr := snd (executeRun (Sample.env 0) Sample.job "r1" "q1" Sample.claimed) in
  position is_PullImageCall tr = Some 1%nat /\
  position is_HeartbeatStart tr = Some 6%nat /\
  happens_before is_HeartbeatStart is_PullImageCall tr = false /\
  position is_heartbeat
    (snd (executeRun Sample.env_no_image Sample.job "r1" "q1" Sample.claimed))
  = None.
Proof. repeat split; reflexivity. Qed.

Lemma mark_running_row runID startedAt db r :
  In r (job_runs (mark_running runID startedAt db)) -> r_id r = runID ->
  r_status r = RunStatusRunning /\
  r_started_at r = Some startedAt /\ r_heartbeat_at r = Some startedAt.
Proof.
  unfold mark_running. intros Hin Hid.
  apply update_run_row in Hin; try assumption; try reflexivity.
  destruct Hin as [r1 [_ [_ Hr]]]. subst r. simpl. auto.
Qed.

(** C6, amended. In the supervised execution of every claimed run the
    first action is the transition to running, which stamps started_at and
    an initial heartbeat_at; the second is the image pull.  The heartbeat
    emitter is started only after pull, create and start have succeeded,
    directly after the container start, so no heartbeat is emitted during
    the image pull: either the run has no heartbeat action at all, or its
    first heartbeat action is the emitter's start, seventh in the order,
    right behind the start call. *)
Theorem heartbeat_starts_after_container_start env job runID queueID db :
  mark_running_err env = false ->
  let tr := snd (executeRun env job runID queueID db) in
  nth_error tr 0 = Some (MarkRunning runID) /\
  (forall r, In r (job_runs (mark_running runID (now_started env) db)) ->
     r_id r = runID ->
     r_status r = RunStatusRunning /\
     r_started_at r = Some (now_started env) /\
     r_heartbeat_at r = Some (now_started env)) /\
  nth_error tr 1 = Some (PullImageCall (j_image job)) /\
  (position is_heartbeat tr = None \/
   exists cid,
     PullImage (docker env) (j_image job) = None /\
     CreateContainer (docker env) (container_config job runID) = (cid, None) /\
     StartContainer (docker env) cid = None /\
     nth_error tr 5 = Some (StartContainerCall cid) /\
     nth_error tr 6 = Some (HeartbeatStart runID) /\
     position is_heartbeat tr = Some 6%nat /\
     happens_before is_PullImageCall is_heartbeat tr = true).
Proof.
  intros Hmark tr. subst tr. rewrite executeRun_trace.
  unfold supervisor_trace. rewrite Hmark.
  split; [reflexivity|]. split; [apply mark_running_row|].
  split; [reflexivity|].
  destruct (panics_at env AtPull); [left; reflexivity|].
  destruct (PullImage (docker env) (j_image job)) eqn:Hpull;
    [left; reflexivity|].
  destruct (panics_at env AtCreate); [left; reflexivity|].
  destruct (CreateContainer (docker env) (container_config job runID))
    as [cid [e|]] eqn:Hcreate; [left; reflexivity|].
  destruct (panics_at env AtStart); [left; reflexivity|].
  destruct (StartContainer (docker env) cid) eqn:Hstart; [left; reflexivity|].
  right. exists cid. repeat split; try assumption; reflexivity.
Qed.

Lemma heartbeat_starts_after_container_start_witness :
  let tr := snd (executeRun (Sample.env 0) Sample.job "r1" "q1" Sample.claimed) in
  nth_error tr 0 = Some (MarkRunning "r1") /\
  (forall r, In r (job_runs (mark_running "r1" (1 * Second) Sample.claimed)) ->
     r_id r = "r1" ->
     r_status r = RunStatusRunning /\
     r_started_at r = Some (1 * Second) /\
     r_heartbeat_at r = Some (1 * Second)) /\
  nth_error tr 1 = Some (PullImageCall "alpine") /\
  (position is_heartbeat tr = None \/
   exists cid,
     PullImage (Sample.daemon 0) "alpine" = None /\
     CreateContainer (Sample.daemon 0) (container_config Sample.job "r1")
       = (cid, None) /\
     StartContainer (Sample.daemon 0) cid = None /\
     nth_error tr 5 = Some (StartContainerCall cid) /\
     nth_error tr 6 = Some (HeartbeatStart "r1") /\
     position is_heartbeat tr = Some 6%nat /\
     happens_before is_PullImageCall is_heartbeat tr = true).
Proof.
  apply (heartbeat_starts_after_container_start (Sample.env 0) Sample.job
           "r1" "q1" Sample.claimed).
  reflexivity.
Defined.

(* ------------------------------------------------------------------ *)
(** ** The supervisor's store *)

(** [executeRun] leaves the store of [supervisor_store]. *)
Lemma executeRun_store env job runID queueID db :
  fst (executeRun env job runID queueID db)
  = supervisor_store env job runID queueID db.
Proof.
  unfold executeRun, executeRun_body, supervisor_store, timed_out.
  destruct (mark_running_err env); [reflexivity|].
  unfold fail_run, cleanup_queue, bind, exec, emit, ret, return_, panic.
  cbn [fst snd app].
  rewrite blocking_flow. cbn [fst snd app].
  destruct (panics_at env AtPull) as [v|]; [reflexivity|].
  destruct (PullImage (docker env) (j_image job)) as [e|]; [reflexivity|].
  rewrite blocking_flow. cbn [fst snd app].
  destruct (panics_at env AtCreate) as [v|]; [reflexivity|].
  destruct (CreateContainer (docker env) (container_config job runID))
    as [cid [e|]]; [reflexivity|].
  cbn [fst snd app]. rewrite blocking_flow. cbn [fst snd app].
  destruct (panics_at env AtStart) as [v|]; [reflexivity|].
  destruct (StartContainer (docker env) cid) as [e|]; [reflexivity|].
  rewrite waiting_run. cbn [fst snd app].
  destruct (0 <? j_timeout_seconds job); [destruct (timer_fires env)|];
    cbn [fst snd app andb]; rewrite blocking_flow; cbn [fst snd app];
    destruct (panics_at env AtLogs) as [v|]; cbn [fst snd app];
    reflexivity.
Qed.

Lemma panics_at_none env st : panic_at env = None -> panics_at env st = None.
Proof. intros H. unfold panics_at. rewrite H. reflexivity. Qed.

Lemma failRun_row runID startedAt msg now db r :
  In r (job_runs (failRun runID startedAt msg now db)) -> r_id r = runID ->
  r_status r = RunStatusFailed /\ r_error_message r = Some msg /\
  r_heartbeat_at r = None /\ r_finished_at r = Some now /\
  r_duration_ms r = Some (Milliseconds (now - startedAt)).
Proof.
  unfold failRun. intros Hin Hid.
  apply update_run_row in Hin; try assumption; try reflexivity.
  destruct Hin as [r1 [_ [_ Hr]]]. subst r. simpl. auto.
Qed.

Lemma cleanupQueue_gone queueID db q :
  In q (job_queue (cleanupQueue queueID db)) -> q_id q <> queueID.
Proof.
  unfold cleanupQueue, with_queue. simpl. intros H.
  apply delete_where_In in H. destruct H as [_ H].
  apply uuid_eqb_neq. assumption.
Qed.

Lemma wait_trace_only_ticks runID l e :
  In e (wait_trace runID l) -> exists now, e = HeartbeatTick runID now.
Proof.
  induction l as [|[now|a] l IH]; simpl.
  - intros [].
  - intros [H | H]; [exists now; auto | auto].
  - assumption.
Qed.

(** X1. A failure before the container runs (image pull, container
    create or container start) leaves the run failed with the step's
    error text, heartbeat_at cleared and finished_at stamped, whatever
    other tasks did meanwhile; no heartbeat emitter was started. *)
Theorem pre_exec_failure_fails_run env job runID queueID db r0 msg :
  mark_running_err env = false -> panic_at env = None ->
  pre_exec_failure env job runID = Some msg ->
  In r0 (job_runs db) -> r_id r0 = runID ->
  let out := executeRun env job runID queueID db in
  (exists r, In r (job_runs (fst out)) /\ r_id r = runID) /\
  (forall r, In r (job_runs (fst out)) -> r_id r = runID ->
     r_status r = RunStatusFailed /\ r_error_message r = Some msg /\
     r_heartbeat_at r = None /\ r_finished_at r = Some (now_failed env)) /\
  In (FailRun runID msg) (snd out) /\
  position is_heartbeat (snd out) = None.
Proof.
  intros Hmark Hpanic Hfail Hin0 Hid0 out. subst out.
  rewrite executeRun_store, executeRun_trace.
  unfold supervisor_store, supervisor_trace, pre_exec_failure in *.
  rewrite Hmark, !(panics_at_none env _ Hpanic).
  assert (Hrows : forall d,
    run_ids d = run_ids db ->
    (exists r, In r (job_runs (cleanupQueue queueID
        (failRun runID (now_started env) msg (now_failed env) d))) /\
        r_id r = runID) /\
    (forall r, In r (job_runs (cleanupQueue queueID
        (failRun runID (now_started env) msg (now_failed env) d))) ->
      r_id r = runID ->
      r_status r = RunStatusFailed /\ r_error_message r = Some msg /\
      r_heartbeat_at r = None /\ r_finished_at r = Some (now_failed env))).
  { intros d Hd. split.
    - destruct (run_ids_row db
        (failRun runID (now_started env) msg (now_failed env) d) r0)
        as [r [H1 H2]].
      + rewrite failRun_ids. assumption.
      + assumption.
      + exists r. split; [exact H1 | congruence].
    - intros r Hr Hrid.
      destruct (failRun_row _ _ _ _ _ _ Hr Hrid) as [A [B [C [D _]]]]. auto. }
  assert (Hmarked : forall d, run_ids d = run_ids db ->
            run_ids (mark_running runID (now_started env) d) = run_ids db).
  { intros d Hd. unfold mark_running. rewrite update_run_ids by reflexivity.
    assumption. }
  destruct (PullImage (docker env) (j_image job)) as [e|].
  { injection Hfail as <-.
    destruct (Hrows (run_activities (docker env) (concurrent env AtPull)
                       (mark_running runID (now_started env) db))) as [A B].
    { rewrite run_activities_ids. apply Hmarked. reflexivity. }
    split; [exact A | split; [exact B | split; [simpl; auto | reflexivity]]]. }
  destruct (CreateContainer (docker env) (container_config job runID))
    as [cid [e|]].
  { injection Hfail as <-.
    destruct (Hrows (run_activities (docker env) (concurrent env AtCreate)
                (run_activities (docker env) (concurrent env AtPull)
                   (mark_running runID (now_started env) db)))) as [A B].
    { rewrite !run_activities_ids. apply Hmarked. reflexivity. }
    split; [exact A | split; [exact B | split; [simpl; auto | reflexivity]]]. }
  destruct (StartContainer (docker env) cid) as [e|]; [|discriminate].
  injection Hfail as <-.
  destruct (Hrows (run_activities (docker env) (concurrent env AtStart)
              (update_run runID (set_container_id (Some cid))
                 (run_activities (docker env) (concurrent env AtCreate)
                    (run_activities (docker env) (concurrent env AtPull)
                       (mark_running runID (now_started env) db))))))
    as [A B].
  { rewrite run_activities_ids, update_run_ids by reflexivity.
    rewrite !run_activities_ids. apply Hmarked. reflexivity. }
  split; [exact A | split; [exact B | split; [simpl; auto 10 | reflexivity]]].
Qed.

Lemma pre_exec_failure_fails_run_witness :
  let out := executeRun Sample.env_no_image Sample.job "r1" "q1" Sample.claimed in
  let msg := "image pull failed: pulling image alpine: manifest unknown" in
  (exists r, In r (job_runs (fst out)) /\ r_id r = "r1") /\
  (forall r, In r (job_runs (fst out)) -> r_id r = "r1" ->
     r_status r = RunStatusFailed /\ r_error_message r = Some msg /\
     r_heartbeat_at r = None /\ r_finished_at r = Some (27 * Second)) /\
  In (FailRun "r1" msg) (snd out) /\
  position is_heartbeat (snd out) = None.
Proof.
  apply (pre_exec_failure_fails_run Sample.env_no_image Sample.job "r1" "q1"
           Sample.claimed Sample.run
           "image pull failed: pulling image alpine: manifest unknown");
    try reflexivity.
  simpl. left. reflexivity.
Defined.

(** X2. Whenever the store accepts the running mark and no call panics,
    the supervisor ends with the delete of its queue row: after
    [executeRun] no row of job_queue carries the claimed queue id, on the
    failure exits as on completion. *)
Theorem executeRun_removes_queue_row env job runID queueID db :
  mark_running_err env = false -> panic_at env = None ->
  forall q, In q (job_queue (fst (executeRun env job runID queueID db))) ->
            q_id q <> queueID.
Proof.
  intros Hmark Hpanic q. rewrite executeRun_store. unfold supervisor_store.
  rewrite Hmark, !(panics_at_none env _ Hpanic).
  destruct (PullImage _ _); [apply cleanupQueue_gone|].
  destruct (CreateContainer _ _) as [cid [e|]]; [apply cleanupQueue_gone|].
  destruct (StartContainer _ _); apply cleanupQueue_gone.
Qed.

Lemma executeRun_removes_queue_row_witness :
  Forall (fun q => q_id q <> "q1")
    (job_queue (fst (executeRun (Sample.env 0) Sample.job "r1" "q1"
                       Sample.claimed))).
Proof.
  apply Forall_forall.
  apply (executeRun_removes_queue_row (Sample.env 0) Sample.job "r1" "q1"
           Sample.claimed); reflexivity.
Defined.

(** X3. In a run whose container started, the supervisor calls
    StopContainer only when the job has a positive timeout and the timer
    fired, then on its own container with a grace of 5 seconds; and it
    always ends by removing the container. *)
Theorem stop_only_on_timeout env job runID queueID db cid :
  mark_running_err env = false -> panic_at env = None ->
  PullImage (docker env) (j_image job) = None ->
  CreateContainer (docker env) (container_config job runID) = (cid, None) ->
  StartContainer (docker env) cid = None ->
  let tr := snd (executeRun env job runID queueID db) in
  (forall c grace, In (StopContainerCall c grace) tr ->
     c = cid /\ grace = 5 /\ 0 < j_timeout_seconds job /\ timer_fires env = true) /\
  (0 < j_timeout_seconds job -> timer_fires env = true ->
     In (StopContainerCall cid 5) tr) /\
  last tr (MarkRunning runID) = RemoveContainerCall cid.
Proof.
  intros Hmark Hpanic Hpull Hcreate Hstart tr. subst tr.
  rewrite executeRun_trace. unfold supervisor_trace, timed_out.
  rewrite Hmark, !(panics_at_none env _ Hpanic), Hpull, Hcreate, Hstart.
  cbn [app]. split; [|split].
  - intros c grace H.
    repeat (destruct H as [H | H]; [discriminate|]).
    apply in_app_or in H. destruct H as [H | H].
    { apply wait_trace_only_ticks in H. destruct H as [t H]. discriminate. }
    apply in_app_or in H. destruct H as [H | H].
    + destruct (0 <? j_timeout_seconds job) eqn:Et;
        destruct (timer_fires env) eqn:Ef; simpl in H;
        try contradiction.
      destruct H as [H | []]. injection H as <- <-.
      apply Z.ltb_lt in Et. auto.
    + simpl in H. repeat (destruct H as [H | H]; [discriminate|]).
      contradiction.
  - intros Ht Hf. apply Z.ltb_lt in Ht. rewrite Ht, Hf. simpl.
    do 7 right. apply in_or_app. right. simpl. auto.
  - rewrite !app_comm_cons, !app_assoc.
    change ([HeartbeatCancel runID; GetLogsCall cid "all";
             TerminalUpdate runID
               (final_status ((0 <? j_timeout_seconds job) && timer_fires env)
                  (snd (WaitContainer (docker env) cid))
                  (fst (WaitContainer (docker env) cid)));
             CleanupQueue queueID; RemoveContainerCall cid])
      with ([HeartbeatCancel runID; GetLogsCall cid "all";
             TerminalUpdate runID
               (final_status ((0 <? j_timeout_seconds job) && timer_fires env)
                  (snd (WaitContainer (docker env) cid))
                  (fst (WaitContainer (docker env) cid)));
             CleanupQueue queueID] ++ [RemoveContainerCall cid]).
    rewrite app_assoc. apply last_last.
Qed.

Lemma stop_only_on_timeout_witness :
  let tr := snd (executeRun (Sample.env 0) Sample.job "r1" "q1" Sample.claimed) in
  (forall c grace, In (StopContainerCall c grace) tr ->
     c = "c0ffee00c0ffee" /\ grace = 5 /\ 0 < j_timeout_seconds Sample.job /\
     timer_fires (Sample.env 0) = true) /\
  (0 < j_timeout_seconds Sample.job -> timer_fires (Sample.env 0) = true ->
     In (StopContainerCall "c0ffee00c0ffee" 5) tr) /\
  last tr (MarkRunning "r1") = RemoveContainerCall "c0ffee00c0ffee".
Proof.
  apply (stop_only_on_timeout (Sample.env 0) Sample.job "r1" "q1"
           Sample.claimed "c0ffee00c0ffee"); reflexivity.
Defined.

Lemma terminal_update_columns timedOut err exitCode N fin dur logStr runID db r :
  In r (job_runs (terminal_update timedOut err exitCode N fin dur logStr
                    runID db)) ->
  r_id r = runID ->
  r_exit_code r = Some exitCode /\ r_logs_tail r = Some logStr /\
  r_heartbeat_at r = None /\ r_finished_at r = Some fin /\
  r_duration_ms r = Some dur.
Proof.
  unfold terminal_update. intros Hin Hid.
  destruct timedOut; [|destruct err; [|destruct (exitCode =? 0) eqn:E]];
    apply update_run_row in Hin; try assumption; try reflexivity;
    destruct Hin as [r1 [_ [_ Hr]]]; subst r; simpl; repeat split.
  apply Z.eqb_eq in E. subst exitCode. reflexivity.
Qed.

(** X4. The terminal write of a run whose container started records the
    exit code, the captured logs, finished_at and duration_ms (whole
    milliseconds between entry and the end of the wait) and clears
    heartbeat_at.  Log capture is best effort: when fetching the logs
    fails, the empty text is stored and the terminal status is what it
    would have been. *)
Theorem terminal_write_record env job runID queueID db cid :
  mark_running_err env = false -> panic_at env = None ->
  PullImage (docker env) (j_image job) = None ->
  CreateContainer (docker env) (container_config job runID) = (cid, None) ->
  StartContainer (docker env) cid = None ->
  forall r, In r (job_runs (fst (executeRun env job runID queueID db))) ->
    r_id r = runID ->
    r_exit_code r = Some (fst (WaitContainer (docker env) cid)) /\
    r_logs_tail r
      = Some match ContainerLogs (docker env) cid "all" with
             | LogsText text => text
             | _ => EmptyString
             end /\
    r_heartbeat_at r = None /\
    r_finished_at r = Some (now_finished env) /\
    r_duration_ms r = Some (Z.quot (now_done env - now_started env) 1000000) /\
    r_status r
      = fst (spec_terminal_state (timed_out env job)
               (snd (WaitContainer (docker env) cid))
               (fst (WaitContainer (docker env) cid)) (j_timeout_seconds job)).
Proof.
  intros Hmark Hpanic Hpull Hcreate Hstart r Hin Hid.
  destruct (executeRun_started env job runID queueID db cid Hmark Hpanic Hpull
              Hcreate Hstart) as [dbX [_ Hfinal]].
  rewrite Hfinal in Hin. unfold cleanupQueue, with_queue in Hin. simpl in Hin.
  destruct (terminal_update_columns _ _ _ _ _ _ _ _ _ _ Hin Hid)
    as [A [B [C [D E]]]].
  destruct (terminal_update_row _ _ _ _ _ _ _ _ _ _ Hin Hid) as [F _].
  repeat split; try assumption.
  rewrite B. unfold GetLogs.
  destruct (ContainerLogs (docker env) cid "all"); reflexivity.
Qed.

Lemma terminal_write_record_witness :
  Forall (fun r =>
      r_id r = "r1" ->
      r_exit_code r = Some 0 /\
      r_logs_tail r = Some "hi" /\
      r_heartbeat_at r = None /\
      r_finished_at r = Some (26 * Second) /\
      r_duration_ms r = Some 24000 /\
      r_status r = RunStatusSucceeded)
    (job_runs (fst (executeRun (Sample.env 0) Sample.job "r1" "q1"
                      Sample.claimed))).
Proof.
  apply Forall_forall.
  apply (terminal_write_record (Sample.env 0) Sample.job "r1" "q1"
           Sample.claimed "c0ffee00c0ffee"); reflexivity.
Defined.

(** X5. The adapter reports a wait error exactly when the daemon did not
    report an exit; a non-zero exit code is not an error.  A run whose
    wait failed is stored failed with exit_code -1, and, unless the
    timeout fired, with the adapter's error text. *)
Theorem wait_error_fails_run env job runID queueID db cid :
  mark_running_err env = false -> panic_at env = None ->
  PullImage (docker env) (j_image job) = None ->
  CreateContainer (docker env) (container_config job runID) = (cid, None) ->
  StartContainer (docker env) cid = None ->
  (forall c id, snd (WaitContainer c id) = None <->
                exists code, ContainerWait c id = WaitExited code /\
                             fst (WaitContainer c id) = code) /\
  (forall oe, ContainerWait (docker env) cid = WaitFailed oe ->
     forall r, In r (job_runs (fst (executeRun env job runID queueID db))) ->
       r_id r = runID ->
       r_status r = RunStatusFailed /\ r_exit_code r = Some (-1) /\
       (timed_out env job = false ->
        r_error_message r
          = Some match oe with
                 | Some e => ("waiting for container: " ++ e)%string
                 | None => "unexpected wait state"
                 end)).
Proof.
  intros Hmark Hpanic Hpull Hcreate Hstart. split.
  - intros c id. unfold WaitContainer.
    destruct (ContainerWait c id) as [code | [e|]]; simpl; split;
      try discriminate.
    + intros _. exists code. auto.
    + reflexivity.
    + intros [code [H _]]. discriminate.
    + intros [code [H _]]. discriminate.
  - intros oe Hwait r Hin Hid.
    destruct (executeRun_started env job runID queueID db cid Hmark Hpanic
                Hpull Hcreate Hstart) as [dbX [_ Hfinal]].
    rewrite Hfinal in Hin. unfold cleanupQueue, with_queue in Hin.
    simpl in Hin.
    destruct (terminal_update_columns _ _ _ _ _ _ _ _ _ _ Hin Hid) as [A _].
    destruct (terminal_update_row _ _ _ _ _ _ _ _ _ _ Hin Hid) as [F G].
    unfold WaitContainer in *. rewrite Hwait in *.
    unfold spec_terminal_state in *.
    destruct (timed_out env job); destruct oe as [e|]; simpl in *;
      repeat split; try assumption; try discriminate;
      intros _; apply G; reflexivity.
Qed.

Lemma wait_error_fails_run_witness :
  Forall (fun r =>
      r_id r = "r1" ->
      r_status r = RunStatusFailed /\ r_exit_code r = Some (-1) /\
      (timed_out Fixture.env_wait_failed Sample.job = false ->
       r_error_message r = Some "waiting for container: connection reset"))
    (job_runs (fst (executeRun Fixture.env_wait_failed Sample.job "r1" "q1"
                      Sample.claimed))).
Proof.
  apply Forall_forall.
  apply (proj2 (wait_error_fails_run Fixture.env_wait_failed Sample.job "r1"
                  "q1" Sample.claimed "c0ffee00c0ffee" eq_refl eq_refl
                  eq_refl eq_refl eq_refl) (Some "connection reset")).
  reflexivity.
Defined.

(* ------------------------------------------------------------------ *)
(** ** Control commands *)

Lemma find_map_stable (A : Type) (p : A -> bool) (g : A -> A) (l : list A) :
  (forall x, p (g x) = p x) ->
  find p (map g l) = option_map g (find p l).
Proof.
  intros Hp. induction l as [|a l IH]; simpl.
  - reflexivity.
  - rewrite Hp. destruct (p a); [reflexivity | exact IH].
Qed.

Lemma query_row_not_owned runID user t :
  (forall r, In r t -> r_id r = runID -> r_user_id r <> user) ->
  query_row (owned_run runID user) t = None.
Proof.
  intros H. unfold query_row.
  destruct (find (owned_run runID user) t) as [r|] eqn:E; [|reflexivity].
  exfalso. apply query_row_found in E. destruct E as [Hin [Hid Hu]].
  apply (H r Hin Hid Hu).
Qed.

(** X6. A run that does not exist and a run owned by someone else get
    the same answer from kill, pause, resume and logs: 404 "Run not
    found", with the store untouched and no runtime call made. *)
Theorem not_owned_is_not_found docker query_err user runID now db :
  (forall r, In r (job_runs db) -> r_id r = runID -> r_user_id r <> user) ->
  KillRun query_err user (Some runID) now db = (run_not_found, db, []) /\
  PauseRun docker query_err user (Some runID) now db
  = (run_not_found, db, []) /\
  ResumeRun docker query_err user (Some runID) db = (run_not_found, db, []) /\
  GetRunLogs docker query_err user (Some runID) db = run_not_found /\
  resp_code run_not_found = 404.
Proof.
  intros H. apply query_row_not_owned in H.
  assert (E : scan_run query_err runID user db = None).
  { unfold scan_run. destruct query_err; [reflexivity | exact H]. }
  unfold KillRun, PauseRun, ResumeRun, GetRunLogs. rewrite E.
  repeat split; reflexivity.
Qed.

Lemma not_owned_is_not_found_witness :
  KillRun false "u2" (Some "r1") 5 Sample.running
    = (run_not_found, Sample.running, []) /\
  PauseRun (Sample.daemon 0) false "u2" (Some "r1") 5 Sample.running
    = (run_not_found, Sample.running, []) /\
  ResumeRun (Sample.daemon 0) false "u2" (Some "r1") Sample.running
    = (run_not_found, Sample.running, []) /\
  GetRunLogs (Sample.daemon 0) false "u2" (Some "r1") Sample.running
    = run_not_found /\
  resp_code run_not_found = 404.
Proof.
  apply (not_owned_is_not_found (Sample.daemon 0) false "u2" "r1" 5
           Sample.running).
  simpl. intros r [H | []] _. subst r. simpl. discriminate.
Defined.

Lemma kill_set_owned runID user now d (r : JobRun) :
  owned_run runID user
    (if has_id runID r
     then set_error_message (Some "Killed by user")
            (set_duration_ms (Some d)
               (set_finished_at (Some now) (set_status RunStatusCancelled r)))
     else r)
  = owned_run runID user r.
Proof. destruct (has_id runID r); reflexivity. Qed.

(** X7. After a successful kill every further control command on the
    run is refused: a second kill, a pause and a resume each answer 409
    when the store answers their SELECT of the run and 404 when that
    SELECT fails, and in both cases leave the store as the kill left it,
    with no runtime call. *)
Theorem commands_after_kill_conflict docker query_err user runID now db resp
    db' calls :
  KillRun query_err user runID now db = (resp, db', calls) ->
  resp_code resp = StatusOK ->
  forall now' query_err',
    (exists body,
       KillRun query_err' user runID now' db'
       = (mkResponse (if query_err' then 404 else 409) body, db', [])) /\
    (exists body,
       PauseRun docker query_err' user runID now' db'
       = (mkResponse (if query_err' then 404 else 409) body, db', [])) /\
    (exists body,
       ResumeRun docker query_err' user runID db'
       = (mkResponse (if query_err' then 404 else 409) body, db', [])).
Proof.
  unfold KillRun at 1. intros H Hok now' query_err'.
  destruct runID as [id|].
  2:{ inversion H; subst. discriminate Hok. }
  destruct (scan_run query_err id user db) as [row|] eqn:Hq.
  2:{ inversion H; subst. discriminate Hok. }
  apply scan_run_some in Hq. destruct Hq as [_ Hq].
  destruct (negb (RunStatus_eqb (r_status row) RunStatusRunning) &&
            negb (RunStatus_eqb (r_status row) RunStatusPaused)).
  { inversion H; subst. discriminate Hok. }
  inversion H; subst; clear H.
  assert (Hq' : exists row',
            query_row (owned_run id user)
              (job_runs (delete_queue_of_run id
                 (kill_update id now
                    match r_started_at row with
                    | Some s => Milliseconds (now - s)
                    | None => 0
                    end db))) = Some row' /\
            r_status row' = RunStatusCancelled).
  { unfold delete_queue_of_run, with_queue, kill_update, update_run,
      with_runs, update_where, query_row. simpl.
    rewrite find_map_stable by (intros x; apply kill_set_owned).
    unfold query_row in Hq. rewrite Hq. simpl.
    apply find_some in Hq. destruct Hq as [_ Hp]. unfold owned_run in Hp.
    apply andb_true_iff in Hp. destruct Hp as [Hp _].
    unfold has_id. rewrite Hp. eexists. split; reflexivity. }
  destruct Hq' as [row' [Hfound Hst]].
  unfold KillRun, PauseRun, ResumeRun, scan_run.
  destruct query_err'; [repeat split; eexists; reflexivity|].
  rewrite Hfound, Hst. simpl.
  repeat split; eexists; reflexivity.
Qed.

Lemma commands_after_kill_conflict_witness :
  (exists body,
     KillRun false "u1" (Some "r1") (13 * Second) Sample.killed
     = (mkResponse 409 body, Sample.killed, [])) /\
  (exists body,
     PauseRun (Sample.daemon 0) false "u1" (Some "r1") (13 * Second)
       Sample.killed
     = (mkResponse 409 body, Sample.killed, [])) /\
  (exists body,
     ResumeRun (Sample.daemon 0) false "u1" (Some "r1") Sample.killed
     = (mkResponse 409 body, Sample.killed, [])).
Proof.
  apply (commands_after_kill_conflict (Sample.daemon 0) false "u1"
           (Some "r1") (12 * Second) Sample.running
           (mkResponse StatusOK
              (JsonMap [("status", "cancelled"); ("message", "Job killed.")]))
           Sample.killed
           [StopContainerCall "c0ffee00c0ffee" 10;
            RemoveContainerCall "c0ffee00c0ffee"] eq_refl eq_refl
           (13 * Second) false).
Defined.

(** X8. A control command that does not answer 200 leaves the store as
    it was; a refused kill also makes no runtime call. *)
Theorem refused_command_changes_nothing docker query_err user runID now db :
  (forall resp db' calls,
     KillRun query_err user runID now db = (resp, db', calls) ->
     resp_code resp <> 200 -> db' = db /\ calls = []) /\
  (forall resp db' calls,
     PauseRun docker query_err user runID now db = (resp, db', calls) ->
     resp_code resp <> 200 -> db' = db) /\
  (forall resp db' calls,
     ResumeRun docker query_err user runID db = (resp, db', calls) ->
     resp_code resp <> 200 -> db' = db).
Proof.
  split; [|split]; intros resp db' calls H Hcode.
  - unfold KillRun in H. destruct runID as [id|]; [|inversion H; auto].
    destruct (scan_run _ _ _ _) as [row|]; [|inversion H; auto].
    destruct (_ && _); inversion H; subst; auto.
    exfalso. apply Hcode. reflexivity.
  - unfold PauseRun in H. destruct runID as [id|]; [|inversion H; auto].
    destruct (scan_run _ _ _ _) as [row|]; [|inversion H; auto].
    destruct (negb _); [inversion H; auto|].
    destruct (r_container_id row) as [cid|]; [|inversion H; auto].
    destruct (PauseContainer docker cid); inversion H; subst; auto.
    exfalso. apply Hcode. reflexivity.
  - unfold ResumeRun in H. destruct runID as [id|]; [|inversion H; auto].
    destruct (scan_run _ _ _ _) as [row|]; [|inversion H; auto].
    destruct (negb _); [inversion H; auto|].
    destruct (r_container_id row) as [cid|]; [|inversion H; auto].
    destruct (UnpauseContainer docker cid); inversion H; subst; auto.
    exfalso. apply Hcode. reflexivity.
Qed.

Lemma KillRun_frame query_err user runID now db i r :
  run_at i db = Some r -> r_id r <> runID ->
  let d := snd (fst (KillRun query_err user (Some runID) now db)) in
  run_at i d = Some r /\ jobs d = jobs db /\
  (forall q, q_run_id q <> runID ->
             (In q (job_queue d) <-> In q (job_queue db))).
Proof.
  intros Hat Hid. unfold KillRun.
  destruct (scan_run _ _ _ _) as [row|]; [|simpl; repeat split; auto].
  destruct (_ && _); simpl; [repeat split; auto|].
  split; [|split].
  - unfold delete_queue_of_run, with_queue, run_at. simpl.
    apply (update_run_frame runID _ db i r Hat Hid).
  - reflexivity.
  - intros q Hq. rewrite delete_where_In. apply uuid_eqb_neq in Hq.
    rewrite Hq. tauto.
Qed.

Lemma PauseRun_frame docker query_err user runID now db i r :
  run_at i db = Some r -> r_id r <> runID ->
  let d := snd (fst (PauseRun docker query_err user (Some runID) now db)) in
  run_at i d = Some r /\ jobs d = jobs db /\ job_queue d = job_queue db.
Proof.
  intros Hat Hid. unfold PauseRun.
  destruct (scan_run _ _ _ _) as [row|]; [|simpl; auto].
  destruct (negb _); [simpl; auto|].
  destruct (r_container_id row) as [cid|]; [|simpl; auto].
  destruct (PauseContainer docker cid); simpl; [auto|].
  split; [|split]; try reflexivity.
  apply update_run_frame; assumption.
Qed.

Lemma ResumeRun_frame docker query_err user runID db i r :
  run_at i db = Some r -> r_id r <> runID ->
  let d := snd (fst (ResumeRun docker query_err user (Some runID) db)) in
  run_at i d = Some r /\ jobs d = jobs db /\ job_queue d = job_queue db.
Proof.
  intros Hat Hid. unfold ResumeRun.
  destruct (scan_run _ _ _ _) as [row|]; [|simpl; auto].
  destruct (negb _); [simpl; auto|].
  destruct (r_container_id row) as [cid|]; [|simpl; auto].
  destruct (UnpauseContainer docker cid); simpl; [auto|].
  split; [|split]; try reflexivity.
  apply update_run_frame; assumption.
Qed.

(** X9. Kill, pause and resume touch only the run they address: the row
    of every other run stays as it is, the jobs table is never written,
    pause and resume never write the queue, and kill removes from the
    queue only rows that reference the killed run. *)
Theorem commands_touch_only_their_run docker query_err user runID now db i r :
  run_at i db = Some r -> r_id r <> runID ->
  let killed := snd (fst (KillRun query_err user (Some runID) now db)) in
  let paused :=
    snd (fst (PauseRun docker query_err user (Some runID) now db)) in
  let resumed := snd (fst (ResumeRun docker query_err user (Some runID) db)) in
  run_at i killed = Some r /\ run_at i paused = Some r /\
  run_at i resumed = Some r /\
  jobs killed = jobs db /\ jobs paused = jobs db /\ jobs resumed = jobs db /\
  job_queue paused = job_queue db /\ job_queue resumed = job_queue db /\
  (forall q, q_run_id q <> runID ->
             (In q (job_queue killed) <-> In q (job_queue db))).
Proof.
  intros Hat Hid killed paused resumed. subst killed paused resumed.
  destruct (KillRun_frame query_err user runID now db i r Hat Hid)
    as [K1 [K2 K3]].
  destruct (PauseRun_frame docker query_err user runID now db i r Hat Hid)
    as [P1 [P2 P3]].
  destruct (ResumeRun_frame docker query_err user runID db i r Hat Hid)
    as [R1 [R2 R3]].
  repeat split; try assumption; apply K3; assumption.
Qed.

Lemma commands_touch_only_their_run_witness :
  run_at 1 (snd (fst (KillRun false "u1" (Some "r1") (30 * Second)
                        Fixture.two_runs)))
    = Some Fixture.other_run /\
  run_at 1 (snd (fst (PauseRun (Sample.daemon 0) false "u1" (Some "r1")
                        (30 * Second) Fixture.two_runs)))
    = Some Fixture.other_run.
Proof.
  destruct (commands_touch_only_their_run (Sample.daemon 0) false "u1" "r1"
              (30 * Second) Fixture.two_runs 1%nat Fixture.other_run eq_refl)
    as [K [P _]].
  - discriminate.
  - split; [exact K | exact P].
Defined.

Lemma owned_run_stable runID user (f : JobRun -> JobRun) (r : JobRun) :
  (forall x, r_id (f x) = r_id x) ->
  (forall x, r_user_id (f x) = r_user_id x) ->
  owned_run runID user (if has_id runID r then f r else r)
  = owned_run runID user r.
Proof.
  intros H1 H2. destruct (has_id runID r); [|reflexivity].
  unfold owned_run. rewrite H1, H2. reflexivity.
Qed.

Lemma query_row_updated runID user f db row :
  (forall x, r_id (f x) = r_id x) ->
  (forall x, r_user_id (f x) = r_user_id x) ->
  query_row (owned_run runID user) (job_runs db) = Some row ->
  query_row (owned_run runID user) (job_runs (update_run runID f db))
  = Some (f row).
Proof.
  intros H1 H2 Hq. unfold update_run, with_runs, update_where, query_row.
  simpl. rewrite find_map_stable
    by (intros x; apply owned_run_stable; assumption).
  unfold query_row in Hq. rewrite Hq. simpl.
  apply find_some in Hq. destruct Hq as [_ Hp]. unfold owned_run in Hp.
  apply andb_true_iff in Hp. destruct Hp as [Hp _].
  unfold has_id. rewrite Hp. reflexivity.
Qed.

(** X10. Pause then resume is a round trip.  For a running run of the
    caller with a container, a pause whose SELECT the store answers gives
    200 after PauseContainer and stores paused with paused_at stamped; a
    resume whose SELECT the store answers then gives 200 after
    UnpauseContainer and the store is again exactly the store before the
    pause.  A pause or a resume whose SELECT fails answers 404 and leaves
    the store as it is. *)
Theorem pause_resume_round_trip docker user runID now db row cid :
  primary_key db ->
  In row (job_runs db) -> r_id row = runID -> r_user_id row = user ->
  r_status row = RunStatusRunning -> r_container_id row = Some cid ->
  r_paused_at row = None ->
  PauseContainer docker cid = None -> UnpauseContainer docker cid = None ->
  let p := PauseRun docker false user (Some runID) now db in
  let q := ResumeRun docker false user (Some runID) (snd (fst p)) in
  resp_code (fst (fst p)) = 200 /\ snd p = [PauseContainerCall cid] /\
  (forall r, In r (job_runs (snd (fst p))) -> r_id r = runID ->
     r_status r = RunStatusPaused /\ r_paused_at r = Some now) /\
  resp_code (fst (fst q)) = 200 /\ snd q = [UnpauseContainerCall cid] /\
  snd (fst q) = db /\
  PauseRun docker true user (Some runID) now db = (run_not_found, db, []) /\
  ResumeRun docker true user (Some runID) (snd (fst p))
  = (run_not_found, snd (fst p), []).
Proof.
  intros Hpk Hin Hid Hu Hst Hc Hpa Hpause Hunpause p q.
  assert (Herr : PauseRun docker true user (Some runID) now db
                 = (run_not_found, db, []) /\
                 ResumeRun docker true user (Some runID) (snd (fst p))
                 = (run_not_found, snd (fst p), [])).
  { split; reflexivity. }
  cut (resp_code (fst (fst p)) = 200 /\ snd p = [PauseContainerCall cid] /\
       (forall r, In r (job_runs (snd (fst p))) -> r_id r = runID ->
          r_status r = RunStatusPaused /\ r_paused_at r = Some now) /\
       resp_code (fst (fst q)) = 200 /\ snd q = [UnpauseContainerCall cid] /\
       snd (fst q) = db).
  { intros [A [B [C [D [E F]]]]]. destruct Herr as [G K].
    repeat (split; [assumption|]). assumption. }
  clear Herr.
  pose proof (query_row_owned (job_runs db) runID user row Hpk Hin Hid Hu)
    as Hq.
  assert (Hp : p = (mkResponse StatusOK
                      (JsonMap [("status", "paused");
                                ("message", "Container paused. Use resume to continue or kill to terminate.")]),
                    update_run runID (fun r =>
                      set_paused_at (Some now) (set_status RunStatusPaused r)) db,
                    [PauseContainerCall cid])).
  { subst p. unfold PauseRun. rewrite scan_run_answered, Hq, Hst, Hc, Hpause.
    reflexivity. }
  assert (Hq1 := query_row_updated runID user
            (fun r => set_paused_at (Some now) (set_status RunStatusPaused r))
            db row (fun _ => eq_refl) (fun _ => eq_refl) Hq).
  assert (Hqq : q = (mkResponse StatusOK
                       (JsonMap [("status", "running");
                                 ("message", "Container resumed from paused state.")]),
                     update_run runID (fun r =>
                       set_paused_at None (set_status RunStatusRunning r))
                       (update_run runID (fun r =>
                          set_paused_at (Some now)
                            (set_status RunStatusPaused r)) db),
                     [UnpauseContainerCall cid])).
  { subst q. rewrite Hp. cbn [fst snd]. unfold ResumeRun.
    rewrite scan_run_answered, Hq1.
    simpl. rewrite Hc, Hunpause. reflexivity. }
  rewrite Hqq, Hp. cbn [fst snd resp_code].
  split; [reflexivity|]. split; [reflexivity|]. split.
  { intros r Hr Hrid. apply update_run_row in Hr; try assumption;
      try reflexivity.
    destruct Hr as [r1 [_ [_ Hr]]]. subst r. simpl. auto. }
  split; [reflexivity|]. split; [reflexivity|].
  destruct db as [js rs qs]. unfold update_run, with_runs, update_where.
  simpl. f_equal. rewrite map_map.
  rewrite <- (map_id rs) at 2. apply map_ext_in. intros r Hr.
  destruct (has_id runID r) eqn:E.
  - apply has_id_true in E.
    assert (r = row).
    { apply (primary_key_unique rs); try assumption. congruence. }
    subst r.
    replace (has_id runID
               (set_paused_at (Some now) (set_status RunStatusPaused row)))
      with true
      by (symmetry; apply has_id_true; exact E).
    destruct row. simpl in *. subst. reflexivity.
  - rewrite E. reflexivity.
Qed.

Lemma pause_resume_round_trip_witness :
  let p := PauseRun (Sample.daemon 0) false "u1" (Some "r1") (15 * Second)
             Sample.running in
  let q := ResumeRun (Sample.daemon 0) false "u1" (Some "r1") (snd (fst p)) in
  resp_code (fst (fst p)) = 200 /\
  snd p = [PauseContainerCall "c0ffee00c0ffee"] /\
  (forall r, In r (job_runs (snd (fst p))) -> r_id r = "r1" ->
     r_status r = RunStatusPaused /\ r_paused_at r = Some (15 * Second)) /\
  resp_code (fst (fst q)) = 200 /\
  snd q = [UnpauseContainerCall "c0ffee00c0ffee"] /\
  snd (fst q) = Sample.running /\
  PauseRun (Sample.daemon 0) true "u1" (Some "r1") (15 * Second) Sample.running
  = (run_not_found, Sample.running, []) /\
  ResumeRun (Sample.daemon 0) true "u1" (Some "r1") (snd (fst p))
  = (run_not_found, snd (fst p), []).
Proof.
  apply (pause_resume_round_trip (Sample.daemon 0) "u1" "r1" (15 * Second)
           Sample.running Sample.running_run "c0ffee00c0ffee");
    try reflexivity.
  - unfold primary_key. simpl. constructor; [intros [] | constructor].
  - simpl. left. reflexivity.
Defined.

(* ------------------------------------------------------------------ *)
(** ** Reaper and heartbeat, continued *)

Lemma filter_none (A : Type) (p : A -> bool) (l : list A) :
  (forall x, In x l -> p x = false) -> filter p l = [].
Proof.
  intros H. apply length_zero_iff_nil. apply filter_length_zero. exact H.
Qed.

Lemma reaper_set_not_stale now now' r : is_stale now' (reaper_set now r) = false.
Proof. reflexivity. Qed.

(** X11. A reaper pass settles the store: afterwards no run is stale at
    the time of the pass, and a second pass at that time selects nothing,
    makes no runtime call and leaves the store unchanged. *)
Theorem reaper_pass_settles now db :
  primary_key db ->
  let db' := fst (reapStaleRuns false now [] db) in
  (forall r, In r (job_runs db') -> is_stale now r = false) /\
  reapStaleRuns false now [] db' = (db', []).
Proof.
  intros Hpk db'.
  assert (Hnone : forall r, In r (job_runs db') -> is_stale now r = false).
  { intros r Hr. subst db'. rewrite reapStaleRuns_runs in Hr by assumption.
    apply in_map_iff in Hr. destruct Hr as [r0 [Hr0 _]].
    destruct (is_stale now r0) eqn:E; subst r.
    - apply reaper_set_not_stale.
    - assumption. }
  split; [exact Hnone|].
  unfold reapStaleRuns at 1. unfold stale_runs, select_where.
  rewrite (filter_none _ _ _ Hnone). reflexivity.
Qed.

Lemma reaper_pass_settles_witness :
  let db' := fst (reapStaleRuns false (100 * Second) [] Sample.running) in
  (forall r, In r (job_runs db') -> is_stale (100 * Second) r = false) /\
  reapStaleRuns false (100 * Second) [] db' = (db', []).
Proof.
  apply (reaper_pass_settles (100 * Second) Sample.running).
  unfold primary_key. simpl. constructor; [intros [] | constructor].
Defined.

Lemma reap_fold_queue now srs db tr :
  job_queue (fst (fold_left (reap_one now no_writes) srs (db, tr)))
  = filter (fun q =>
      negb (existsb (fun sr => uuid_eqb (q_run_id q) (sr_ID sr)) srs))
      (job_queue db).
Proof.
  revert db tr. induction srs as [|sr srs IH]; intros db tr.
  - simpl. induction (job_queue db) as [|q l IHl]; simpl; congruence.
  - simpl fold_left. rewrite IH.
    unfold delete_queue_of_run, with_queue, delete_where. simpl job_queue.
    induction (job_queue db) as [|q l IHl]; simpl; [reflexivity|].
    destruct (uuid_eqb (q_run_id q) (sr_ID sr)) eqn:E; simpl.
    + exact IHl.
    + destruct (existsb _ srs); simpl; [exact IHl | rewrite IHl; reflexivity].
Qed.

Lemma reap_fold_calls now srs db tr :
  snd (fold_left (reap_one now no_writes) srs (db, tr))
  = tr ++ flat_map reaper_calls srs.
Proof.
  revert db tr. induction srs as [|sr srs IH]; intros db tr.
  - simpl. rewrite app_nil_r. reflexivity.
  - simpl fold_left. rewrite IH. simpl flat_map. rewrite <- app_assoc.
    reflexivity.
Qed.

Lemma reap_fold_jobs now srs st :
  jobs (fst (fold_left (reap_one now no_writes) srs st)) = jobs (fst st).
Proof.
  revert st. induction srs as [|sr srs IH]; intros [db tr]; simpl.
  - reflexivity.
  - rewrite IH. reflexivity.
Qed.

(** X12. A reaper pass cleans up after the runs it fails: it deletes
    exactly the queue rows that reference a stale run, it stops (grace 10)
    exactly the containers of stale runs that have a non-empty container
    id, and it never writes the jobs table. *)
Theorem reaper_cleans_up now db :
  let out := reapStaleRuns false now [] db in
  jobs (fst out) = jobs db /\
  (forall q, In q (job_queue (fst out)) <->
     In q (job_queue db) /\
     forall r, In r (job_runs db) -> r_id r = q_run_id q ->
               is_stale now r = false) /\
  (forall cid grace, In (StopContainerCall cid grace) (snd out) <->
     grace = 10 /\ cid <> EmptyString /\
     exists r, In r (job_runs db) /\ is_stale now r = true /\
               r_container_id r = Some cid).
Proof.
  intros out. subst out. unfold reapStaleRuns, stale_runs.
  rewrite reap_rows_alone. split; [|split].
  - apply reap_fold_jobs.
  - intros q. rewrite reap_fold_queue, filter_In, negb_true_iff. split.
    + intros [Hq Hex]. split; [assumption|]. intros r Hr Hid.
      destruct (is_stale now r) eqn:E; [|reflexivity]. exfalso.
      apply not_true_iff_false in Hex. apply Hex. apply existsb_exists.
      exists (mkStaleRun (r_id r) (r_container_id r)). split.
      * apply in_map_iff. exists r. split; [reflexivity|].
        unfold select_where. apply filter_In. auto.
      * simpl. rewrite Hid. apply uuid_eqb_refl.
    + intros [Hq Hall]. split; [assumption|].
      apply not_true_iff_false. intros Hex. apply existsb_exists in Hex.
      destruct Hex as [sr [Hsr Heq]]. apply in_map_iff in Hsr.
      destruct Hsr as [r [Hmk Hr]]. unfold select_where in Hr.
      apply filter_In in Hr. destruct Hr as [Hr Hs]. subst sr. simpl in Heq.
      apply uuid_eqb_eq in Heq. symmetry in Heq.
      rewrite (Hall r Hr Heq) in Hs. discriminate.
  - intros cid grace. rewrite reap_fold_calls. simpl. rewrite in_flat_map.
    split.
    + intros [sr [Hsr Hc]]. apply in_map_iff in Hsr.
      destruct Hsr as [r [Hmk Hr]]. unfold select_where in Hr.
      apply filter_In in Hr. destruct Hr as [Hr Hs]. subst sr.
      unfold reaper_calls in Hc. simpl in Hc.
      destruct (r_container_id r) as [c|] eqn:Ec; [|contradiction].
      destruct (String.eqb c EmptyString) eqn:Ee; [contradiction|].
      apply String.eqb_neq in Ee.
      destruct Hc as [Hc | [Hc | []]]; [|discriminate].
      injection Hc as <- <-. repeat split; try assumption.
      exists r. auto.
    + intros [Hg [Hne [r [Hr [Hs Hc]]]]]. subst grace.
      exists (mkStaleRun (r_id r) (r_container_id r)). split.
      * apply in_map_iff. exists r. split; [reflexivity|].
        unfold select_where. apply filter_In. auto.
      * unfold reaper_calls. simpl. rewrite Hc.
        apply String.eqb_neq in Hne. rewrite Hne. simpl. auto.
Qed.

(** X13. Heartbeats keep a run from the reaper.  After a tick at time t on
    a running or paused run, a reaper pass at `now` leaves the run alone
    when t is at most 60 seconds old, and fails it with the heartbeat
    timeout message when t is older. *)
Theorem heartbeat_defers_reaper runID t now db i r :
  primary_key db -> run_at i db = Some r -> r_id r = runID ->
  running_or_paused (r_status r) = true ->
  let beaten := set_heartbeat_at (Some t) r in
  let db' := fst (reapStaleRuns false now [] (heartbeat_tick runID t db)) in
  (now - 60 * Second <= t -> run_at i db' = Some beaten) /\
  (t < now - 60 * Second ->
     run_at i db' = Some (reaper_set now beaten) /\
     r_status (reaper_set now beaten) = RunStatusFailed).
Proof.
  intros Hpk Hat Hid Hrp beaten db'. subst db'.
  assert (Hpk' : primary_key (heartbeat_tick runID t db)).
  { unfold primary_key. rewrite heartbeat_tick_ids. exact Hpk. }
  rewrite reapStaleRuns_run_at by assumption.
  rewrite heartbeat_tick_run_at, Hat. cbn [option_map].
  replace (has_id runID r) with true by (symmetry; apply has_id_true; exact Hid).
  rewrite Hrp. cbn [andb]. fold beaten.
  assert (Hs : is_stale now beaten = (t <? now - 60 * Second)).
  { unfold is_stale, beaten, staleThreshold. cbn [r_status r_heartbeat_at
      set_heartbeat_at]. rewrite Hrp. reflexivity. }
  rewrite Hs. split.
  - intros H. apply Z.ltb_ge in H. rewrite H. reflexivity.
  - intros H. apply Z.ltb_lt in H. rewrite H. auto.
Qed.

Lemma heartbeat_defers_reaper_witness :
  let r := Sample.running_run in
  let beaten := set_heartbeat_at (Some (90 * Second)) r in
  let db' := fst (reapStaleRuns false (100 * Second) []
                    (heartbeat_tick "r1" (90 * Second) Sample.running)) in
  (100 * Second - 60 * Second <= 90 * Second -> run_at 0 db' = Some beaten) /\
  (90 * Second < 100 * Second - 60 * Second ->
     run_at 0 db' = Some (reaper_set (100 * Second) beaten) /\
     r_status (reaper_set (100 * Second) beaten) = RunStatusFailed).
Proof.
  apply (heartbeat_defers_reaper "r1" (90 * Second) (100 * Second)
           Sample.running 0 Sample.running_run); try reflexivity.
  unfold primary_key. simpl. constructor; [intros [] | constructor].
Defined.

Lemma emitHeartbeat_run_at runID ticks db i :
  run_at i (emitHeartbeat runID ticks db)
  = option_map (ticked runID ticks) (run_at i db).
Proof.
  unfold emitHeartbeat, ticked. revert db.
  induction ticks as [|t ticks IH]; intros db; cbn [fold_left].
  - destruct (run_at i db); reflexivity.
  - rewrite IH, heartbeat_tick_run_at. destruct (run_at i db); reflexivity.
Qed.

Lemma emitHeartbeat_tables runID ticks db :
  jobs (emitHeartbeat runID ticks db) = jobs db /\
  job_queue (emitHeartbeat runID ticks db) = job_queue db.
Proof.
  unfold emitHeartbeat. revert db.
  induction ticks as [|t ticks IH]; intros db; cbn [fold_left].
  - auto.
  - destruct (IH (heartbeat_tick runID t db)) as [A B]. rewrite A, B. auto.
Qed.

Lemma last_cons_default (A : Type) (l : list A) (a d d' : A) :
  last (a :: l) d = last (a :: l) d'.
Proof.
  revert a. induction l as [|b l IH]; intros a.
  - reflexivity.
  - change (last (b :: l) d = last (b :: l) d'). apply IH.
Qed.

Lemma ticked_spec runID ticks r :
  set_heartbeat_at None (ticked runID ticks r) = set_heartbeat_at None r /\
  (has_id runID r && running_or_paused (r_status r) = false ->
   ticked runID ticks r = r) /\
  (has_id runID r && running_or_paused (r_status r) = true ->
   r_heartbeat_at (ticked runID ticks r)
   = last (map Some ticks) (r_heartbeat_at r)).
Proof.
  unfold ticked. revert r. induction ticks as [|t ticks IH]; intros r.
  - simpl. auto.
  - cbn [fold_left]. destruct (has_id runID r && running_or_paused (r_status r))
      eqn:E.
    + destruct (IH (set_heartbeat_at (Some t) r)) as [A [B C]].
      split; [rewrite A; reflexivity|]. split; [discriminate|].
      intros _. rewrite C by exact E.
      destruct ticks as [|t0 ticks]; [reflexivity|].
      cbn [map]. change (last (Some t :: Some t0 :: map Some ticks)
                           (r_heartbeat_at r))
        with (last (Some t0 :: map Some ticks) (r_heartbeat_at r)).
      apply last_cons_default.
    + destruct (IH r) as [A [B C]]. split; [exact A|]. split; [|discriminate].
      intros _. apply B. exact E.
Qed.

(** X14. The heartbeat emitter writes nothing but heartbeat_at, and only
    on its own run while that run is running or paused: every other
    column of every row, every other row, the queue and the jobs stay as
    they are, and after its ticks the run carries the time of the last
    one. *)
Theorem emitHeartbeat_only_heartbeat runID ticks db i r :
  run_at i db = Some r ->
  let db' := emitHeartbeat runID ticks db in
  jobs db' = jobs db /\ job_queue db' = job_queue db /\
  exists r',
    run_at i db' = Some r' /\
    set_heartbeat_at None r' = set_heartbeat_at None r /\
    (r_id r <> runID \/ running_or_paused (r_status r) = false -> r' = r) /\
    (r_id r = runID -> running_or_paused (r_status r) = true ->
     r_heartbeat_at r' = last (map Some ticks) (r_heartbeat_at r)).
Proof.
  intros Hat db'. subst db'.
  destruct (emitHeartbeat_tables runID ticks db) as [A B].
  split; [exact A|]. split; [exact B|].
  exists (ticked runID ticks r). rewrite emitHeartbeat_run_at, Hat.
  destruct (ticked_spec runID ticks r) as [C [D E]].
  split; [reflexivity|]. split; [exact C|]. split.
  - intros [H | H]; apply D.
    + apply uuid_eqb_neq in H. unfold has_id. rewrite H. reflexivity.
    + rewrite H. apply andb_false_r.
  - intros H1 H2. apply E. apply has_id_true in H1. rewrite H1, H2.
    reflexivity.
Qed.

Lemma emitHeartbeat_only_heartbeat_witness :
  let r := Sample.running_run in
  let ticks := [21 * Second; 31 * Second] in
  let db' := emitHeartbeat "r1" ticks Sample.running in
  jobs db' = jobs Sample.running /\ job_queue db' = job_queue Sample.running /\
  exists r',
    run_at 0 db' = Some r' /\
    set_heartbeat_at None r' = set_heartbeat_at None r /\
    (r_id r <> "r1" \/ running_or_paused (r_status r) = false -> r' = r) /\
    (r_id r = "r1" -> running_or_paused (r_status r) = true ->
     r_heartbeat_at r' = last (map Some ticks) (r_heartbeat_at r)).
Proof.
  apply (emitHeartbeat_only_heartbeat "r1" [21 * Second; 31 * Second]
           Sample.running 0 Sample.running_run).
  reflexivity.
Defined.

(* ------------------------------------------------------------------ *)
(** ** Claims, continued *)

Lemma pollAndExecute_some errs locked now db db' job runID queueID :
  pollAndExecute errs locked now db = (db', Some (job, runID, queueID)) ->
  (exists q, In q (job_queue db) /\ q_picked_at q = None /\
             q_id q = queueID /\ q_run_id q = runID /\ j_id job = q_job_id q) /\
  db' = with_queue (update_where (fun r => uuid_eqb (q_id r) queueID)
                      (set_picked_at (Some now))) db.
Proof.
  unfold pollAndExecute. intros H.
  destruct (begin_err errs); [discriminate|].
  destruct (query_err errs); [discriminate|].
  destruct (first_row _) as [q|] eqn:Efirst; [|discriminate].
  destruct (join_job db q) as [j|]; [|discriminate].
  destruct (update_err errs); [discriminate|].
  destruct (commit_err errs); [discriminate|].
  injection H as <- <- <- <-. split; [|reflexivity].
  apply first_row_some in Efirst. destruct Efirst as [Hq _].
  unfold select_where in Hq. apply filter_In in Hq. destruct Hq as [Hq Hc].
  apply claimable_spec in Hc. destruct Hc as [Hc _].
  exists q. auto.
Qed.

Lemma pollAndExecute_none errs locked now db db' :
  pollAndExecute errs locked now db = (db', None) -> db' = db.
Proof.
  unfold pollAndExecute. intros H.
  destruct (begin_err errs); [injection H as <-; reflexivity|].
  destruct (query_err errs); [injection H as <-; reflexivity|].
  destruct (first_row _) as [q|]; [|injection H as <-; reflexivity].
  destruct (join_job db q) as [j|]; [|injection H as <-; reflexivity].
  destruct (update_err errs); [injection H as <-; reflexivity|].
  destruct (commit_err errs); [injection H as <-; reflexivity|].
  discriminate.
Qed.

Lemma pollAndExecute_keeps_picked errs locked now db ids :
  all_picked ids db ->
  all_picked ids (fst (pollAndExecute errs locked now db)).
Proof.
  intros Hall. destruct (pollAndExecute errs locked now db) as [db' [c|]] eqn:E.
  - destruct c as [[job runID] queueID].
    apply pollAndExecute_some in E. destruct E as [_ ->]. simpl.
    intros q Hq Hid. simpl in Hq. apply update_where_In in Hq.
    destruct Hq as [q0 [Hq0 ->]].
    destruct (uuid_eqb (q_id q0) queueID); [discriminate|].
    apply Hall; assumption.
  - apply pollAndExecute_none in E. subst db'. exact Hall.
Qed.

Lemma poll_all_invariant polls : forall db claims,
  all_picked (map snd claims) db -> NoDup (map snd claims) ->
  let out :=
    fold_left (fun st p =>
      match pollAndExecute (fst (fst p)) (snd (fst p)) (snd p) (fst st) with
      | (db', Some claim) => (db', claim :: snd st)
      | (db', None) => (db', snd st)
      end) polls (db, claims) in
  all_picked (map snd (snd out)) (fst out) /\ NoDup (map snd (snd out)).
Proof.
  induction polls as [|p polls IH]; intros db claims Hall Hnd.
  - simpl. auto.
  - cbn [fold_left fst snd].
    destruct (pollAndExecute (fst (fst p)) (snd (fst p)) (snd p) db)
      as [db' [c|]] eqn:E.
    + apply IH.
      * destruct c as [[job runID] queueID].
        pose proof (pollAndExecute_keeps_picked (fst (fst p)) (snd (fst p))
                      (snd p) db (map snd claims) Hall) as Hkeep.
        rewrite E in Hkeep. simpl in Hkeep.
        apply pollAndExecute_some in E. destruct E as [_ Hdb'].
        intros q Hq Hid. simpl in Hid. destruct Hid as [Hid | Hid].
        -- subst db'. simpl in Hq. apply update_where_In in Hq.
           destruct Hq as [q0 [Hq0 ->]].
           destruct (uuid_eqb (q_id q0) queueID) eqn:Eq; [discriminate|].
           apply uuid_eqb_neq in Eq. simpl in Hid. congruence.
        -- apply Hkeep; assumption.
      * destruct c as [[job runID] queueID]. simpl. constructor; [|exact Hnd].
        intros Hin. apply pollAndExecute_some in E.
        destruct E as [[q [Hq [Hnone [Hid _]]]] _].
        apply (Hall q Hq); [rewrite Hid; exact Hin | exact Hnone].
    + apply pollAndExecute_none in E. subst db'. apply IH; assumption.
Qed.

(** X15. No queue row is claimed twice.  However many polls run one
    after the other, with whatever store errors, locks and times, the
    queue ids they claim are pairwise distinct, and every claimed row is
    marked picked. *)
Theorem no_double_claim polls db :
  let out := poll_all polls db in
  NoDup (map snd (snd out)) /\
  (forall q, In q (job_queue (fst out)) -> In (q_id q) (map snd (snd out)) ->
             q_picked_at q <> None).
Proof.
  intros out. subst out. unfold poll_all.
  destruct (poll_all_invariant polls db []) as [A B].
  - intros q _ [].
  - constructor.
  - split; [exact B | exact A].
Qed.

Lemma TriggerRun_accepted errs user jobID now runID queueID db run db1 :
  TriggerRun errs user jobID now runID queueID db = ((202, inr run), db1) ->
  exists job,
    jobID = Some (j_id job) /\ In job (jobs db) /\ j_user_id job = user /\
    j_is_active job = true /\
    run = pending_run runID (j_id job) user now /\
    db1 = with_queue (fun t => t ++ [queue_row queueID (j_id job) runID now])
            (with_runs (fun t => t ++ [run]) db).
Proof.
  unfold TriggerRun. intros H.
  destruct jobID as [id|]; [|discriminate].
  destruct (fetch_job_err errs); [discriminate|].
  destruct (query_row (active_owned_job id user) (jobs db)) as [job|] eqn:Hq;
    [|discriminate].
  destruct (create_run_err errs); [discriminate|].
  destruct (enqueue_err errs); [discriminate|].
  injection H as <- <-. unfold query_row in Hq. apply find_some in Hq.
  destruct Hq as [Hin Hp]. unfold active_owned_job in Hp.
  apply andb_true_iff in Hp. destruct Hp as [Hp Ha].
  apply andb_true_iff in Hp. destruct Hp as [Hi Hu].
  apply uuid_eqb_eq in Hi. apply uuid_eqb_eq in Hu.
  exists job. subst id. auto 10.
Qed.

(** X16. A triggered run reaches the worker.  When the trigger answers
    202 and the queue held no unpicked row, the next poll at or after the
    trigger time, with a sound store and nothing locked, claims exactly
    the new run: it returns the new run id and queue id with the job's
    definition and marks the new queue row picked. *)
Theorem triggered_run_is_claimed errs user jobID now runID queueID db run db1
    now' :
  TriggerRun errs user (Some jobID) now runID queueID db = ((202, inr run), db1) ->
  (forall q, In q (job_queue db) -> q_picked_at q <> None) ->
  now <= now' ->
  r_id run = runID /\ r_status run = RunStatusPending /\ In run (job_runs db1) /\
  exists job j,
    pollAndExecute no_errors [] now' db1
    = (with_queue (update_where (fun r => uuid_eqb (q_id r) queueID)
                     (set_picked_at (Some now'))) db1,
       Some (job, runID, queueID)) /\
    In j (jobs db) /\ j_id j = jobID /\
    (j_id job, j_name job, j_image job, j_command job, j_env job,
     j_memory_mb job, j_cpu_millicores job, j_timeout_seconds job)
    = (j_id j, j_name j, j_image j, j_command j, j_env j,
       j_memory_mb j, j_cpu_millicores j, j_timeout_seconds j).
Proof.
  intros H Hpicked Hle. apply TriggerRun_accepted in H.
  destruct H as [job0 [Hid [Hin0 [Hu [Hact [Hrun Hdb1]]]]]].
  injection Hid as Hid. subst run.
  split; [reflexivity|]. split; [reflexivity|]. split.
  { subst db1. simpl. apply in_or_app. right. simpl. auto. }
  assert (Hsel : select_where (claimable [] now' db1) (job_queue db1)
                 = [queue_row queueID (j_id job0) runID now]).
  { subst db1. unfold select_where. simpl job_queue. rewrite filter_app.
    rewrite (filter_none _ _ (job_queue db)).
    - simpl. unfold claimable. simpl.
      replace (now <=? now') with true by (symmetry; apply Z.leb_le; exact Hle).
      assert (Hex : existsb (fun j => uuid_eqb (j_id j) (j_id job0)) (jobs db)
                    = true).
      { apply existsb_exists. exists job0. split; [assumption|].
        apply uuid_eqb_refl. }
      rewrite Hex. reflexivity.
    - intros q Hq. unfold claimable.
      specialize (Hpicked q Hq). destruct (q_picked_at q); [reflexivity|].
      congruence. }
  unfold pollAndExecute. simpl begin_err. simpl query_err. simpl update_err.
  simpl commit_err. cbv iota. rewrite Hsel. cbn [first_row].
  unfold join_job. cbn [q_job_id queue_row].
  destruct (find (fun j => uuid_eqb (j_id j) (j_id job0)) (jobs db1))
    as [j|] eqn:Ej.
  - apply find_some in Ej. destruct Ej as [Hj Hjid]. apply uuid_eqb_eq in Hjid.
    eexists. exists j. split; [reflexivity|].
    split; [subst db1; exact Hj|]. split; [congruence|].
    simpl. rewrite Hjid. reflexivity.
  - exfalso. assert (Hj0 : In job0 (jobs db1)) by (subst db1; exact Hin0).
    pose proof (find_none _ _ Ej job0 Hj0) as Hn. simpl in Hn.
    rewrite uuid_eqb_refl in Hn. discriminate.
Qed.

(** X17. Outcomes of a trigger.  It answers 202 only for an active job
    owned by the caller, and then has appended one pending run and one
    unpicked queue row that references it; an inactive, foreign or unknown
    job gets 404 with the store untouched; in no other case is a queue row
    created, and the jobs table is never written. *)
Theorem TriggerRun_outcomes errs user jobID now runID queueID db :
  let out := TriggerRun errs user jobID now runID queueID db in
  (fst (fst out) = 202 ->
     exists job,
       jobID = Some (j_id job) /\ In job (jobs db) /\ j_user_id job = user /\
       j_is_active job = true /\
       snd (fst out) = inr (pending_run runID (j_id job) user now) /\
       job_runs (snd out)
       = job_runs db ++ [pending_run runID (j_id job) user now] /\
       job_queue (snd out)
       = job_queue db ++ [queue_row queueID (j_id job) runID now]) /\
  ((forall j, In j (jobs db) -> Some (j_id j) = jobID -> j_user_id j = user ->
              j_is_active j = false) ->
     (fst (fst out) = 404 \/ fst (fst out) = 400) /\ snd out = db) /\
  (fst (fst out) <> 202 -> job_queue (snd out) = job_queue db) /\
  jobs (snd out) = jobs db.
Proof.
  intros out. subst out. unfold TriggerRun.
  destruct jobID as [id|].
  2:{ simpl. repeat split; auto; discriminate. }
  destruct (fetch_job_err errs).
  { simpl. repeat split; auto; discriminate. }
  destruct (query_row (active_owned_job id user) (jobs db)) as [job|] eqn:Hq.
  2:{ simpl. repeat split; auto; discriminate. }
  unfold query_row in Hq. apply find_some in Hq. destruct Hq as [Hin Hp].
  unfold active_owned_job in Hp. apply andb_true_iff in Hp.
  destruct Hp as [Hp Ha]. apply andb_true_iff in Hp. destruct Hp as [Hi Hu].
  apply uuid_eqb_eq in Hi. apply uuid_eqb_eq in Hu.
  assert (Hno : (forall j, In j (jobs db) -> Some (j_id j) = Some id ->
                           j_user_id j = user -> j_is_active j = false) ->
                False).
  { intros H. specialize (H job Hin (f_equal Some Hi) Hu). congruence. }
  destruct (create_run_err errs).
  { simpl. split; [intros H; discriminate H|].
    split; [intros H; destruct (Hno H)|].
    split; [intros _; reflexivity | reflexivity]. }
  destruct (enqueue_err errs).
  { simpl. split; [intros H; discriminate H|].
    split; [intros H; destruct (Hno H)|].
    split; [intros _; reflexivity | reflexivity]. }
  simpl. split; [|split; [|split]].
  - intros _. exists job. subst id. auto 10.
  - intros H. destruct (Hno H).
  - intros H. exfalso. apply H. reflexivity.
  - reflexivity.
Qed.

Lemma triggered_run_is_claimed_witness :
  let db := mkDB [Sample.job] [] [] in
  let errs := mkTriggerErrors false false false in
  let run := pending_run "r9" "j1" "u1" 5 in
  let db1 := snd (TriggerRun errs "u1" (Some "j1") 5 "r9" "q9" db) in
  r_id run = "r9" /\ r_status run = RunStatusPending /\ In run (job_runs db1) /\
  exists job j,
    pollAndExecute no_errors [] 7 db1
    = (with_queue (update_where (fun r => uuid_eqb (q_id r) "q9")
                     (set_picked_at (Some 7))) db1,
       Some (job, "r9", "q9")) /\
    In j (jobs db) /\ j_id j = "j1" /\
    (j_id job, j_name job, j_image job, j_command job, j_env job,
     j_memory_mb job, j_cpu_millicores job, j_timeout_seconds job)
    = (j_id j, j_name j, j_image j, j_command j, j_env j,
       j_memory_mb j, j_cpu_millicores j, j_timeout_seconds j).
Proof.
  apply (triggered_run_is_claimed (mkTriggerErrors false false false) "u1" "j1"
           5 "r9" "q9" (mkDB [Sample.job] [] [])
           (pending_run "r9" "j1" "u1" 5)
           (snd (TriggerRun (mkTriggerErrors false false false) "u1" (Some "j1")
                   5 "r9" "q9" (mkDB [Sample.job] [] [])))
           7).
  - reflexivity.
  - intros q [].
  - lia.
Defined.

(* ------------------------------------------------------------------ *)
(** ** The poll loop *)







(* ------------------------------------------------------------------ *)
(** ** The scheduler, continued *)

Section SchedulerAppends.
Variable Schedule : Type.
Variable Parse : string -> option Schedule.
Variable Next : Schedule -> Time -> Time.

Lemma enqueueScheduledRun_appends errs now rid qid jid uid db :
  let db' := enqueueScheduledRun errs now rid qid jid uid db in
  jobs db' = jobs db /\
  exists nr nq,
    job_runs db' = job_runs db ++ nr /\ job_queue db' = job_queue db ++ nq /\
    (forall r, In r nr -> r = pending_run rid jid uid now) /\
    (forall q, In q nq ->
       q = queue_row qid jid rid now /\ In (pending_run rid jid uid now) nr).
Proof.
  unfold enqueueScheduledRun.
  destruct (insert_run_err errs).
  { split; [reflexivity|]. exists [], []. rewrite !app_nil_r.
    split; [reflexivity|]. split; [reflexivity|]. split; intros x []. }
  destruct (insert_queue_err errs); simpl.
  - split; [reflexivity|]. exists [pending_run rid jid uid now], [].
    rewrite app_nil_r. split; [reflexivity|]. split; [reflexivity|]. split.
    + intros r [H | []]. symmetry. exact H.
    + intros q [].
  - split; [reflexivity|].
    exists [pending_run rid jid uid now], [queue_row qid jid rid now].
    split; [reflexivity|]. split; [reflexivity|]. split.
    + intros r [H | []]. symmetry. exact H.
    + intros q [H | []]. split; [symmetry; exact H | simpl; auto].
Qed.

Lemma schedule_jobs_appends errs now uuid rows : forall n db,
  let db' := schedule_jobs Parse Next errs now uuid n rows db in
  jobs db' = jobs db /\
  exists nr nq,
    job_runs db' = job_runs db ++ nr /\ job_queue db' = job_queue db ++ nq /\
    (forall r, In r nr ->
       r_status r = RunStatusPending /\ r_created_at r = now /\
       exists j, In j rows /\ r_job_id r = j_id j /\ r_user_id r = j_user_id j) /\
    (forall q, In q nq ->
       q_picked_at q = None /\ q_priority q = 0 /\ q_scheduled_at q = now /\
       exists r, In r nr /\ q_run_id q = r_id r /\ q_job_id q = r_job_id r).
Proof.
  induction rows as [|j rest IH]; intros n db; cbn [schedule_jobs].
  - split; [reflexivity|]. exists [], []. rewrite !app_nil_r.
    split; [reflexivity|]. split; [reflexivity|]. split; intros x [].
  - assert (Hskip : forall m,
      let db' := schedule_jobs Parse Next errs now uuid m rest db in
      jobs db' = jobs db /\
      exists nr nq,
        job_runs db' = job_runs db ++ nr /\
        job_queue db' = job_queue db ++ nq /\
        (forall r, In r nr ->
           r_status r = RunStatusPending /\ r_created_at r = now /\
           exists j0, In j0 (j :: rest) /\ r_job_id r = j_id j0 /\
                      r_user_id r = j_user_id j0) /\
        (forall q, In q nq ->
           q_picked_at q = None /\ q_priority q = 0 /\ q_scheduled_at q = now /\
           exists r, In r nr /\ q_run_id q = r_id r /\ q_job_id q = r_job_id r)).
    { intros m. destruct (IH m db) as [A [nr [nq [B [C [D E]]]]]].
      split; [exact A|]. exists nr, nq.
      split; [exact B|]. split; [exact C|]. split; [|exact E].
      intros r Hr. destruct (D r Hr) as [S1 [S2 [j0 [Hj0 Hrest]]]].
      split; [exact S1|]. split; [exact S2|]. exists j0.
      split; [right; exact Hj0 | exact Hrest]. }
    destruct (j_schedule j) as [schedule|]; [|apply Hskip].
    destruct (shouldEnqueue Parse Next (errs (j_id j)) now (j_id j) schedule db);
      [|apply Hskip].
    destruct (enqueueScheduledRun_appends (errs (j_id j)) now (uuid n)
                (uuid (S n)) (j_id j) (j_user_id j) db)
      as [A1 [nr1 [nq1 [B1 [C1 [D1 E1]]]]]].
    destruct (IH (S (S n))
                (enqueueScheduledRun (errs (j_id j)) now (uuid n) (uuid (S n))
                   (j_id j) (j_user_id j) db))
      as [A2 [nr2 [nq2 [B2 [C2 [D2 E2]]]]]].
    split; [rewrite A2; exact A1|].
    exists (nr1 ++ nr2), (nq1 ++ nq2).
    split; [rewrite B2, B1, app_assoc; reflexivity|].
    split; [rewrite C2, C1, app_assoc; reflexivity|]. split.
    + intros r Hr. apply in_app_or in Hr. destruct Hr as [Hr | Hr].
      * rewrite (D1 r Hr). split; [reflexivity|]. split; [reflexivity|].
        exists j. simpl. auto.
      * destruct (D2 r Hr) as [S1 [S2 [j0 [Hj0 Hrest]]]].
        split; [exact S1|]. split; [exact S2|]. exists j0.
        split; [right; exact Hj0 | exact Hrest].
    + intros q Hq. apply in_app_or in Hq. destruct Hq as [Hq | Hq].
      * destruct (E1 q Hq) as [-> Hin].
        split; [reflexivity|]. split; [reflexivity|]. split; [reflexivity|].
        exists (pending_run (uuid n) (j_id j) (j_user_id j) now).
        split; [apply in_or_app; left; exact Hin|]. simpl. auto.
      * destruct (E2 q Hq) as [S1 [S2 [S3 [r [Hr Hrest]]]]].
        split; [exact S1|]. split; [exact S2|]. split; [exact S3|]. exists r.
        split; [apply in_or_app; right; exact Hr | exact Hrest].
Qed.

(** X19. A scheduler pass only appends.  It never writes the jobs table
    and never changes or removes an existing run or queue row; every run
    it adds is pending, created now, for an active job that has a
    schedule, under that job's owner; and every queue row it adds is
    unpicked, of priority 0, due now, and references a run added by the
    same pass. *)
Theorem scheduler_only_appends jobs_query_err errs now uuid db :
  let db' := checkScheduledJobs Parse Next jobs_query_err errs now uuid db in
  jobs db' = jobs db /\
  exists new_runs new_queue,
    job_runs db' = job_runs db ++ new_runs /\
    job_queue db' = job_queue db ++ new_queue /\
    (forall r, In r new_runs ->
       r_status r = RunStatusPending /\ r_created_at r = now /\
       exists j, In j (jobs db) /\ j_is_active j = true /\
                 j_schedule j <> None /\
                 r_job_id r = j_id j /\ r_user_id r = j_user_id j) /\
    (forall q, In q new_queue ->
       q_picked_at q = None /\ q_priority q = 0 /\ q_scheduled_at q = now /\
       exists r, In r new_runs /\ q_run_id q = r_id r /\
                 q_job_id q = r_job_id r).
Proof.
  unfold checkScheduledJobs. destruct jobs_query_err.
  { split; [reflexivity|]. exists [], []. rewrite !app_nil_r.
    split; [reflexivity|]. split; [reflexivity|]. split; intros x []. }
  destruct (schedule_jobs_appends errs now uuid
              (select_where (fun j => negb (is_null (j_schedule j)) &&
                                      j_is_active j) (jobs db)) O db)
    as [A [nr [nq [B [C [D E]]]]]].
  split; [exact A|]. exists nr, nq.
  split; [exact B|]. split; [exact C|]. split; [|exact E].
  intros r Hr. destruct (D r Hr) as [S1 [S2 [j [Hj [Hjid Hu]]]]].
  split; [exact S1|]. split; [exact S2|]. exists j.
  unfold select_where in Hj. apply filter_In in Hj. destruct Hj as [Hj Hp].
  apply andb_true_iff in Hp. destruct Hp as [Hs Ha].
  repeat split; try assumption.
  intros Hnone. rewrite Hnone in Hs. discriminate.
Qed.
End SchedulerAppends.

(* ------------------------------------------------------------------ *)
(** ** Migrations *)

Lemma leb_trans a b c :
  String.leb a b = true -> String.leb b c = true -> String.leb a c = true.
Proof.
  unfold String.leb. intros Hab Hbc.
  destruct (String.compare a b) eqn:Eab; try discriminate;
    destruct (String.compare b c) eqn:Ebc; try discriminate.
  - apply String.compare_eq_iff in Eab. subst b. rewrite Ebc. reflexivity.
  - apply String.compare_eq_iff in Eab. subst b. rewrite Ebc. reflexivity.
  - apply String.compare_eq_iff in Ebc. subst c. rewrite Eab. reflexivity.
  - assert (H : String.compare a c = Lt).
    { apply OrderedTypeEx.String_as_OT.cmp_lt.
      apply (OrderedTypeEx.String_as_OT.lt_trans a b c);
        apply OrderedTypeEx.String_as_OT.cmp_lt; assumption. }
    rewrite H. reflexivity.
Qed.

Lemma insert_In s l x : In x (Database.insert s l) <-> x = s \/ In x l.
Proof.
  induction l as [|y l IH]; simpl.
  - split; [intros [H | []]; auto | intros [H | []]; auto].
  - destruct (String.leb s y); simpl.
    + split; [intros [H | H]; auto | intros [H | H]; auto].
    + rewrite IH. tauto.
Qed.

Lemma insert_ascending s l : ascending l -> ascending (Database.insert s l).
Proof.
  unfold ascending. induction l as [|y l IH]; intros Hs; simpl.
  - constructor; constructor.
  - destruct (String.leb s y) eqn:E.
    + constructor; [exact Hs|]. constructor; [exact E|].
      inversion Hs as [|? ? _ Hall]; subst.
      eapply Forall_impl; [|exact Hall]. intros z Hz. simpl in Hz.
      apply (leb_trans s y z); assumption.
    + inversion Hs as [|? ? Hs' Hall]; subst.
      constructor; [apply IH; exact Hs'|].
      apply Forall_forall. intros z Hz. apply insert_In in Hz.
      destruct Hz as [-> | Hz].
      * destruct (String.leb_total s y) as [H | H]; [congruence | exact H].
      * rewrite Forall_forall in Hall. apply Hall. exact Hz.
Qed.

Lemma sort_Strings_ascending l : ascending (Database.sort_Strings l).
Proof.
  unfold Database.sort_Strings. induction l as [|x l IH]; simpl.
  - constructor.
  - apply insert_ascending. exact IH.
Qed.

Lemma sort_Strings_In l x : In x (Database.sort_Strings l) <-> In x l.
Proof.
  unfold Database.sort_Strings. induction l as [|y l IH]; simpl.
  - reflexivity.
  - rewrite insert_In, IH. split; intros [H | H]; auto.
Qed.

Lemma recorded_iff f l : existsb (String.eqb f) l = true <-> In f l.
Proof.
  rewrite existsb_exists. split.
  - intros [x [Hx He]]. apply String.eqb_eq in He. subst x. exact Hx.
  - intros H. exists f. split; [exact H | apply String.eqb_refl].
Qed.

(** What the loop did, whether or not it ended with an error. *)
Lemma apply_each_spec env dir files : forall st res st',
  Database.apply_each env dir files st = (res, st') ->
  exists applied contents,
    Database.schema_migrations st' = Database.schema_migrations st ++ applied /\
    Database.executed st' = Database.executed st ++ contents /\
    Forall2 (fun f c => Database.ReadFile env dir f = inl c /\
                        Database.exec_err env f = None) applied contents /\
    (forall f, In f applied ->
       In f files /\ ~ In f (Database.schema_migrations st)) /\
    (ascending files -> ascending applied) /\
    (NoDup (Database.schema_migrations st) ->
     NoDup (Database.schema_migrations st')) /\
    (res = None ->
     forall f, In f files ->
       In f (Database.schema_migrations st') /\ Database.check_err env f = None).
Proof.
  induction files as [|f rest IH]; intros st res st' H; cbn [Database.apply_each] in H.
  - injection H as <- <-. exists [], []. rewrite !app_nil_r.
    split; [reflexivity|]. split; [reflexivity|]. split; [constructor|].
    split; [intros x []|]. split; [intros _; constructor|].
    split; [auto|]. intros _ x [].
  - assert (Hstop : (res, st') = (res, st) -> st' = st ->
      res <> None ->
      exists applied contents,
        Database.schema_migrations st' = Database.schema_migrations st ++ applied /\
        Database.executed st' = Database.executed st ++ contents /\
        Forall2 (fun f c => Database.ReadFile env dir f = inl c /\
                            Database.exec_err env f = None) applied contents /\
        (forall f0, In f0 applied ->
           In f0 (f :: rest) /\ ~ In f0 (Database.schema_migrations st)) /\
        (ascending (f :: rest) -> ascending applied) /\
        (NoDup (Database.schema_migrations st) ->
         NoDup (Database.schema_migrations st')) /\
        (res = None ->
         forall f0, In f0 (f :: rest) ->
           In f0 (Database.schema_migrations st') /\
           Database.check_err env f0 = None)).
    { intros _ -> Hres. exists [], []. rewrite !app_nil_r.
      split; [reflexivity|]. split; [reflexivity|]. split; [constructor|].
      split; [intros x []|]. split; [intros _; constructor|].
      split; [auto|]. intros Hn. contradiction. }
    destruct (Database.check_err env f) as [e|] eqn:Echeck.
    { injection H as <- <-. apply Hstop; [reflexivity | reflexivity | discriminate]. }
    destruct (existsb (String.eqb f) (Database.schema_migrations st)) eqn:Erec.
    { apply recorded_iff in Erec.
      destruct (IH st res st' H) as [ap [cs [A [B [C [D [E [F G]]]]]]]].
      exists ap, cs. split; [exact A|]. split; [exact B|]. split; [exact C|].
      split; [intros x Hx; destruct (D x Hx); split; [right|]; assumption|].
      split.
      { intros Hasc. apply E. unfold ascending in *.
        inversion Hasc; assumption. }
      split; [exact F|]. intros Hres x [Hx | Hx].
      - subst x. split; [rewrite A; apply in_or_app; left; exact Erec
                        | exact Echeck].
      - apply G; assumption. }
    destruct (Database.ReadFile env dir f) as [content|e] eqn:Eread.
    2:{ injection H as <- <-. apply Hstop; [reflexivity | reflexivity | discriminate]. }
    destruct (Database.begin_err env f) as [e|].
    { injection H as <- <-. apply Hstop; [reflexivity | reflexivity | discriminate]. }
    destruct (Database.exec_err env f) as [e|] eqn:Eexec.
    { injection H as <- <-. apply Hstop; [reflexivity | reflexivity | discriminate]. }
    destruct (Database.record_err env f) as [e|].
    { injection H as <- <-. apply Hstop; [reflexivity | reflexivity | discriminate]. }
    destruct (Database.commit_err env f) as [e|].
    { injection H as <- <-. apply Hstop; [reflexivity | reflexivity | discriminate]. }
    assert (Hnew : ~ In f (Database.schema_migrations st)).
    { intros Hin. apply recorded_iff in Hin. congruence. }
    destruct (IH _ res st' H) as [ap [cs [A [B [C [D [E [F G]]]]]]]].
    cbn [Database.schema_migrations Database.executed] in A, B, D, F.
    exists (f :: ap), (content :: cs).
    split; [rewrite A, <- app_assoc; reflexivity|].
    split; [rewrite B, <- app_assoc; reflexivity|].
    split; [constructor; [split; assumption | exact C]|].
    split.
    { intros x [Hx | Hx].
      - subst x. split; [left; reflexivity | exact Hnew].
      - destruct (D x Hx) as [D1 D2]. split; [right; exact D1|].
        intros Hin. apply D2. apply in_or_app. left. exact Hin. }
    split.
    { intros Hasc. unfold ascending in *.
      inversion Hasc as [|? ? Hrest Hall]; subst.
      constructor; [apply E; exact Hrest|].
      apply Forall_forall. intros x Hx. rewrite Forall_forall in Hall.
      apply Hall. apply (D x Hx). }
    split.
    { intros Hnd. apply F. apply NoDup_app. repeat split.
      - exact Hnd.
      - constructor; [intros [] | constructor].
      - intros x Hx [Hf | []]. subst x. contradiction. }
    intros Hres x [Hx | Hx].
    + subst x. split; [|exact Echeck]. rewrite A. apply in_or_app. left.
      apply in_or_app. right. simpl. auto.
    + apply G; assumption.
Qed.

Lemma apply_each_recorded env dir files : forall st,
  (forall f, In f files ->
     In f (Database.schema_migrations st) /\ Database.check_err env f = None) ->
  Database.apply_each env dir files st = (None, st).
Proof.
  induction files as [|f rest IH]; intros st H; cbn [Database.apply_each].
  - reflexivity.
  - destruct (H f (or_introl eq_refl)) as [Hin Hc]. rewrite Hc.
    apply recorded_iff in Hin. rewrite Hin. apply IH.
    intros x Hx. apply H. right. exact Hx.
Qed.

Lemma migration_files_In entries f :
  In f (Database.migration_files entries) <->
  exists e, In e entries /\ Database.Name e = f /\
            Database.IsDir e = false /\ Database.HasSuffix f ".sql" = true.
Proof.
  unfold Database.migration_files. rewrite sort_Strings_In, in_map_iff. split.
  - intros [e [Hn He]]. apply filter_In in He. destruct He as [He Hb].
    apply andb_true_iff in Hb. destruct Hb as [Hd Hs].
    apply negb_true_iff in Hd. subst f. exists e. repeat split; assumption.
  - intros [e [He [Hn [Hd Hs]]]]. exists e. split; [exact Hn|].
    apply filter_In. split; [exact He|]. subst f. rewrite Hd, Hs. reflexivity.
Qed.

(** X20. A migration run that returns nil leaves the schema in a state
    that a second run over the same directory does not change: the second
    run also returns nil, executes nothing and records nothing. *)
Theorem Migrate_idempotent env dir st st' :
  Database.Migrate env dir st = (None, st') ->
  Database.Migrate env dir st' = (None, st').
Proof.
  unfold Database.Migrate. intros H.
  destruct (Database.create_table_err env); [discriminate|].
  destruct (Database.ReadDir env dir) as [entries|e]; [|discriminate].
  destruct (apply_each_spec _ _ _ _ _ _ H) as [ap [cs [_ [_ [_ [_ [_ [_ G]]]]]]]].
  apply apply_each_recorded. exact (G eq_refl).
Qed.

Lemma Migrate_idempotent_witness :
  Database.Migrate Fixture.disk "migrations" Fixture.migrated
  = (None, Fixture.migrated).
Proof.
  apply (Migrate_idempotent Fixture.disk "migrations" Fixture.fresh).
  vm_compute. reflexivity.
Defined.

(** A script that fails stops the run: the earlier file stays applied and
    recorded, the failing one and the later ones are neither. *)
Example Migrate_stops_at_failing_script :
  Database.Migrate Fixture.disk_broken "migrations" Fixture.fresh
  = (Some "executing migration 002_runs.sql: syntax error",
     Database.mkSchema ["001_users.sql"] ["-- migrations/001_users.sql"]).
Proof. vm_compute. reflexivity. Qed.

(** X21. Whatever [Migrate] returns, what it did to the schema is to
    execute and record, one for one and in ascending filename order, some
    regular [.sql] files of the directory that were not recorded before;
    recorded filenames stay unique; a script is recorded only together
    with its execution, also when a later file fails; and when the run
    returns nil every offered file is recorded afterwards. *)
Theorem Migrate_applies_new_files_in_order env dir st :
  exists applied contents,
    Database.schema_migrations (snd (Database.Migrate env dir st))
      = Database.schema_migrations st ++ applied /\
    Database.executed (snd (Database.Migrate env dir st))
      = Database.executed st ++ contents /\
    Forall2 (fun f c => Database.ReadFile env dir f = inl c /\
                        Database.exec_err env f = None) applied contents /\
    (forall f, In f applied ->
       offered env dir f /\ ~ In f (Database.schema_migrations st)) /\
    ascending applied /\
    (NoDup (Database.schema_migrations st) ->
     NoDup (Database.schema_migrations (snd (Database.Migrate env dir st)))) /\
    (fst (Database.Migrate env dir st) = None ->
     forall f, offered env dir f ->
       In f (Database.schema_migrations (snd (Database.Migrate env dir st)))).
Proof.
  unfold Database.Migrate.
  assert (Hnone : forall e : error,
    exists applied contents,
      Database.schema_migrations (snd (Some e, st))
        = Database.schema_migrations st ++ applied /\
      Database.executed (snd (Some e, st))
        = Database.executed st ++ contents /\
      Forall2 (fun f c => Database.ReadFile env dir f = inl c /\
                          Database.exec_err env f = None) applied contents /\
      (forall f, In f applied ->
         offered env dir f /\ ~ In f (Database.schema_migrations st)) /\
      ascending applied /\
      (NoDup (Database.schema_migrations st) ->
       NoDup (Database.schema_migrations (snd (Some e, st)))) /\
      (fst (Some e, st) = None ->
       forall f, offered env dir f ->
         In f (Database.schema_migrations (snd (Some e, st))))).
  { intros e. exists [], []. cbn [fst snd]. rewrite !app_nil_r.
    split; [reflexivity|]. split; [reflexivity|]. split; [constructor|].
    split; [intros x []|]. split; [constructor|]. split; [auto|].
    discriminate. }
  destruct (Database.create_table_err env) as [e|]; [apply Hnone|].
  destruct (Database.ReadDir env dir) as [entries|e] eqn:Edir; [|apply Hnone].
  destruct (Database.apply_each env dir (Database.migration_files entries) st)
    as [res st'] eqn:E.
  destruct (apply_each_spec _ _ _ _ _ _ E) as [ap [cs [A [B [C [D [F [G K]]]]]]]].
  cbn [fst snd]. exists ap, cs.
  split; [exact A|]. split; [exact B|]. split; [exact C|].
  split.
  { intros f Hf. destruct (D f Hf) as [D1 D2]. split; [|exact D2].
    apply migration_files_In in D1. destruct D1 as [e [He [Hn [Hd Hs]]]].
    exists entries, e. repeat split; assumption. }
  split.
  { apply F. unfold Database.migration_files. apply sort_Strings_ascending. }
  split; [exact G|].
  intros Hres f [entries' [e [He1 [He [Hn [Hd Hs]]]]]].
  assert (entries' = entries) by congruence. subst entries'.
  apply (K Hres f). apply migration_files_In. exists e.
  repeat split; assumption.
Qed.

(* ------------------------------------------------------------------ *)
(** ** The supervisor's footprint *)

Lemma own_effect_refl runID queueID db : own_effect runID queueID db db.
Proof. unfold own_effect. repeat split; auto. Qed.

Lemma own_effect_trans runID queueID a b c :
  own_effect runID queueID a b -> own_effect runID queueID b c ->
  own_effect runID queueID a c.
Proof.
  intros [A1 [A2 [A3 [A4 A5]]]] [B1 [B2 [B3 [B4 B5]]]].
  split; [congruence|]. split; [congruence|].
  split; [intros i r Hat Hid; apply B3; [apply A3|]; assumption|].
  split; [intros q Hq; apply A4, B4; exact Hq|].
  intros q Hq Hid. apply B5; [apply A5|]; assumption.
Qed.

Lemma own_effect_update_run runID queueID f db :
  (forall r, r_id (f r) = r_id r) ->
  own_effect runID queueID db (update_run runID f db).
Proof.
  intros Hf. split; [reflexivity|].
  split; [apply update_run_ids; exact Hf|].
  split; [intros i r Hat Hid; apply update_run_frame; assumption|].
  split; auto.
Qed.

Lemma own_effect_heartbeat_tick runID queueID now db :
  own_effect runID queueID db (heartbeat_tick runID now db).
Proof.
  split; [reflexivity|]. split; [apply heartbeat_tick_ids|].
  split; [|split; auto].
  intros i r Hat Hid. rewrite heartbeat_tick_run_at, Hat. simpl.
  unfold has_id. apply uuid_eqb_neq in Hid. rewrite Hid. reflexivity.
Qed.

Lemma own_effect_cleanupQueue runID queueID db :
  own_effect runID queueID db (cleanupQueue queueID db).
Proof.
  split; [reflexivity|]. split; [reflexivity|].
  split; [intros i r Hat _; exact Hat|].
  unfold cleanupQueue, with_queue. cbn [job_queue]. split.
  - intros q Hq. apply delete_where_In in Hq. apply Hq.
  - intros q Hq Hid. apply delete_where_In. split; [exact Hq|].
    apply uuid_eqb_neq. exact Hid.
Qed.

Lemma own_effect_failRun runID queueID s m now db :
  own_effect runID queueID db (failRun runID s m now db).
Proof. unfold failRun. apply own_effect_update_run. reflexivity. Qed.

Lemma own_effect_terminal_update timedOut err exitCode N fin dur logStr runID
    queueID db :
  own_effect runID queueID db
    (terminal_update timedOut err exitCode N fin dur logStr runID db).
Proof.
  unfold terminal_update. terminal_cases timedOut err exitCode;
    apply own_effect_update_run; reflexivity.
Qed.

Lemma own_effect_wait_db docker runID queueID l : forall db,
  (forall w, In w l -> exists now, w = Tick now) ->
  own_effect runID queueID db (wait_db docker runID l db).
Proof.
  unfold wait_db. induction l as [|w l IH]; intros db H; cbn [fold_left].
  - apply own_effect_refl.
  - destruct (H w (or_introl eq_refl)) as [now ->].
    eapply own_effect_trans; [apply own_effect_heartbeat_tick|].
    apply IH. intros x Hx. apply H. right. exact Hx.
Qed.

(** X22. When no other task writes meanwhile, a supervisor changes
    nothing but columns of its own run and the presence of its own queue
    row: jobs are not written, no run is added or removed, every other
    run keeps all its columns, no queue row is added and every queue row
    with another id stays. *)
Theorem executeRun_touches_only_its_run env job runID queueID db :
  undisturbed env ->
  own_effect runID queueID db (fst (executeRun env job runID queueID db)).
Proof.
  intros [Hquiet Hticks]. rewrite executeRun_store. unfold supervisor_store.
  destruct (mark_running_err env); [apply own_effect_refl|].
  rewrite !Hquiet. unfold run_activities. cbn [fold_left].
  assert (M : own_effect runID queueID db
                (mark_running runID (now_started env) db)).
  { unfold mark_running. apply own_effect_update_run. reflexivity. }
  assert (C : own_effect runID queueID db
                (update_run runID
                   (set_container_id
                      (Some (fst (CreateContainer (docker env)
                                    (container_config job runID)))))
                   (mark_running runID (now_started env) db))).
  { eapply own_effect_trans; [exact M|].
    apply own_effect_update_run. reflexivity. }
  assert (W : own_effect runID queueID db
                (wait_db (docker env) runID (while_waiting env)
                   (update_run runID
                      (set_container_id
                         (Some (fst (CreateContainer (docker env)
                                       (container_config job runID)))))
                      (mark_running runID (now_started env) db)))).
  { eapply own_effect_trans; [exact C|].
    apply own_effect_wait_db. exact Hticks. }
  destruct (panics_at env AtPull).
  { eapply own_effect_trans; [exact M | apply own_effect_failRun]. }
  destruct (PullImage (docker env) (j_image job)).
  { eapply own_effect_trans; [|apply own_effect_cleanupQueue].
    eapply own_effect_trans; [exact M | apply own_effect_failRun]. }
  destruct (panics_at env AtCreate).
  { eapply own_effect_trans; [exact M | apply own_effect_failRun]. }
  destruct (CreateContainer (docker env) (container_config job runID))
    as [cid [e|]].
  { eapply own_effect_trans; [|apply own_effect_cleanupQueue].
    eapply own_effect_trans; [exact M | apply own_effect_failRun]. }
  cbn [fst] in C, W.
  destruct (panics_at env AtStart).
  { eapply own_effect_trans; [exact C | apply own_effect_failRun]. }
  destruct (StartContainer (docker env) cid).
  { eapply own_effect_trans; [|apply own_effect_cleanupQueue].
    eapply own_effect_trans; [exact C | apply own_effect_failRun]. }
  destruct (panics_at env AtLogs).
  { eapply own_effect_trans; [exact W | apply own_effect_failRun]. }
  eapply own_effect_trans; [|apply own_effect_cleanupQueue].
  eapply own_effect_trans; [exact W | apply own_effect_terminal_update].
Qed.

Lemma executeRun_touches_only_its_run_witness :
  own_effect "r1" "q1" Fixture.two_runs
    (fst (executeRun (Sample.env 0) Sample.job "r1" "q1" Fixture.two_runs)).
Proof.
  apply (executeRun_touches_only_its_run (Sample.env 0) Sample.job "r1" "q1"
           Fixture.two_runs).
  split.
  - intros st. reflexivity.
  - intros w [<- | [<- | []]]; eexists; reflexivity.
Defined.

(* ------------------------------------------------------------------ *)
(** ** Reading a run, deleting a job *)

Lemma find_app_fresh (A : Type) (p : A -> bool) (l : list A) (a : A) :
  (forall x, In x l -> p x = false) ->
  find p (l ++ [a]) = if p a then Some a else None.
Proof.
  induction l as [|x l IH]; intros H; simpl.
  - reflexivity.
  - rewrite (H x (or_introl eq_refl)). apply IH.
    intros y Hy. apply H. right. exact Hy.
Qed.

(** X23. A run accepted by [TriggerRun] under a fresh id is returned
    by [GetRun] to its owner exactly as [TriggerRun] answered it, and to
    any other user [GetRun] answers 404. *)
Theorem triggered_run_visible_to_owner_only errs user jobID now runID queueID
    db run db' :
  TriggerRun errs user jobID now runID queueID db = ((202, inr run), db') ->
  ~ In runID (run_ids db) ->
  GetRun false user (Some runID) db' = (StatusOK, inr run) /\
  forall other, other <> user ->
    GetRun false other (Some runID) db'
    = (StatusNotFound, inl (ErrorResponse "not_found" "Run not found")).
Proof.
  intros H Hfresh.
  destruct (TriggerRun_accepted _ _ _ _ _ _ _ _ _ H)
    as [job [_ [_ [_ [_ [Hrun Hdb]]]]]].
  assert (Hold : forall u x, In x (job_runs db) -> owned_run runID u x = false).
  { intros u x Hx. unfold owned_run.
    destruct (uuid_eqb (r_id x) runID) eqn:E; [|reflexivity].
    exfalso. apply Hfresh. apply uuid_eqb_eq in E. rewrite <- E.
    unfold run_ids. apply in_map. exact Hx. }
  subst db'. unfold GetRun, scan_run, query_row, with_queue, with_runs.
  cbn [job_runs]. split.
  - rewrite (find_app_fresh _ _ _ _ (Hold user)). subst run.
    unfold owned_run, pending_run. cbn [r_id r_user_id].
    rewrite !uuid_eqb_refl. reflexivity.
  - intros other Hother. rewrite (find_app_fresh _ _ _ _ (Hold other)).
    subst run. unfold owned_run, pending_run. cbn [r_id r_user_id].
    rewrite uuid_eqb_refl.
    assert (E : uuid_eqb user other = false).
    { apply uuid_eqb_neq. intros E. apply Hother. symmetry. exact E. }
    rewrite E. reflexivity.
Qed.

Lemma triggered_run_visible_to_owner_only_witness :
  GetRun false "u1" (Some "r2")
    (snd (TriggerRun (mkTriggerErrors false false false) "u1" (Some "j1") 300
            "r2" "q2" Sample.db))
  = (StatusOK, inr (pending_run "r2" "j1" "u1" 300)).
Proof.
  apply (triggered_run_visible_to_owner_only
           (mkTriggerErrors false false false) "u1" (Some "j1") 300 "r2" "q2"
           Sample.db (pending_run "r2" "j1" "u1" 300)).
  - reflexivity.
  - simpl. intros [H | []]. discriminate.
Defined.

Lemma referenced_iff ids id :
  JobHandler.referenced ids id = true <-> In id ids.
Proof.
  unfold JobHandler.referenced. rewrite existsb_exists. split.
  - intros [x [Hx E]]. apply uuid_eqb_eq in E. subst x. exact Hx.
  - intros H. exists id. split; [exact H | apply uuid_eqb_refl].
Qed.

Lemma referenced_false ids id :
  JobHandler.referenced ids id = false <-> ~ In id ids.
Proof.
  rewrite <- referenced_iff. destruct (JobHandler.referenced ids id); split;
    intros H; try reflexivity; try discriminate; try congruence.
Qed.

Lemma select_where_In (Row : Type) (p : Row -> bool) (t : list Row) (r : Row) :
  In r (select_where p t) <-> In r t /\ p r = true.
Proof. unfold select_where. apply filter_In. Qed.

(** The statement keeps the schema's references intact. *)
Lemma delete_job_foreign_keys jobID user db :
  foreign_keys db -> foreign_keys (snd (JobHandler.delete_job jobID user db)).
Proof.
  intros [Hruns Hqueue]. unfold JobHandler.delete_job. cbn [snd].
  set (gone_jobs := map j_id (select_where (JobHandler.owned_job jobID user)
                                (jobs db))).
  set (gone_runs := map r_id (select_where
                       (fun r => JobHandler.referenced gone_jobs (r_job_id r))
                       (job_runs db))).
  assert (Hjob : forall j, In j (jobs db) -> ~ In (j_id j) gone_jobs ->
            In j (delete_where (JobHandler.owned_job jobID user) (jobs db))).
  { intros j Hj Hn. apply delete_where_In. split; [exact Hj|].
    destruct (JobHandler.owned_job jobID user j) eqn:E; [|reflexivity].
    exfalso. apply Hn. unfold gone_jobs. apply in_map.
    apply select_where_In. split; assumption. }
  split; cbn [jobs job_runs job_queue].
  - intros r Hr. apply delete_where_In in Hr. destruct Hr as [Hr Hn].
    apply referenced_false in Hn.
    destruct (Hruns r Hr) as [j [Hj Hid]]. exists j. split; [|exact Hid].
    apply Hjob; [exact Hj | rewrite Hid; exact Hn].
  - intros q Hq. apply delete_where_In in Hq. destruct Hq as [Hq Hn].
    apply orb_false_iff in Hn. destruct Hn as [Hn1 Hn2].
    apply referenced_false in Hn1. apply referenced_false in Hn2.
    destruct (Hqueue q Hq) as [[j [Hj Hjid]] [r [Hr Hrid]]]. split.
    + exists j. split; [|exact Hjid].
      apply Hjob; [exact Hj | rewrite Hjid; exact Hn1].
    + exists r. split; [|exact Hrid]. apply delete_where_In.
      split; [exact Hr|].
      destruct (JobHandler.referenced gone_jobs (r_job_id r)) eqn:E;
        [|reflexivity].
      exfalso. apply Hn2. rewrite <- Hrid. unfold gone_runs. apply in_map.
      apply select_where_In. split; assumption.
Qed.

(** X24. [Delete] keeps the schema's references intact whatever it
    answers: afterwards every run still belongs to a stored job and every
    queue row to a stored job and a stored run. *)
Theorem Delete_keeps_foreign_keys exec_err user jobID db :
  foreign_keys db ->
  foreign_keys (snd (JobHandler.Delete exec_err user jobID db)).
Proof.
  intros H. unfold JobHandler.Delete.
  destruct jobID as [id|]; [|exact H].
  destruct exec_err; [exact H|].
  pose proof (delete_job_foreign_keys id user db H) as K.
  destruct (JobHandler.delete_job id user db) as [n db'].
  cbn [snd] in K. destruct (n =? 0); exact K.
Qed.

Lemma Delete_keeps_foreign_keys_witness :
  foreign_keys (snd (JobHandler.Delete false "u1" (Some "j1")
                       Fixture.two_owners)).
Proof.
  apply (Delete_keeps_foreign_keys false "u1" (Some "j1") Fixture.two_owners).
  split.
  - intros r [<- | [<- | []]]; eexists.
    + split; [left; reflexivity | reflexivity].
    + split; [right; left; reflexivity | reflexivity].
  - intros q [<- | [<- | []]]; split; eexists.
    + split; [left; reflexivity | reflexivity].
    + split; [left; reflexivity | reflexivity].
    + split; [right; left; reflexivity | reflexivity].
    + split; [right; left; reflexivity | reflexivity].
Defined.

Lemma filter_all (A : Type) (p : A -> bool) (l : list A) :
  (forall x, In x l -> p x = true) -> filter p l = l.
Proof.
  induction l as [|a l IH]; intros H; simpl.
  - reflexivity.
  - rewrite (H a (or_introl eq_refl)). f_equal. apply IH.
    intros x Hx. apply H. right. exact Hx.
Qed.

Lemma owned_job_spec jobID user j :
  JobHandler.owned_job jobID user j = true <->
  j_id j = jobID /\ j_user_id j = user.
Proof.
  unfold JobHandler.owned_job. rewrite andb_true_iff, !uuid_eqb_eq.
  reflexivity.
Qed.

Lemma gone_jobs_spec jobID user t id :
  In id (map j_id (select_where (JobHandler.owned_job jobID user) t)) <->
  id = jobID /\ exists j, In j t /\ j_id j = jobID /\ j_user_id j = user.
Proof.
  rewrite in_map_iff. split.
  - intros [j [Hid Hj]]. apply select_where_In in Hj. destruct Hj as [Hj Ho].
    apply owned_job_spec in Ho. destruct Ho as [H1 H2].
    split; [congruence|]. exists j. auto.
  - intros [-> [j [Hj [H1 H2]]]]. exists j. split; [exact H1|].
    apply select_where_In. split; [exact Hj|]. apply owned_job_spec. auto.
Qed.

(** X25. [Delete] answers 204 exactly when the statement succeeds and the
    caller owns a job with that id; any other answer leaves the store as
    it was.  After 204 the caller's job with that id is gone and every
    other job stays; a run stays exactly when it belongs to another job;
    a queue row stays exactly when neither its job nor the job of its run
    is the deleted one. *)
Theorem Delete_outcomes exec_err user jobID db :
  let code := fst (fst (JobHandler.Delete exec_err user jobID db)) in
  let db' := snd (JobHandler.Delete exec_err user jobID db) in
  (code = 204 <->
   exec_err = false /\
   exists id j, jobID = Some id /\ In j (jobs db) /\ j_id j = id /\
                j_user_id j = user) /\
  (code <> 204 -> db' = db) /\
  (code = 204 -> forall id, jobID = Some id ->
     (forall j, In j (jobs db') <->
                In j (jobs db) /\ ~ (j_id j = id /\ j_user_id j = user)) /\
     (forall r, In r (job_runs db') <->
                In r (job_runs db) /\ r_job_id r <> id) /\
     (forall q, In q (job_queue db') <->
                In q (job_queue db) /\ q_job_id q <> id /\
                forall r, In r (job_runs db) -> r_id r = q_run_id q ->
                          r_job_id r <> id)).
Proof.
  unfold JobHandler.Delete.
  destruct jobID as [id|].
  2:{ cbn [fst snd]. split; [split; [discriminate|]|].
      - intros [_ [id [j [H _]]]]. discriminate.
      - split; [reflexivity | discriminate]. }
  destruct exec_err.
  { cbn [fst snd]. split; [split; [discriminate | intros [H _]; discriminate]|].
    split; [reflexivity | discriminate]. }
  unfold JobHandler.delete_job.
  set (gone_jobs := map j_id (select_where (JobHandler.owned_job id user)
                                (jobs db))).
  set (gone_runs := map r_id (select_where
                       (fun r => JobHandler.referenced gone_jobs (r_job_id r))
                       (job_runs db))).
  assert (Hgone : forall x, In x gone_jobs <->
            x = id /\ exists j, In j (jobs db) /\ j_id j = id /\
                                j_user_id j = user).
  { intros x. apply gone_jobs_spec. }
  destruct (Z.of_nat (List.length gone_jobs) =? 0) eqn:En; cbn [fst snd].
  - apply Z.eqb_eq in En.
    assert (Hnil : gone_jobs = []).
    { apply length_zero_iff_nil. lia. }
    split; [split; [discriminate|]|].
    { intros [_ [id' [j [Hid [Hj [H1 H2]]]]]]. exfalso.
      injection Hid as <-.
      assert (H : In (j_id j) gone_jobs).
      { apply Hgone. split; [exact H1|]. exists j. auto. }
      rewrite Hnil in H. exact H. }
    split; [|discriminate]. intros _.
    assert (Hruns : gone_runs = []).
    { unfold gone_runs. rewrite Hnil. unfold select_where.
      rewrite filter_none; [reflexivity|]. reflexivity. }
    rewrite Hruns, Hnil. unfold delete_where.
    rewrite (filter_all _ _ (jobs db)), (filter_all _ _ (job_runs db)),
      (filter_all _ _ (job_queue db)); try reflexivity.
    + destruct db; reflexivity.
    + intros j Hj. apply negb_true_iff.
      destruct (JobHandler.owned_job id user j) eqn:E; [|reflexivity].
      exfalso. assert (H : In (j_id j) gone_jobs).
      { unfold gone_jobs. apply in_map. apply select_where_In. auto. }
      rewrite Hnil in H. exact H.
  - apply Z.eqb_neq in En.
    assert (Hex : exists j, In j (jobs db) /\ j_id j = id /\ j_user_id j = user).
    { clearbody gone_jobs. clear gone_runs.
      destruct gone_jobs as [|x l]; [exfalso; apply En; reflexivity|].
      destruct (proj1 (Hgone x) (or_introl eq_refl)) as [_ H]. exact H. }
    assert (Href : forall x, JobHandler.referenced gone_jobs x = false <->
                             x <> id).
    { intros x. rewrite referenced_false, Hgone. split.
      - intros H E. apply H. split; [exact E | exact Hex].
      - intros H [E _]. contradiction. }
    split; [split; [intros _|reflexivity]|].
    { split; [reflexivity|]. destruct Hex as [j Hj]. exists id, j.
      split; [reflexivity | exact Hj]. }
    split; [intros H; exfalso; apply H; reflexivity|].
    intros _ id' Hid. injection Hid as <-.
    cbn [jobs job_runs job_queue]. split; [|split].
    + intros j. rewrite delete_where_In. split.
      * intros [Hj Ho]. split; [exact Hj|]. intros Hown.
        apply owned_job_spec in Hown. congruence.
      * intros [Hj Hn]. split; [exact Hj|].
        destruct (JobHandler.owned_job id user j) eqn:E; [|reflexivity].
        exfalso. apply Hn. apply owned_job_spec. exact E.
    + intros r. rewrite delete_where_In, Href. reflexivity.
    + intros q. rewrite delete_where_In, orb_false_iff, Href, referenced_false.
      split.
      * intros [Hq [H1 H2]]. split; [exact Hq|]. split; [exact H1|].
        intros r Hr Hrid E. apply H2. rewrite <- Hrid. unfold gone_runs.
        apply in_map. apply select_where_In. split; [exact Hr|].
        apply referenced_iff. apply Hgone. split; [exact E | exact Hex].
      * intros [Hq [H1 H2]]. split; [exact Hq|]. split; [exact H1|].
        intros Hin. unfold gone_runs in Hin. apply in_map_iff in Hin.
        destruct Hin as [r [Hrid Hr]]. apply select_where_In in Hr.
        destruct Hr as [Hr Hrf]. apply referenced_iff in Hrf.
        apply Hgone in Hrf. destruct Hrf as [E _].
        exact (H2 r Hr Hrid E).
Qed.
